(** * rrt0: the realtime multitask monitor of mruby/c

    A shallow embedding of [src/rrt0.c].  The C code keeps its tasks in
    intrusive singly linked lists threaded through the [next] field of the
    task control blocks; the embedding keeps that representation: a memory
    of TCBs indexed by address, four queue heads that are pointers into it,
    and every function written as a computation in a state-and-error monad
    that reads and writes this memory the way the C statements do. *)

From stdpp Require Import functions gmap list fin_maps.
From Stdlib Require Import ZArith Lia.

Local Open Scope Z_scope.
#[local] Set Warnings "-clear-no-such-hyp".

(** ** Data model *)

(** Addresses are natural numbers; a C pointer is an optional address,
    [None] being [NULL]. *)
Abbreviation ptr := (option nat) (only parsing).

(** Modelled from the spec: the task state enumeration of [rrt0.h] (the
    header is not part of the sources).  [TASKSTATE_unrecognized] stands for
    any other value of the [uint8_t] field, the [default:] of the switches. *)
Inductive MrbcTaskState :=
| TASKSTATE_DOMANT
| TASKSTATE_READY
| TASKSTATE_RUNNING
| TASKSTATE_WAITING
| TASKSTATE_SUSPENDED
| TASKSTATE_unrecognized.

(** Modelled from the spec: the wait reasons of [rrt0.h]. *)
Inductive MrbcTaskReason :=
| TASKREASON_SLEEP
| TASKREASON_MUTEX.

#[global] Instance MrbcTaskState_eq_dec : EqDecision MrbcTaskState.
Proof. solve_decision. Defined.
#[global] Instance MrbcTaskReason_eq_dec : EqDecision MrbcTaskReason.
Proof. solve_decision. Defined.

(** Modelled from the spec: the task control block of [rrt0.h], with the
    attributes the spec lists.  [priority], [priority_preemption] and
    [timeslice] are [uint8_t], [wakeup_tick] is [uint32_t]. *)
Record MrbcTcb := mkTcb {
  next : ptr;
  priority : Z;
  priority_preemption : Z;
  timeslice : Z;
  state : MrbcTaskState;
  reason : MrbcTaskReason;
  wakeup_tick : Z;
  mutex : ptr;
  vm : ptr
}.

(** Modelled from the spec: the mutex record of [rrt0.h]. *)
Record MrbcMutex := mkMutex {
  lock : Z;
  tcb : ptr
}.

(** Modelled from the spec: the part of the VM ([vm.h]) the monitor touches. *)
Record mrb_vm := mkVm {
  flag_preemption : Z
}.

(** The four queue heads, addressed in the C code through [MrbcTcb **pp_q]. *)
Inductive Queue := Q_DOMANT | Q_READY | Q_WAITING | Q_SUSPENDED.

#[global] Instance Queue_eq_dec : EqDecision Queue.
Proof. solve_decision. Defined.

(** The memory the monitor works on: the TCBs, the VMs, the mutexes, and the
    file-scope variables of [rrt0.c]. *)
Record Monitor := mkMonitor {
  tcbs : gmap nat MrbcTcb;
  vms : gmap nat mrb_vm;
  mutexes : gmap nat MrbcMutex;
  q_domant_ : ptr;
  q_ready_ : ptr;
  q_waiting_ : ptr;
  q_suspended_ : ptr;
  tick_ : Z
}.

Definition TIMESLICE_TICK : Z := 10.

(** C integer conversions. *)
Definition to_uint8 (z : Z) : Z := z mod 256.
Definition to_uint32 (z : Z) : Z := z mod 2 ^ 32.
(** [int] arithmetic, two's complement wrap-around written out. *)
Definition to_int32 (z : Z) : Z := (z + 2 ^ 31) mod 2 ^ 32 - 2 ^ 31.

(** Field updates. *)
Definition set_next (v : ptr) (t : MrbcTcb) : MrbcTcb :=
  mkTcb v (priority t) (priority_preemption t) (timeslice t) (state t)
        (reason t) (wakeup_tick t) (mutex t) (vm t).
Definition set_priority (v : Z) (t : MrbcTcb) : MrbcTcb :=
  mkTcb (next t) v (priority_preemption t) (timeslice t) (state t)
        (reason t) (wakeup_tick t) (mutex t) (vm t).
Definition set_priority_preemption (v : Z) (t : MrbcTcb) : MrbcTcb :=
  mkTcb (next t) (priority t) v (timeslice t) (state t)
        (reason t) (wakeup_tick t) (mutex t) (vm t).
Definition set_timeslice (v : Z) (t : MrbcTcb) : MrbcTcb :=
  mkTcb (next t) (priority t) (priority_preemption t) v (state t)
        (reason t) (wakeup_tick t) (mutex t) (vm t).
Definition set_state (v : MrbcTaskState) (t : MrbcTcb) : MrbcTcb :=
  mkTcb (next t) (priority t) (priority_preemption t) (timeslice t) v
        (reason t) (wakeup_tick t) (mutex t) (vm t).
Definition set_reason (v : MrbcTaskReason) (t : MrbcTcb) : MrbcTcb :=
  mkTcb (next t) (priority t) (priority_preemption t) (timeslice t) (state t)
        v (wakeup_tick t) (mutex t) (vm t).
Definition set_wakeup_tick (v : Z) (t : MrbcTcb) : MrbcTcb :=
  mkTcb (next t) (priority t) (priority_preemption t) (timeslice t) (state t)
        (reason t) v (mutex t) (vm t).
Definition set_mutex (v : ptr) (t : MrbcTcb) : MrbcTcb :=
  mkTcb (next t) (priority t) (priority_preemption t) (timeslice t) (state t)
        (reason t) (wakeup_tick t) v (vm t).
Definition set_vm (v : ptr) (t : MrbcTcb) : MrbcTcb :=
  mkTcb (next t) (priority t) (priority_preemption t) (timeslice t) (state t)
        (reason t) (wakeup_tick t) (mutex t) v.

Definition set_lock (v : Z) (m : MrbcMutex) : MrbcMutex := mkMutex v (tcb m).
Definition set_tcb (v : ptr) (m : MrbcMutex) : MrbcMutex := mkMutex (lock m) v.

(** Modelled from the spec: [MRBC_MUTEX_INITIALIZER] of [rrt0.h], an unlocked
    mutex without owner. *)
Definition MRBC_MUTEX_INITIALIZER : MrbcMutex := mkMutex 0 None.

(** Modelled from the spec: the argument values of a guest call ([value.h]):
    a type tag and the integer member of the union, an [int32_t]. *)
Inductive mrb_vtype := MRB_TT_FIXNUM | MRB_TT_FLOAT | MRB_TT_OTHER.

Record mrb_value := mkValue {
  value_tt : mrb_vtype;
  value_i : Z
}.

Definition with_tcbs (h : gmap nat MrbcTcb) (s : Monitor) : Monitor :=
  mkMonitor h (vms s) (mutexes s) (q_domant_ s) (q_ready_ s) (q_waiting_ s)
            (q_suspended_ s) (tick_ s).
Definition with_vms (h : gmap nat mrb_vm) (s : Monitor) : Monitor :=
  mkMonitor (tcbs s) h (mutexes s) (q_domant_ s) (q_ready_ s) (q_waiting_ s)
            (q_suspended_ s) (tick_ s).
Definition with_mutexes (h : gmap nat MrbcMutex) (s : Monitor) : Monitor :=
  mkMonitor (tcbs s) (vms s) h (q_domant_ s) (q_ready_ s) (q_waiting_ s)
            (q_suspended_ s) (tick_ s).
Definition with_tick (z : Z) (s : Monitor) : Monitor :=
  mkMonitor (tcbs s) (vms s) (mutexes s) (q_domant_ s) (q_ready_ s)
            (q_waiting_ s) (q_suspended_ s) z.

Definition q_head (q : Queue) (s : Monitor) : ptr :=
  match q with
  | Q_DOMANT => q_domant_ s
  | Q_READY => q_ready_ s
  | Q_WAITING => q_waiting_ s
  | Q_SUSPENDED => q_suspended_ s
  end.

Definition with_q_head (q : Queue) (p : ptr) (s : Monitor) : Monitor :=
  match q with
  | Q_DOMANT =>
      mkMonitor (tcbs s) (vms s) (mutexes s) p (q_ready_ s) (q_waiting_ s)
                (q_suspended_ s) (tick_ s)
  | Q_READY =>
      mkMonitor (tcbs s) (vms s) (mutexes s) (q_domant_ s) p (q_waiting_ s)
                (q_suspended_ s) (tick_ s)
  | Q_WAITING =>
      mkMonitor (tcbs s) (vms s) (mutexes s) (q_domant_ s) (q_ready_ s) p
                (q_suspended_ s) (tick_ s)
  | Q_SUSPENDED =>
      mkMonitor (tcbs s) (vms s) (mutexes s) (q_domant_ s) (q_ready_ s)
                (q_waiting_ s) p (tick_ s)
  end.

(** ** The monad of the embedding

    A C function is a state transformer that may fail: by dereferencing a
    pointer that is [NULL] or points to no object, by a failed [assert], or
    by never returning.  Loops over the linked lists run on a fuel one
    above the number of TCBs in memory: a scan that has visited as many TCBs
    without ending has met one of them twice, which on a list that the scan
    does not change means that it goes round for ever; running out of this
    fuel is reported as [Diverges].  On the null-terminated queues of the
    theorems below the fuel never runs out.  [OutOfFuel] is for the
    dispatcher loop, which is followed for a given number of turns only. *)
Inductive error := BadPointer | AssertionFailed | Diverges | OutOfFuel.

Inductive result (A : Type) :=
| Ok (a : A)
| Err (e : error).
Arguments Ok {A} a.
Arguments Err {A} e.

Definition M (A : Type) : Type := Monitor -> result (A * Monitor).

Definition ret {A} (a : A) : M A := fun s => Ok (a, s).
Definition fail {A} (e : error) : M A := fun _ => Err e.
Definition bind {A B} (m : M A) (k : A -> M B) : M B :=
  fun s => match m s with
           | Ok (a, s') => k a s'
           | Err e => Err e
           end.
Definition get : M Monitor := fun s => Ok (s, s).
Definition modify (f : Monitor -> Monitor) : M unit := fun s => Ok (tt, f s).

Declare Scope monitor_scope.
Delimit Scope monitor_scope with mon.
Notation "x <- m ;; k" := (bind m (fun x => k))
  (at level 100, m at next level, right associativity) : monitor_scope.
Notation "m ;; k" := (bind m (fun _ => k))
  (at level 100, right associativity) : monitor_scope.
Local Open Scope monitor_scope.

(** [*p] for a TCB pointer. *)
Definition load (p : ptr) : M MrbcTcb :=
  fun s => match p with
           | None => Err BadPointer
           | Some a => match tcbs s !! a with
                       | Some t => Ok (t, s)
                       | None => Err BadPointer
                       end
           end.

(** [p->field = v], as the update [f] of the TCB at [p]. *)
Definition store (p : ptr) (f : MrbcTcb -> MrbcTcb) : M unit :=
  fun s => match p with
           | None => Err BadPointer
           | Some a => match tcbs s !! a with
                       | Some t => Ok (tt, with_tcbs (<[a := f t]> (tcbs s)) s)
                       | None => Err BadPointer
                       end
           end.

(** [vm->flag_preemption = v]. *)
Definition set_flag_preemption (v : ptr) (z : Z) : M unit :=
  fun s => match v with
           | None => Err BadPointer
           | Some a => match vms s !! a with
                       | Some _ => Ok (tt, with_vms (<[a := mkVm z]> (vms s)) s)
                       | None => Err BadPointer
                       end
           end.

Definition load_mutex (m : ptr) : M MrbcMutex :=
  fun s => match m with
           | None => Err BadPointer
           | Some a => match mutexes s !! a with
                       | Some x => Ok (x, s)
                       | None => Err BadPointer
                       end
           end.

Definition store_mutex (m : ptr) (f : MrbcMutex -> MrbcMutex) : M unit :=
  fun s => match m with
           | None => Err BadPointer
           | Some a => match mutexes s !! a with
                       | Some x =>
                           Ok (tt, with_mutexes (<[a := f x]> (mutexes s)) s)
                       | None => Err BadPointer
                       end
           end.

Definition get_q (q : Queue) : M ptr := fun s => Ok (q_head q s, s).
Definition set_q (q : Queue) (p : ptr) : M unit := modify (with_q_head q p).

(** The loop fuel. *)
Definition fuel_of (s : Monitor) : nat := S (size (tcbs s)).

Section Monitor.

(** [NDEBUG]: when set, [assert] compiles to nothing. *)
Variable NDEBUG : bool.

Definition assert (c : bool) : M unit :=
  if NDEBUG || c then ret tt else fail AssertionFailed.

(** The [switch( p_tcb->state )] that opens both queue functions; [None] is
    the [default:] branch. *)
Definition pp_q_of (st : MrbcTaskState) : option Queue :=
  match st with
  | TASKSTATE_DOMANT => Some Q_DOMANT
  | TASKSTATE_READY => Some Q_READY
  | TASKSTATE_RUNNING => Some Q_READY
  | TASKSTATE_WAITING => Some Q_WAITING
  | TASKSTATE_SUSPENDED => Some Q_SUSPENDED
  | TASKSTATE_unrecognized => None
  end.

(** The [while( 1 )] of [q_insert_task], from [MrbcTcb *p = *pp_q]. *)
Fixpoint q_insert_task_loop (n : nat) (p_tcb p : ptr) : M unit :=
  match n with
  | O => fail Diverges
  | S n' =>
      x <- load p;;
      stop <- match next x with
              | None => ret true
              | Some _ =>
                  t <- load p_tcb;;
                  nx <- load (next x);;
                  ret (priority_preemption t <? priority_preemption nx)
              end;;
      if (stop : bool) then
        x <- load p;;
        store p_tcb (set_next (next x));;
        store p (set_next p_tcb);;
        x <- load p;;
        assert (negb (bool_decide (next x = p)))
      else
        q_insert_task_loop n' p_tcb (next x)
  end.

Definition q_insert_task (p_tcb : ptr) : M unit :=
  t <- load p_tcb;;
  match pp_q_of (state t) with
  | None => assert false
  | Some pp_q =>
      hd <- get_q pp_q;;
      top <- match hd with
             | None => ret true
             | Some _ =>
                 h <- load hd;;
                 ret (priority_preemption t <? priority_preemption h)
             end;;
      if (top : bool) then
        store p_tcb (set_next hd);;
        set_q pp_q p_tcb;;
        t <- load p_tcb;;
        assert (negb (bool_decide (next t = p_tcb)))
      else
        s <- get;;
        q_insert_task_loop (fuel_of s) p_tcb hd
  end.

(** The [while( p )] of [q_delete_task]. *)
Fixpoint q_delete_task_loop (n : nat) (p_tcb p : ptr) : M unit :=
  match p with
  | None => ret tt
  | Some _ =>
      match n with
      | O => fail Diverges
      | S n' =>
          x <- load p;;
          if bool_decide (next x = p_tcb) then
            t <- load p_tcb;;
            store p (set_next (next t));;
            store p_tcb (set_next None)
          else
            q_delete_task_loop n' p_tcb (next x)
      end
  end.

Definition q_delete_task (p_tcb : ptr) : M unit :=
  t <- load p_tcb;;
  match pp_q_of (state t) with
  | None => assert false
  | Some pp_q =>
      hd <- get_q pp_q;;
      match hd with
      | None => ret tt
      | Some _ =>
          if bool_decide (hd = p_tcb) then
            set_q pp_q (next t);;
            store p_tcb (set_next None)
          else
            s <- get;;
            q_delete_task_loop (fuel_of s) p_tcb hd
      end
  end.

(** The scan of [find_requested_task]. *)
Fixpoint find_requested_task_loop (n : nat) (vmp p : ptr) : M ptr :=
  match p with
  | None => ret None
  | Some _ =>
      match n with
      | O => fail Diverges
      | S n' =>
          x <- load p;;
          if bool_decide (vm x = vmp) then ret p
          else find_requested_task_loop n' vmp (next x)
      end
  end.

Definition find_requested_task (vmp : ptr) : M ptr :=
  hd <- get_q Q_READY;;
  s <- get;;
  find_requested_task_loop (fuel_of s) vmp hd.

(** The sweep written out three times in the source (in [mrbc_tick],
    [mrbc_resume_task] and [mrbc_mutex_unlock]):
    [while( tcb != NULL ) { if( tcb->state == TASKSTATE_RUNNING )
    tcb->vm->flag_preemption = 1; tcb = tcb->next; }]. *)
Fixpoint preempt_running_loop (n : nat) (p : ptr) : M unit :=
  match p with
  | None => ret tt
  | Some _ =>
      match n with
      | O => fail Diverges
      | S n' =>
          x <- load p;;
          (if bool_decide (state x = TASKSTATE_RUNNING)
           then set_flag_preemption (vm x) 1
           else ret tt);;
          x <- load p;;
          preempt_running_loop n' (next x)
      end
  end.

Definition preempt_running : M unit :=
  hd <- get_q Q_READY;;
  s <- get;;
  preempt_running_loop (fuel_of s) hd.

(** [hal_disable_irq] and [hal_enable_irq] mask the tick interrupt; in the
    sequential embedding, where [mrbc_tick] is a call like any other, they do
    nothing.  Where the dispatcher tests the queue heads one after another
    with interrupts enabled, the ticks that fall between two of its loads are
    calls of [mrbc_tick] made there ([irq_ticks], below). *)
Definition hal_disable_irq : M unit := ret tt.
Definition hal_enable_irq : M unit := ret tt.

Definition mrbc_sleep_ms (tcbp : ptr) (ms : Z) : M unit :=
  hal_disable_irq;;
  q_delete_task tcbp;;
  store tcbp (set_timeslice 0);;
  store tcbp (set_state TASKSTATE_WAITING);;
  store tcbp (set_reason TASKREASON_SLEEP);;
  s <- get;;
  store tcbp (set_wakeup_tick (to_uint32 (tick_ s + ms)));;
  q_insert_task tcbp;;
  hal_enable_irq;;
  t <- load tcbp;;
  set_flag_preemption (vm t) 1.

Definition mrbc_relinquish (tcbp : ptr) : M unit :=
  store tcbp (set_timeslice 0);;
  t <- load tcbp;;
  set_flag_preemption (vm t) 1.

Definition mrbc_change_priority (tcbp : ptr) (prio : Z) : M unit :=
  store tcbp (set_priority (to_uint8 prio));;
  store tcbp (set_priority_preemption (to_uint8 prio));;
  store tcbp (set_timeslice 0);;
  t <- load tcbp;;
  set_flag_preemption (vm t) 1.

Definition mrbc_suspend_task (tcbp : ptr) : M unit :=
  hal_disable_irq;;
  q_delete_task tcbp;;
  store tcbp (set_state TASKSTATE_SUSPENDED);;
  q_insert_task tcbp;;
  hal_enable_irq;;
  t <- load tcbp;;
  set_flag_preemption (vm t) 1.

Definition mrbc_resume_task (tcbp : ptr) : M unit :=
  hal_disable_irq;;
  preempt_running;;
  q_delete_task tcbp;;
  store tcbp (set_state TASKSTATE_READY);;
  q_insert_task tcbp;;
  hal_enable_irq.

(** The walk of [mrbc_tick] over the waiting queue; [flag] is the local
    [flag_preemption]. *)
Fixpoint mrbc_tick_loop (n : nat) (p : ptr) (flag : Z) : M Z :=
  match p with
  | None => ret flag
  | Some _ =>
      match n with
      | O => fail Diverges
      | S n' =>
          let t := p in
          x <- load t;;
          let p' := next x in
          s <- get;;
          if bool_decide (reason x = TASKREASON_SLEEP)
             && (wakeup_tick x =? tick_ s)
          then
            q_delete_task t;;
            store t (set_state TASKSTATE_READY);;
            store t (set_timeslice TIMESLICE_TICK);;
            q_insert_task t;;
            mrbc_tick_loop n' p' 1
          else
            mrbc_tick_loop n' p' flag
      end
  end.

Definition mrbc_tick : M unit :=
  modify (fun s => with_tick (to_uint32 (tick_ s + 1)) s);;
  hd <- get_q Q_READY;;
  match hd with
  | None => ret tt
  | Some _ =>
      x <- load hd;;
      if bool_decide (state x = TASKSTATE_RUNNING) && (0 <? timeslice x)
      then
        store hd (set_timeslice (to_uint8 (timeslice x - 1)));;
        x <- load hd;;
        if timeslice x =? 0 then set_flag_preemption (vm x) 1 else ret tt
      else ret tt
  end;;
  w <- get_q Q_WAITING;;
  s <- get;;
  flag <- mrbc_tick_loop (fuel_of s) w 0;;
  if negb (flag =? 0) then preempt_running else ret tt.

(** [n] timer interrupts in a row. *)
Fixpoint mrbc_ticks (n : nat) : M unit :=
  match n with
  | O => ret tt
  | S n' => mrbc_tick;; mrbc_ticks n'
  end.

(** *** Guest bindings *)

(** [(uint32_t)(GET_FLOAT_ARG(1) * 1000)]: floating point stays outside the
    embedding, the conversion is a parameter. *)
Variable float_ms : mrb_value -> Z.

(** [v[n]], an argument register of the calling VM. *)
Definition arg (n : nat) (v : list mrb_value) : M mrb_value :=
  match v !! n with
  | Some x => ret x
  | None => fail BadPointer
  end.

Definition c_sleep (vmp : ptr) (v : list mrb_value) : M unit :=
  tcbp <- find_requested_task vmp;;
  match tcbp with
  | None => ret tt
  | Some _ =>
      a <- arg 1 v;;
      match value_tt a with
      | MRB_TT_FIXNUM =>
          mrbc_sleep_ms tcbp (to_uint32 (to_int32 (value_i a * 1000)))
      | MRB_TT_FLOAT => mrbc_sleep_ms tcbp (to_uint32 (float_ms a))
      | MRB_TT_OTHER => ret tt
      end
  end.

Definition c_sleep_ms (vmp : ptr) (v : list mrb_value) : M unit :=
  tcbp <- find_requested_task vmp;;
  match tcbp with
  | None => ret tt
  | Some _ =>
      a <- arg 1 v;;
      mrbc_sleep_ms tcbp (to_uint32 (value_i a))
  end.

Definition c_relinquish (vmp : ptr) (v : list mrb_value) : M unit :=
  tcbp <- find_requested_task vmp;;
  match tcbp with
  | None => ret tt
  | Some _ => mrbc_relinquish tcbp
  end.

Definition c_change_priority (vmp : ptr) (v : list mrb_value) : M unit :=
  tcbp <- find_requested_task vmp;;
  match tcbp with
  | None => ret tt
  | Some _ =>
      a <- arg 1 v;;
      mrbc_change_priority tcbp (value_i a)
  end.

Definition c_suspend_task (vmp : ptr) (v : list mrb_value) : M unit :=
  tcbp <- find_requested_task vmp;;
  match tcbp with
  | None => ret tt
  | Some _ => mrbc_suspend_task tcbp
  end.

Definition c_resume_task (vmp : ptr) (v : list mrb_value) : M unit :=
  tcbp <- find_requested_task vmp;;
  match tcbp with
  | None => ret tt
  | Some _ => mrbc_resume_task tcbp
  end.

Definition c_get_tcb (vmp : ptr) (v : list mrb_value) : M unit :=
  tcbp <- find_requested_task vmp;;
  match tcbp with
  | None => ret tt
  | Some _ => ret tt
  end.

(** *** Mutex *)

Definition mrbc_mutex_lock (mutexp tcbp : ptr) : M Z :=
  hal_disable_irq;;
  m <- load_mutex mutexp;;
  if lock m =? 0 then
    store_mutex mutexp (set_lock 1);;
    store_mutex mutexp (set_tcb tcbp);;
    hal_enable_irq;;
    ret 0
  else
    q_delete_task tcbp;;
    store tcbp (set_state TASKSTATE_WAITING);;
    store tcbp (set_reason TASKREASON_MUTEX);;
    store tcbp (set_mutex mutexp);;
    q_insert_task tcbp;;
    t <- load tcbp;;
    set_flag_preemption (vm t) 1;;
    hal_enable_irq;;
    ret 0.

(** The scan of [mrbc_mutex_unlock] over the waiting queue; the result is the
    local [flag_preemption]. *)
Fixpoint mrbc_mutex_unlock_loop (n : nat) (mutexp p : ptr) : M Z :=
  match p with
  | None => ret 0
  | Some _ =>
      match n with
      | O => fail Diverges
      | S n' =>
          x <- load p;;
          if bool_decide (reason x = TASKREASON_MUTEX)
             && bool_decide (mutex x = mutexp)
          then
            store_mutex mutexp (set_tcb p);;
            q_delete_task p;;
            store p (set_state TASKSTATE_READY);;
            q_insert_task p;;
            ret 1
          else
            mrbc_mutex_unlock_loop n' mutexp (next x)
      end
  end.

Definition mrbc_mutex_unlock (mutexp tcbp : ptr) : M Z :=
  m <- load_mutex mutexp;;
  assert (bool_decide (tcb m = tcbp));;
  m <- load_mutex mutexp;;
  assert (lock m =? 1);;
  hal_disable_irq;;
  w <- get_q Q_WAITING;;
  s <- get;;
  flag <- mrbc_mutex_unlock_loop (fuel_of s) mutexp w;;
  (if negb (flag =? 0) then preempt_running
   else store_mutex mutexp (set_lock 0));;
  hal_enable_irq;;
  ret 0.

Definition mrbc_mutex_trylock (mutexp tcbp : ptr) : M Z :=
  hal_disable_irq;;
  m <- load_mutex mutexp;;
  r <- (if lock m =? 0 then
          store_mutex mutexp (set_lock 1);;
          store_mutex mutexp (set_tcb tcbp);;
          ret 0
        else ret 1);;
  hal_enable_irq;;
  ret r.

(** The address of the file-scope [mutex1]. *)
Definition mutex1 : ptr := Some 0%nat.

Definition c_mutex_lock (vmp : ptr) (v : list mrb_value) : M unit :=
  tcbp <- find_requested_task vmp;;
  assert (negb (bool_decide (tcbp = None)));;
  mrbc_mutex_lock mutex1 tcbp;;
  ret tt.

Definition c_mutex_unlock (vmp : ptr) (v : list mrb_value) : M unit :=
  tcbp <- find_requested_task vmp;;
  assert (negb (bool_decide (tcbp = None)));;
  mrbc_mutex_unlock mutex1 tcbp;;
  ret tt.

(** *** Task creation and the dispatcher *)

(** The collaborators that are not part of the sources: the allocator, the
    initial TCB value of [rrt0.h], the VM engine and the idle hook.  They are
    arbitrary computations on the monitor's memory. *)
Variable mrbc_raw_alloc : M ptr.
Variable MRBC_TCB_INITIALIZER : MrbcTcb.
Variable mrbc_vm_open : M ptr.
Variable mrbc_load_mrb : ptr -> list Z -> M Z.
Variable mrbc_vm_begin : ptr -> M unit.
Variable mrbc_vm_run : ptr -> M Z.
Variable hal_idle_cpu : M unit.

(** The timer while the dispatcher tests whether to leave its loop.  The
    test [q_ready_ == NULL && q_waiting_ == NULL && q_suspended_ == NULL]
    follows [hal_enable_irq()]: it loads the three heads one after another,
    and the interrupt handler [mrbc_tick] may run between two loads.
    [irq_ticks i] is the number of ticks that fall at the place [i]: place 0
    is between the loads of [q_ready_] and [q_waiting_], place 1 between the
    loads of [q_waiting_] and [q_suspended_]. *)
Variable irq_ticks : nat -> nat.

(** Modelled from the spec: [mrbc_vm_end] of the VM engine ends the
    execution of an open VM; nothing the monitor sees changes. *)
Definition mrbc_vm_end (vmp : ptr) : M unit :=
  fun s => match vmp with
           | None => Err BadPointer
           | Some a => match vms s !! a with
                       | Some _ => Ok (tt, s)
                       | None => Err BadPointer
                       end
           end.

(** Modelled from the spec: [mrbc_vm_close] of the VM engine releases the
    VM, which is no longer among the open ones. *)
Definition mrbc_vm_close (vmp : ptr) : M unit :=
  fun s => match vmp with
           | None => Err BadPointer
           | Some a => match vms s !! a with
                       | Some _ => Ok (tt, with_vms (delete a (vms s)) s)
                       | None => Err BadPointer
                       end
           end.

Definition mrbc_create_task (vm_code : list Z) (tcbp : ptr) : M ptr :=
  r <- match tcbp with
       | None =>
           p <- mrbc_raw_alloc;;
           match p with
           | None => ret None
           | Some a =>
               modify (fun s =>
                 with_tcbs (<[a := MRBC_TCB_INITIALIZER]> (tcbs s)) s);;
               ret p
           end
       | Some _ => ret tcbp
       end;;
  match r with
  | None => ret None
  | Some _ =>
      store r (set_timeslice TIMESLICE_TICK);;
      t <- load r;;
      store r (set_priority_preemption (priority t));;
      t <- load r;;
      ok <- (if negb (bool_decide (state t = TASKSTATE_DOMANT)) then
               v <- mrbc_vm_open;;
               store r (set_vm v);;
               t <- load r;;
               match vm t with
               | None => ret false
               | Some _ =>
                   rc <- mrbc_load_mrb (vm t) vm_code;;
                   if negb (rc =? 0) then
                     t <- load r;;
                     mrbc_vm_close (vm t);;
                     ret false
                   else
                     t <- load r;;
                     mrbc_vm_begin (vm t);;
                     ret true
               end
             else ret true);;
      if (ok : bool) then
        hal_disable_irq;;
        q_insert_task r;;
        hal_enable_irq;;
        ret r
      else ret None
  end.

(** How one turn of the [while( 1 )] of [mrbc_run] ends. *)
Inductive loop_exit := Break | Continue.

(** The body of the dispatcher loop, in the build with a hardware timer
    ([MRBC_NO_TIMER] not defined).  The test that ends the loop is the C
    conjunction, evaluated from the left: [q_waiting_] is loaded only after
    [q_ready_] read [NULL], and [q_suspended_] only after both did. *)
Definition mrbc_run_body : M loop_exit :=
  tcbp <- get_q Q_READY;;
  match tcbp with
  | None =>
      hal_idle_cpu;;
      ret Continue
  | Some _ =>
      store tcbp (set_state TASKSTATE_RUNNING);;
      t <- load tcbp;;
      set_flag_preemption (vm t) 0;;
      t <- load tcbp;;
      res <- mrbc_vm_run (vm t);;
      if res <? 0 then
        hal_disable_irq;;
        q_delete_task tcbp;;
        store tcbp (set_state TASKSTATE_DOMANT);;
        q_insert_task tcbp;;
        hal_enable_irq;;
        t <- load tcbp;;
        mrbc_vm_end (vm t);;
        t <- load tcbp;;
        mrbc_vm_close (vm t);;
        store tcbp (set_vm None);;
        r <- get_q Q_READY;;
        if negb (bool_decide (r = None)) then ret Continue
        else
          mrbc_ticks (irq_ticks 0%nat);;
          w <- get_q Q_WAITING;;
          if negb (bool_decide (w = None)) then ret Continue
          else
            mrbc_ticks (irq_ticks 1%nat);;
            u <- get_q Q_SUSPENDED;;
            if negb (bool_decide (u = None)) then ret Continue
            else ret Break
      else
        hal_disable_irq;;
        t <- load tcbp;;
        (if bool_decide (state t = TASKSTATE_RUNNING) then
           store tcbp (set_state TASKSTATE_READY);;
           t <- load tcbp;;
           if timeslice t =? 0 then
             q_delete_task tcbp;;
             store tcbp (set_timeslice TIMESLICE_TICK);;
             q_insert_task tcbp
           else ret tt
         else ret tt);;
        hal_enable_irq;;
        ret Continue
  end.

(** [mrbc_run], observed for at most [n] turns of its loop. *)
Fixpoint mrbc_run (n : nat) : M Z :=
  match n with
  | O => fail OutOfFuel
  | S n' =>
      c <- mrbc_run_body;;
      match c with
      | Break => ret 0
      | Continue => mrbc_run n'
      end
  end.

(** *** Mutex initialisation and the build without a timer *)

(** [mrbc_mutex_init]; [*mutex = init_val] writes the whole object, whatever
    the memory at [mutex] held. *)
Definition mrbc_mutex_init (mutexp : ptr) : M ptr :=
  r <- match mutexp with
       | None => mrbc_raw_alloc
       | Some _ => ret mutexp
       end;;
  match r with
  | None => ret None
  | Some a =>
      modify (fun s =>
        with_mutexes (<[a := MRBC_MUTEX_INITIALIZER]> (mutexes s)) s);;
      ret r
  end.

(** The build with [MRBC_NO_TIMER] replaces the call of the VM in the
    dispatcher by the loop [while( tcb->timeslice > 0 )], which counts the
    slices itself, followed by a call of [mrbc_tick].  The loop, entered with
    [res] and followed for at most [n] slices: *)
Fixpoint mrbc_run_slices (n : nat) (tcbp : ptr) (res : Z) : M Z :=
  t <- load tcbp;;
  if 0 <? timeslice t then
    match n with
    | O => fail OutOfFuel
    | S n' =>
        set_flag_preemption (vm t) 1;;
        t <- load tcbp;;
        res <- mrbc_vm_run (vm t);;
        t <- load tcbp;;
        store tcbp (set_timeslice (to_uint8 (timeslice t - 1)));;
        if res <? 0 then ret res
        else
          t <- load tcbp;;
          if negb (bool_decide (state t = TASKSTATE_RUNNING)) then ret res
          else mrbc_run_slices n' tcbp res
    end
  else ret res.

End Monitor.

(** Not embedded: [mrbc_init], which registers the bindings with the VM
    classes; the debug printers [pq] and [pqall]; [c_waste]; the output to
    [stderr] and to the console. *)

(** ** The queues as lists

    The abstraction the properties are stated on: the list of addresses met
    from a queue head along the [next] fields. *)
Fixpoint walk (n : nat) (h : gmap nat MrbcTcb) (p : ptr) : option (list nat) :=
  match p with
  | None => Some []
  | Some a =>
      match n with
      | O => None
      | S n' =>
          match h !! a with
          | None => None
          | Some t =>
              match walk n' h (next t) with
              | Some l => Some (a :: l)
              | None => None
              end
          end
      end
  end.

Definition queue_of (q : Queue) (s : Monitor) : option (list nat) :=
  walk (fuel_of s) (tcbs s) (q_head q s).

(** The ordering key of the TCB at an address. *)
Definition prio (s : Monitor) (a : nat) : Z :=
  match tcbs s !! a with
  | Some t => priority_preemption t
  | None => 0
  end.

Fixpoint ascending (l : list Z) : bool :=
  match l with
  | x :: (y :: _) as l' => (x <=? y) && ascending l'
  | _ => true
  end.

(** A queue sorted ascending by [priority_preemption]. *)
Definition sorted_queue (s : Monitor) (l : list nat) : bool :=
  ascending (prio s <$> l).

(** The four queues are null-terminated lists without a shared TCB. *)
Definition queues_wf (s : Monitor) : bool :=
  match queue_of Q_DOMANT s, queue_of Q_READY s,
        queue_of Q_WAITING s, queue_of Q_SUSPENDED s with
  | Some d, Some r, Some w, Some u => bool_decide (NoDup (d ++ r ++ w ++ u))
  | _, _, _, _ => false
  end.

(** Every TCB of queue [q] is in a state that selects [q]. *)
Definition states_agree_on (q : Queue) (s : Monitor) : bool :=
  match queue_of q s with
  | Some l =>
      forallb (fun a => match tcbs s !! a with
                        | Some t => bool_decide (pp_q_of (state t) = Some q)
                        | None => false
                        end) l
  | None => false
  end.

Definition states_agree (s : Monitor) : bool :=
  states_agree_on Q_DOMANT s && states_agree_on Q_READY s
  && states_agree_on Q_WAITING s && states_agree_on Q_SUSPENDED s.

(** Every TCB of queue [q] holds an open VM. *)
Definition vms_open_on (q : Queue) (s : Monitor) : bool :=
  match queue_of q s with
  | Some l =>
      forallb (fun a => match tcbs s !! a with
                        | Some t => match vm t with
                                    | Some v => bool_decide (is_Some (vms s !! v))
                                    | None => false
                                    end
                        | None => false
                        end) l
  | None => false
  end.

Definition vms_open (s : Monitor) : bool :=
  vms_open_on Q_READY s && vms_open_on Q_WAITING s
  && vms_open_on Q_SUSPENDED s.

(** The invariant of the monitor's memory between two operations. *)
Definition invariant (s : Monitor) : bool :=
  queues_wf s && states_agree s && vms_open s.

(** ** Abstractions and predicates the properties are stated with *)

(** [is_queue h p l]: following [next] from [p] in [h] meets exactly the
    addresses of [l] and then [NULL]. *)
Fixpoint is_queue (h : gmap nat MrbcTcb) (p : ptr) (l : list nat) : Prop :=
  match l with
  | [] => p = None
  | a :: l' => p = Some a ∧ ∃ t, h !! a = Some t ∧ is_queue h (next t) l'
  end.

(** What the queue functions change.  [relinked_heap X h h']: from [h] to
    [h'] only [next] fields changed, and only in TCBs of [X]. *)
Definition relinked_heap (X : list nat) (h h' : gmap nat MrbcTcb) : Prop :=
  (∀ c, c ∉ X → h' !! c = h !! c)
  ∧ (∀ c, set_next None <$> h' !! c = set_next None <$> h !! c).

(** [relinked q X s s']: moreover no variable but the head of [q] changed. *)
Definition relinked (q : Queue) (X : list nat) (s s' : Monitor) : Prop :=
  vms s' = vms s ∧ mutexes s' = mutexes s ∧ tick_ s' = tick_ s
  ∧ (∀ q', q' ≠ q → q_head q' s' = q_head q' s)
  ∧ relinked_heap X (tcbs s) (tcbs s').

(** The list a sorted insertion produces: [a] goes before the first element
    with a strictly greater key. *)
Fixpoint insert_by_priority (key : nat → Z) (a : nat) (l : list nat)
  : list nat :=
  match l with
  | [] => [a]
  | b :: l' =>
      if key a <? key b then a :: b :: l'
      else b :: insert_by_priority key a l'
  end.

(** The four queues together.  [rep s L]: queue [q] of [s] is the list
    [L q], and no TCB is on two queues. *)
Definition rep (s : Monitor) (L : Queue → list nat) : Prop :=
  (∀ q, is_queue (tcbs s) (q_head q s) (L q))
  ∧ (∀ q q' c, c ∈ L q → c ∈ L q' → q = q').

(** The lists of the four queues, as [queue_of] computes them. *)
Definition queues (s : Monitor) : Queue → list nat :=
  λ q, default [] (queue_of q s).

(** Every TCB of queue [q] is in a state that selects [q]. *)
Definition agree (s : Monitor) (L : Queue → list nat) : Prop :=
  ∀ q c, c ∈ L q →
    ∃ t, tcbs s !! c = Some t ∧ pp_q_of (state t) = Some q.

(** Every TCB of a queue other than the dormant one holds an open VM. *)
Definition has_vms (s : Monitor) (L : Queue → list nat) : Prop :=
  ∀ q c, q ≠ Q_DOMANT → c ∈ L q →
    ∃ t v, tcbs s !! c = Some t ∧ vm t = Some v ∧ is_Some (vms s !! v).

(** The invariant, as [invariant] checks it, for the queue lists [L]. *)
Definition inv (s : Monitor) (L : Queue → list nat) : Prop :=
  rep s L ∧ agree s L ∧ has_vms s L.

(** A field update that leaves the link alone. *)
Definition keeps_link (f : MrbcTcb → MrbcTcb) : Prop :=
  ∀ x v, f (set_next v x) = set_next v (f x).

(** The queues after [a] went from wherever it was to queue [q2]. *)
Definition moved (key : nat → Z) (a : nat) (q2 : Queue)
    (L : Queue → list nat) : Queue → list nat :=
  λ q, let l := filter (λ c, c ≠ a) (L q) in
       if decide (q = q2) then insert_by_priority key a l else l.

(** The VMs after the sweep over the TCBs [l]: the flag of the VM of every
    [RUNNING] one is set. *)
Definition preempted (h : gmap nat MrbcTcb) (l : list nat)
    (m : gmap nat mrb_vm) : gmap nat mrb_vm :=
  foldl (λ m c, match h !! c with
                | Some t => if bool_decide (state t = TASKSTATE_RUNNING)
                            then match vm t with
                                 | Some v => <[v := mkVm 1]> m
                                 | None => m
                                 end
                            else m
                | None => m
                end) m l.

(** What an operation leaves of the TCB of another task: every field but
    the link. *)
Definition others_kept (a : nat) (s s' : Monitor) : Prop :=
  ∀ c, c ≠ a →
    set_next None <$> tcbs s' !! c = set_next None <$> tcbs s !! c.

(** The TCB at [c] belongs to the VM [vmp]. *)
Definition runs_vm (s : Monitor) (vmp : ptr) (c : nat) : bool :=
  match tcbs s !! c with
  | Some t => bool_decide (vm t = vmp)
  | None => false
  end.

(** The TCB at [c] waits for the mutex [mutexp]. *)
Definition waits_for (s : Monitor) (mutexp : ptr) (c : nat) : bool :=
  match tcbs s !! c with
  | Some t => bool_decide (reason t = TASKREASON_MUTEX)
              && bool_decide (mutex t = mutexp)
  | None => false
  end.

(** The TCB at [c] sleeps and the tick counter has reached its
    [wakeup_tick]: the wakeup predicate of [mrbc_tick]. *)
Definition due (s : Monitor) (c : nat) : bool :=
  match tcbs s !! c with
  | Some t => bool_decide (reason t = TASKREASON_SLEEP)
              && (wakeup_tick t =? tick_ s)
  | None => false
  end.

(** The TCB at [c] sleeps until the next tick. *)
Definition due_next (s : Monitor) (c : nat) : bool :=
  due (with_tick (to_uint32 (tick_ s + 1)) s) c.

(** All the TCBs that are on some queue. *)
Definition all_queued (s : Monitor) : list nat :=
  queues s Q_DOMANT ++ queues s Q_READY ++ queues s Q_WAITING
  ++ queues s Q_SUSPENDED.

(** The TCB at [a] is on no queue. *)
Definition detached (s : Monitor) (a : nat) : bool :=
  bool_decide (a ∉ all_queued s).

(** The memory the dispatcher hands to the VM of the task [a] it selected:
    the task is [RUNNING] and the preemption flag of its VM [v] is clear. *)
Definition dispatched (s : Monitor) (a : nat) (t : MrbcTcb) (v : nat)
  : Monitor :=
  with_vms (<[v := mkVm 0]> (vms s))
    (with_tcbs (<[a := set_state TASKSTATE_RUNNING t]> (tcbs s)) s).

(** The head of the ready queue is [RUNNING] with some of its timeslice
    left: the test [mrbc_tick] makes before it charges the tick. *)
Definition slice_running (s : Monitor) : bool :=
  match q_ready_ s with
  | Some h =>
      match tcbs s !! h with
      | Some x => bool_decide (state x = TASKSTATE_RUNNING)
                  && (0 <? timeslice x)
      | None => false
      end
  | None => false
  end.

(** Guest programs for one slice: the bytecode calls a binding, which sets
    the preemption flag, and the VM returns to the dispatcher. *)
Definition guest_relinquishes (vmp : ptr) : M Z :=
  bind (c_relinquish vmp []) (fun _ => ret 0).
Definition guest_changes_priority (v : list mrb_value) (vmp : ptr) : M Z :=
  bind (c_change_priority vmp v) (fun _ => ret 0).

(** The four queues are sorted ascending by [priority_preemption]. *)
Definition queues_sorted (s : Monitor) : bool :=
  forallb (λ q, sorted_queue s (queues s q))
    [Q_DOMANT; Q_READY; Q_WAITING; Q_SUSPENDED].

(** A call into the VM engine that returns [a] and changes nothing but the
    VM store, whatever the memory. *)
Definition returns_on_vms {A} (m : M A) (a : A) : Prop :=
  ∀ s, ∃ vs, m s = Ok (a, with_vms vs s).

(** ** A sample memory

    Two tasks share the ready queue, task 1 running with 7 ticks left of its
    slice; task 3 waits for the mutex at address 0, which task 1 holds;
    task 4 has ended and is dormant; the TCBs at 5 and 6 are on no queue. *)
Definition sample_tcb (nx : ptr) (pr ts : Z) (st : MrbcTaskState)
    (rs : MrbcTaskReason) (mx v : ptr) : MrbcTcb :=
  mkTcb nx pr pr ts st rs 0 mx v.

Definition sample : Monitor :=
  mkMonitor
    (list_to_map
       [(1%nat, sample_tcb (Some 2%nat) 128 7 TASKSTATE_RUNNING
                  TASKREASON_SLEEP None (Some 1%nat));
        (2%nat, sample_tcb None 128 10 TASKSTATE_READY
                  TASKREASON_SLEEP None (Some 2%nat));
        (3%nat, sample_tcb None 100 4 TASKSTATE_WAITING
                  TASKREASON_MUTEX (Some 0%nat) (Some 3%nat));
        (4%nat, sample_tcb None 128 0 TASKSTATE_DOMANT
                  TASKREASON_SLEEP None None);
        (5%nat, sample_tcb None 128 0 TASKSTATE_DOMANT
                  TASKREASON_SLEEP None None);
        (6%nat, sample_tcb None 128 10 TASKSTATE_READY
                  TASKREASON_SLEEP None (Some 6%nat))])
    (list_to_map [(1%nat, mkVm 0); (2%nat, mkVm 0); (3%nat, mkVm 0);
                  (6%nat, mkVm 0)])
    (list_to_map [(0%nat, mkMutex 1 (Some 1%nat))])
    (Some 4%nat) (Some 1%nat) (Some 3%nat) None 5.

(** The memory before any task exists: [mutex1] is unlocked. *)
Definition boot : Monitor :=
  mkMonitor ∅ ∅ (list_to_map [(0%nat, MRBC_MUTEX_INITIALIZER)])
            None None None None 0.

(** A VM engine for the examples: an allocator and a VM store with one free
    slot each, bytecode that always loads. *)
Definition sample_raw_alloc : M ptr := ret (Some 1%nat).
Definition sample_initializer : MrbcTcb :=
  mkTcb None 128 0 0 TASKSTATE_READY TASKREASON_SLEEP 0 None None.
Definition sample_vm_open : M ptr :=
  fun s => Ok (Some 1%nat, with_vms (<[1%nat := mkVm 0]> (vms s)) s).
Definition sample_load_mrb (v : ptr) (code : list Z) : M Z := ret 0.
Definition sample_vm_begin (v : ptr) : M unit := ret tt.
Definition sample_idle : M unit := ret tt.

(** Timers for the examples: no tick falls while the dispatcher tests the
    queue heads; one tick falls after it has loaded [q_ready_]. *)
Definition no_irq : nat → nat := λ _, 0%nat.
Definition tick_after_ready : nat → nat :=
  λ i, match i with O => 1%nat | S _ => 0%nat end.

(** The memory in which the dispatcher is about to run its last ready task:
    task 1 is alone on the ready queue, task 2 went to sleep for one
    millisecond at tick 5 and wakes at tick 6. *)
Definition sample_last : Monitor :=
  mkMonitor
    (list_to_map
       [(1%nat, sample_tcb None 128 10 TASKSTATE_READY
                  TASKREASON_SLEEP None (Some 1%nat));
        (2%nat, mkTcb None 128 128 0 TASKSTATE_WAITING TASKREASON_SLEEP 6
                  None (Some 2%nat))])
    (list_to_map [(1%nat, mkVm 0); (2%nat, mkVm 1)])
    (list_to_map [(0%nat, MRBC_MUTEX_INITIALIZER)])
    None (Some 1%nat) (Some 2%nat) None 5.

(** Guest programs: one suspends itself and yields, one ends at once. *)
Definition guest_suspends (vmp : ptr) : M Z :=
  bind (c_suspend_task false vmp []) (fun _ => ret 0).
Definition guest_ends (vmp : ptr) : M Z := ret (-1).

(** Further sample memories, as the operations leave them: [sample] after
    task 2 has been suspended; [sample] after task 2 has gone to sleep for one
    tick; [boot] after a first task has been created. *)
Definition sample_suspended : Monitor :=
  match mrbc_suspend_task false (Some 2%nat) sample with
  | Ok (_, s) => s
  | Err _ => sample
  end.

Definition sample_asleep : Monitor :=
  match mrbc_sleep_ms false (Some 2%nat) 1 sample with
  | Ok (_, s) => s
  | Err _ => sample
  end.

Definition sample_created : Monitor :=
  match mrbc_create_task false sample_raw_alloc sample_initializer
          sample_vm_open sample_load_mrb sample_vm_begin [] None boot with
  | Ok (_, s) => s
  | Err _ => boot
  end.

(** ** Linked lists in the TCB memory *)

Lemma is_queue_inj h p l1 l2 :
  is_queue h p l1 → is_queue h p l2 → l1 = l2.
Proof.
  revert p l2. induction l1 as [|a l1 IH]; intros p [|b l2]; simpl; try done.
  - intros -> [? _]. done.
  - intros [-> _] ?. done.
  - intros [-> (t & Ht & H1)] [[= <-] (t' & Ht' & H2)].
    rewrite Ht in Ht'. injection Ht' as <-. f_equal. eauto.
Qed.

Lemma is_queue_suffix h p l1 l2 :
  is_queue h p (l1 ++ l2) → ∃ p', is_queue h p' l2.
Proof.
  revert p. induction l1 as [|a l1 IH]; simpl; intros p H; [eauto|].
  destruct H as (_ & t & _ & H). eauto.
Qed.

Lemma is_queue_NoDup h p l : is_queue h p l → NoDup l.
Proof.
  revert p. induction l as [|a l IH]; simpl; intros p H; [constructor|].
  destruct H as (-> & t & Ht & H). constructor; [|eauto].
  intros (l1 & l2 & ->)%list_elem_of_split.
  destruct (is_queue_suffix _ _ _ _ H) as (p' & H').
  assert (p' = Some a) as -> by (simpl in H'; tauto).
  assert (is_queue h (Some a) (a :: l1 ++ a :: l2)) as H2 by (simpl; eauto).
  pose proof (is_queue_inj _ _ _ _ H' H2) as E.
  apply (f_equal length) in E. simpl in E. rewrite length_app in E.
  simpl in E. lia.
Qed.

Lemma is_queue_dom h p l a : is_queue h p l → a ∈ l → is_Some (h !! a).
Proof.
  revert p. induction l as [|b l IH]; simpl; intros p H Ha.
  - by apply elem_of_nil in Ha.
  - destruct H as (-> & t & Ht & H).
    apply elem_of_cons in Ha as [->|Ha]; eauto.
Qed.

(** A list depends only on the [next] fields of its own TCBs. *)
Lemma is_queue_ext h h' p l :
  (∀ c, c ∈ l → next <$> h' !! c = next <$> h !! c) →
  is_queue h p l → is_queue h' p l.
Proof.
  revert p. induction l as [|a l IH]; simpl; intros p Hn H; [done|].
  destruct H as (-> & t & Ht & H). split; [done|].
  pose proof (Hn a (list_elem_of_here _ _)) as Ha. rewrite Ht in Ha.
  destruct (h' !! a) as [t'|] eqn:Ht'; simpl in Ha; [|done].
  injection Ha as Ha. exists t'. split; [done|]. rewrite Ha.
  apply IH; [|done]. intros c Hc. apply Hn. by apply list_elem_of_further.
Qed.

Lemma is_queue_length h p l : is_queue h p l → (length l ≤ size h)%nat.
Proof.
  intros H. pose proof (is_queue_NoDup _ _ _ H) as Hnd.
  rewrite <- (size_dom (D := gset nat)).
  rewrite <- (size_list_to_set (C := gset nat) l Hnd).
  apply subseteq_size. intros c Hc. apply elem_of_list_to_set in Hc.
  apply elem_of_dom. eapply is_queue_dom; eauto.
Qed.

Lemma walk_is_queue n h p l : walk n h p = Some l → is_queue h p l.
Proof.
  revert p l. induction n as [|n IH]; intros [a|] l; simpl; try done.
  - by intros [= <-].
  - destruct (h !! a) as [t|] eqn:Ht; [|done].
    destruct (walk n h (next t)) as [l'|] eqn:Hw; [|done].
    intros [= <-]. simpl. eauto.
  - by intros [= <-].
Qed.

Lemma is_queue_walk n h p l :
  is_queue h p l → (length l ≤ n)%nat → walk n h p = Some l.
Proof.
  revert n p. induction l as [|a l IH]; simpl; intros n p H Hn.
  - subst p. by destruct n.
  - destruct H as (-> & t & Ht & H). destruct n as [|n]; [lia|].
    simpl. rewrite Ht. rewrite (IH n); [done|done|lia].
Qed.

Lemma queue_of_is_queue q s l :
  queue_of q s = Some l ↔ is_queue (tcbs s) (q_head q s) l.
Proof.
  unfold queue_of, fuel_of. split.
  - apply walk_is_queue.
  - intros H. apply is_queue_walk; [done|].
    pose proof (is_queue_length _ _ _ H). lia.
Qed.

(** ** Running the monad *)

Lemma bind_ok {A B} (m : M A) (k : A → M B) s a s' :
  m s = Ok (a, s') → bind m k s = k a s'.
Proof. unfold bind. by intros ->. Qed.

Lemma load_ok s a t : tcbs s !! a = Some t → load (Some a) s = Ok (t, s).
Proof. unfold load. by intros ->. Qed.

Lemma store_ok s a t f :
  tcbs s !! a = Some t →
  store (Some a) f s = Ok (tt, with_tcbs (<[a := f t]> (tcbs s)) s).
Proof. unfold store. by intros ->. Qed.

Lemma get_ok s : get s = Ok (s, s).
Proof. done. Qed.

Lemma get_q_ok q s : get_q q s = Ok (q_head q s, s).
Proof. done. Qed.

Lemma set_q_ok q p s : set_q q p s = Ok (tt, with_q_head q p s).
Proof. done. Qed.

Lemma assert_ok b c s : c = true → assert b c s = Ok (tt, s).
Proof. intros ->. unfold assert. by rewrite orb_true_r. Qed.

Lemma set_flag_preemption_ok s v x z :
  vms s !! v = Some x →
  set_flag_preemption (Some v) z s
  = Ok (tt, with_vms (<[v := mkVm z]> (vms s)) s).
Proof. unfold set_flag_preemption. by intros ->. Qed.

Lemma q_head_with_tcbs q h s : q_head q (with_tcbs h s) = q_head q s.
Proof. by destruct q. Qed.

Lemma q_head_with_vms q h s : q_head q (with_vms h s) = q_head q s.
Proof. by destruct q. Qed.

Lemma q_head_with_q_head q q' p s :
  q_head q' (with_q_head q p s) = if decide (q' = q) then p else q_head q' s.
Proof. by destruct q, q'. Qed.

Lemma tcbs_with_q_head q p s : tcbs (with_q_head q p s) = tcbs s.
Proof. by destruct q. Qed.

Lemma vms_with_q_head q p s : vms (with_q_head q p s) = vms s.
Proof. by destruct q. Qed.

Lemma mutexes_with_q_head q p s : mutexes (with_q_head q p s) = mutexes s.
Proof. by destruct q. Qed.

Lemma tick_with_q_head q p s : tick_ (with_q_head q p s) = tick_ s.
Proof. by destruct q. Qed.

Lemma relinked_heap_refl X h : relinked_heap X h h.
Proof. by split. Qed.

Lemma relinked_heap_set_next X h a t v :
  h !! a = Some t → a ∈ X → relinked_heap X h (<[a := set_next v t]> h).
Proof.
  intros Ht Ha. split; intros c.
  - intros Hc. rewrite lookup_insert_ne; [done|]. by intros ->.
  - destruct (decide (a = c)) as [->|].
    + by rewrite lookup_insert_eq, Ht.
    + by rewrite lookup_insert_ne.
Qed.

Lemma relinked_heap_trans X h1 h2 h3 :
  relinked_heap X h1 h2 → relinked_heap X h2 h3 → relinked_heap X h1 h3.
Proof.
  intros [F1 D1] [F2 D2]. split; intros c.
  - intros Hc. by rewrite F2, F1.
  - by rewrite D2, D1.
Qed.

Lemma relinked_heap_mono X Y h h' :
  (∀ c, c ∈ X → c ∈ Y) → relinked_heap X h h' → relinked_heap Y h h'.
Proof. intros HXY [F D]. split; [|done]. intros c Hc. apply F. eauto. Qed.

Lemma relinked_heap_lookup X h h' c t :
  relinked_heap X h h' → h !! c = Some t →
  ∃ t', h' !! c = Some t' ∧ set_next None t' = set_next None t.
Proof.
  intros [_ D] Ht. specialize (D c). rewrite Ht in D.
  destruct (h' !! c) as [t'|]; simpl in D; [|done].
  exists t'. split; [done|]. congruence.
Qed.

Lemma relinked_heap_is_queue X h h' p l :
  relinked_heap X h h' → (∀ c, c ∈ l → c ∉ X) →
  is_queue h p l → is_queue h' p l.
Proof.
  intros [F _] Hd. apply is_queue_ext. intros c Hc. by rewrite F; [|eauto].
Qed.

(** Fields other than [next] are read off either memory. *)
Lemma set_next_None_fields t t' :
  set_next None t' = set_next None t →
  priority t' = priority t ∧ priority_preemption t' = priority_preemption t
  ∧ timeslice t' = timeslice t ∧ state t' = state t ∧ reason t' = reason t
  ∧ wakeup_tick t' = wakeup_tick t ∧ mutex t' = mutex t ∧ vm t' = vm t.
Proof. destruct t, t'. unfold set_next. simpl. intros [=]. by subst. Qed.

Lemma elem_of_insert_by_priority key a l c :
  c ∈ insert_by_priority key a l ↔ c = a ∨ c ∈ l.
Proof.
  induction l as [|b l IH]; simpl; [set_solver|].
  destruct (key a <? key b); set_solver.
Qed.

Lemma insert_by_priority_ext key key' a l :
  (∀ c, c ∈ a :: l → key c = key' c) →
  insert_by_priority key a l = insert_by_priority key' a l.
Proof.
  induction l as [|b l IH]; simpl; intros H; [done|].
  rewrite (H a), (H b) by set_solver.
  destruct (key' a <? key' b); [done|]. f_equal. apply IH. set_solver.
Qed.

(** [a] lands behind every key not above its own and right before the first
    key above it. *)
Lemma insert_by_priority_split key a l :
  ∃ l1 l2, l = l1 ++ l2
         ∧ insert_by_priority key a l = l1 ++ a :: l2
         ∧ Forall (λ b, key b <= key a) l1
         ∧ match l2 with [] => True | b :: _ => key a < key b end.
Proof.
  induction l as [|b l IH]; simpl.
  - by exists [], [].
  - destruct (key a <? key b) eqn:E.
    + exists [], (b :: l). repeat split; [constructor|lia].
    + destruct IH as (l1 & l2 & -> & -> & Hle & Hgt).
      exists (b :: l1), l2. repeat split; [|done].
      constructor; [lia|done].
Qed.

Lemma bind_ret {A B} (a : A) (k : A → M B) s : bind (ret a) k s = k a s.
Proof. done. Qed.

Lemma bind_bind {A B C} (m : M A) (f : A → M B) (k : B → M C) s :
  bind (bind m f) k s = bind m (fun x => bind (f x) k) s.
Proof. unfold bind. by destruct (m s) as [[]|]. Qed.

Ltac mcbn :=
  cbn [tcbs vms mutexes q_domant_ q_ready_ q_waiting_ q_suspended_ tick_
       with_tcbs with_vms with_mutexes with_tick
       next priority priority_preemption timeslice state reason wakeup_tick
       mutex vm set_next set_priority set_priority_preemption set_timeslice
       set_state set_reason set_wakeup_tick set_mutex set_vm fst snd] in *.

Ltac mlookup :=
  mcbn;
  rewrite ?tcbs_with_q_head, ?vms_with_q_head, ?mutexes_with_q_head;
  mcbn;
  repeat first
    [ rewrite lookup_insert_eq
    | rewrite lookup_insert_ne by congruence ];
  first [ eassumption | reflexivity ].

Ltac mrun :=
  repeat first
    [ rewrite bind_ret
    | rewrite bind_bind
    | erewrite bind_ok; [|apply load_ok; mlookup]
    | erewrite bind_ok; [|apply store_ok; mlookup]
    | erewrite bind_ok; [|apply get_ok]
    | erewrite bind_ok; [|apply get_q_ok]
    | erewrite bind_ok; [|apply set_q_ok]
    | erewrite load_ok by mlookup
    | erewrite store_ok by mlookup ];
  mcbn.

Section QueueFunctions.

Variable NDEBUG : bool.

(** Linking [a] in behind [p]. *)
Lemma link_after h a t p x rest :
  h !! a = Some t → h !! p = Some x → a ∉ p :: rest →
  is_queue h (Some p) (p :: rest) →
  let h' := <[p := set_next (Some a) x]> (<[a := set_next (next x) t]> h) in
  is_queue h' (Some p) (p :: a :: rest)
  ∧ relinked_heap (a :: p :: rest) h h'.
Proof.
  intros Ha Hx Hnotin Hq h'. pose proof (is_queue_NoDup _ _ _ Hq) as Hnd.
  apply NoDup_cons in Hnd as [Hp _].
  destruct Hq as (_ & x' & Hx' & Hq). rewrite Hx in Hx'. injection Hx' as <-.
  assert (a ≠ p) as Hap by set_solver. split.
  - simpl. split; [done|]. exists (set_next (Some a) x).
    split; [unfold h'; by rewrite lookup_insert_eq|].
    simpl. split; [done|]. exists (set_next (next x) t). split.
    + unfold h'. rewrite lookup_insert_ne by done. by rewrite lookup_insert_eq.
    + simpl. eapply is_queue_ext; [|exact Hq]. intros c Hc. unfold h'.
      rewrite !lookup_insert_ne; [done| |]; set_solver.
  - eapply relinked_heap_trans.
    + apply (relinked_heap_set_next _ _ a t); [done|set_solver].
    + apply relinked_heap_set_next; [|set_solver].
      by rewrite lookup_insert_ne.
Qed.

Lemma q_insert_task_loop_spec s a t rest :
  tcbs s !! a = Some t →
  ∀ n p,
    is_queue (tcbs s) (Some p) (p :: rest) → a ∉ p :: rest →
    (length rest < n)%nat →
    ∃ h', q_insert_task_loop NDEBUG n (Some a) (Some p) s
          = Ok (tt, with_tcbs h' s)
        ∧ is_queue h' (Some p) (p :: insert_by_priority (prio s) a rest)
        ∧ relinked_heap (a :: p :: rest) (tcbs s) h'.
Proof.
  intros Ha. induction rest as [|b rest IH]; intros n p Hq Hnotin Hn.
  - assert (Hq' := Hq). destruct Hq' as (_ & x & Hx & Hnx). simpl in Hnx.
    destruct n as [|n]; [simpl in Hn; lia|].
    assert (a ≠ p) as Hap by set_solver.
    simpl q_insert_task_loop. mrun. rewrite Hnx. mrun.
    rewrite assert_ok
      by (apply negb_true_iff, bool_decide_eq_false; congruence).
    eexists. split; [reflexivity|]. by apply link_after.
  - assert (Hq' := Hq). destruct Hq' as (_ & x & Hx & Hnx & y & Hy & _).
    destruct n as [|n]; [simpl in Hn; lia|].
    assert (a ≠ p) as Hap by set_solver.
    simpl q_insert_task_loop. mrun. rewrite Hnx. mrun.
    simpl insert_by_priority. unfold prio at 1 2. rewrite Ha, Hy.
    destruct (priority_preemption t <? priority_preemption y).
    + mrun. rewrite assert_ok
        by (apply negb_true_iff, bool_decide_eq_false; congruence).
      eexists. split; [reflexivity|]. by apply link_after.
    + destruct (IH n b) as (h' & Hrun & Hq' & Hrl).
      * destruct Hq as (_ & x' & Hx' & Hq). rewrite Hx in Hx'.
        injection Hx' as <-. by rewrite Hnx in Hq.
      * set_solver.
      * simpl in Hn. lia.
      * exists h'. split; [done|]. split.
        -- simpl. split; [done|]. exists x. split; [|by rewrite Hnx].
           destruct Hrl as [F _]. rewrite F; [done|].
           pose proof (is_queue_NoDup _ _ _ Hq) as Hnd.
           apply NoDup_cons in Hnd as [Hp _]. set_solver.
        -- eapply relinked_heap_mono; [|exact Hrl]. set_solver.
Qed.

Lemma relinked_with_tcbs q X s h' :
  relinked_heap X (tcbs s) h' → relinked q X s (with_tcbs h' s).
Proof.
  intros H. repeat split; try done; apply H.
Qed.

(** Linking [a] in at the head of queue [q]. *)
Lemma link_at_head s a t q l :
  tcbs s !! a = Some t → is_queue (tcbs s) (q_head q s) l → a ∉ l →
  let s' := with_q_head q (Some a)
              (with_tcbs (<[a := set_next (q_head q s) t]> (tcbs s)) s) in
  is_queue (tcbs s') (q_head q s') (a :: l) ∧ relinked q (a :: l) s s'.
Proof.
  intros Ha Hq Hnotin s'. unfold s'. split; [|repeat split].
  - rewrite q_head_with_q_head, decide_True by done.
    rewrite tcbs_with_q_head. simpl. split; [done|].
    eexists. split; [by rewrite lookup_insert_eq|]. simpl.
    eapply is_queue_ext; [|exact Hq]. intros c Hc.
    rewrite lookup_insert_ne; [done|]. set_solver.
  - by rewrite vms_with_q_head.
  - by rewrite mutexes_with_q_head.
  - by rewrite tick_with_q_head.
  - intros q' Hq'. rewrite q_head_with_q_head, decide_False by done.
    apply q_head_with_tcbs.
  - intros c Hc. rewrite tcbs_with_q_head. simpl.
    rewrite lookup_insert_ne; [done|]. set_solver.
  - intros c. rewrite tcbs_with_q_head. simpl.
    destruct (decide (a = c)) as [<-|].
    + by rewrite lookup_insert_eq, Ha.
    + by rewrite lookup_insert_ne.
Qed.

Lemma q_insert_task_spec s a t q l :
  tcbs s !! a = Some t → pp_q_of (state t) = Some q →
  is_queue (tcbs s) (q_head q s) l → a ∉ l →
  ∃ s', q_insert_task NDEBUG (Some a) s = Ok (tt, s')
      ∧ is_queue (tcbs s') (q_head q s') (insert_by_priority (prio s) a l)
      ∧ relinked q (a :: l) s s'.
Proof.
  intros Ha Hst Hq Hnotin. unfold q_insert_task. mrun. rewrite Hst. mrun.
  pose proof (link_at_head s a t q l Ha Hq Hnotin) as Hlink.
  destruct l as [|b l].
  - simpl in Hq. rewrite Hq in *. mrun.
    rewrite assert_ok by done. eexists. split; [reflexivity|]. exact Hlink.
  - assert (Hq' := Hq). destruct Hq' as (Hhd & y & Hy & _).
    rewrite Hhd in *. mrun. simpl insert_by_priority. unfold prio at 1 2.
    rewrite Ha, Hy.
    destruct (priority_preemption t <? priority_preemption y).
    + mrun. rewrite assert_ok
        by (apply negb_true_iff, bool_decide_eq_false; set_solver).
      eexists. split; [reflexivity|]. exact Hlink.
    + mrun. pose proof (is_queue_length _ _ _ Hq) as Hlen.
      destruct (q_insert_task_loop_spec s a t l Ha (fuel_of s) b)
        as (h' & Hrun & Hq' & Hrl).
      * done.
      * done.
      * unfold fuel_of. simpl in Hlen. lia.
      * rewrite Hrun. eexists. split; [reflexivity|]. split.
        -- by rewrite q_head_with_tcbs, Hhd.
        -- by apply relinked_with_tcbs.
Qed.

Lemma filter_ne_notin (a : nat) (l : list nat) :
  a ∉ l → filter (λ c, c ≠ a) l = l.
Proof.
  induction l as [|b l IH]; [done|]. intros Hnotin.
  rewrite filter_cons_True by set_solver. f_equal. apply IH. set_solver.
Qed.

Lemma with_tcbs_id s : with_tcbs (tcbs s) s = s.
Proof. by destruct s. Qed.

(** Unlinking [a], the successor of [p]. *)
Lemma unlink_after h a t p x rest :
  h !! a = Some t → h !! p = Some x →
  is_queue h (Some p) (p :: a :: rest) →
  let h' := <[a := set_next None t]> (<[p := set_next (next t) x]> h) in
  is_queue h' (Some p) (p :: rest)
  ∧ relinked_heap (p :: a :: rest) h h'
  ∧ next <$> h' !! a = Some None.
Proof.
  intros Ha Hx Hq h'. pose proof (is_queue_NoDup _ _ _ Hq) as Hnd.
  apply NoDup_cons in Hnd as [Hp Hnd]. apply NoDup_cons in Hnd as [Hnotin _].
  destruct Hq as (_ & x' & Hx' & _ & t' & Ht' & Hq).
  rewrite Hx in Hx'. injection Hx' as <-.
  rewrite Ha in Ht'. injection Ht' as <-.
  assert (a ≠ p) as Hap by set_solver. split; [|split].
  - simpl. split; [done|]. exists (set_next (next t) x). split.
    + unfold h'. rewrite lookup_insert_ne by done. by rewrite lookup_insert_eq.
    + simpl. eapply is_queue_ext; [|exact Hq]. intros c Hc. unfold h'.
      rewrite !lookup_insert_ne; [done| |]; set_solver.
  - eapply relinked_heap_trans.
    + apply (relinked_heap_set_next _ _ p x); [done|set_solver].
    + apply relinked_heap_set_next; [|set_solver].
      by rewrite lookup_insert_ne.
  - unfold h'. by rewrite lookup_insert_eq.
Qed.

Lemma q_delete_task_loop_spec s a t rest :
  tcbs s !! a = Some t →
  ∀ n p,
    is_queue (tcbs s) (Some p) (p :: rest) → p ≠ a →
    (length rest < n)%nat →
    ∃ h', q_delete_task_loop n (Some a) (Some p) s = Ok (tt, with_tcbs h' s)
        ∧ is_queue h' (Some p) (p :: filter (λ c, c ≠ a) rest)
        ∧ relinked_heap (p :: rest) (tcbs s) h'
        ∧ (a ∈ rest → next <$> h' !! a = Some None)
        ∧ (a ∉ rest → h' = tcbs s).
Proof.
  intros Ha. induction rest as [|b rest IH]; intros n p Hq Hpa Hn.
  - assert (Hq' := Hq). destruct Hq' as (_ & x & Hx & Hnx). simpl in Hnx.
    destruct n as [|n]; [simpl in Hn; lia|].
    simpl q_delete_task_loop. mrun. rewrite Hnx.
    rewrite bool_decide_eq_false_2 by done.
    exists (tcbs s). rewrite with_tcbs_id. destruct n; simpl.
    all: repeat split; eauto using relinked_heap_refl; set_solver.
  - assert (Hq' := Hq). destruct Hq' as (_ & x & Hx & Hnx & y & Hy & Hq2).
    destruct n as [|n]; [simpl in Hn; lia|].
    pose proof (is_queue_NoDup _ _ _ Hq) as Hnd.
    apply NoDup_cons in Hnd as [Hp Hnd]. apply NoDup_cons in Hnd as [Hb _].
    simpl q_delete_task_loop. mrun. rewrite Hnx.
    destruct (decide (b = a)) as [->|Hba].
    + assert (y = t) as -> by congruence.
      rewrite bool_decide_eq_true_2 by done. mrun.
      rewrite filter_cons_False by naive_solver.
      rewrite filter_ne_notin by done.
      destruct (unlink_after _ _ _ _ _ _ Ha Hx Hq) as (H1 & H2 & H3).
      eexists. split; [reflexivity|]. do 3 (split; [done|]). set_solver.
    + rewrite bool_decide_eq_false_2 by congruence.
      destruct (IH n b) as (h' & Hrun & Hq' & Hrl & Hin & Hout).
      * simpl. eauto.
      * done.
      * simpl in Hn. lia.
      * exists h'. split; [done|]. rewrite filter_cons_True by done.
        split; [|split; [|split]].
        -- simpl. split; [done|]. exists x. split; [|by rewrite Hnx].
           destruct Hrl as [F _]. by rewrite F.
        -- eapply relinked_heap_mono; [|exact Hrl]. set_solver.
        -- intros Hx'. apply Hin. set_solver.
        -- intros Hx'. apply Hout. set_solver.
Qed.

Lemma relinked_refl q X s : relinked q X s s.
Proof. by repeat split. Qed.

Lemma q_delete_task_spec s a t q l :
  tcbs s !! a = Some t → pp_q_of (state t) = Some q →
  is_queue (tcbs s) (q_head q s) l →
  ∃ s', q_delete_task NDEBUG (Some a) s = Ok (tt, s')
      ∧ is_queue (tcbs s') (q_head q s') (filter (λ c, c ≠ a) l)
      ∧ relinked q l s s'
      ∧ (a ∈ l → next <$> tcbs s' !! a = Some None)
      ∧ (a ∉ l → s' = s).
Proof.
  intros Ha Hst Hq. unfold q_delete_task. mrun. rewrite Hst. mrun.
  destruct l as [|b l].
  - simpl in Hq. rewrite Hq. mrun. exists s. split; [done|].
    split; [by rewrite Hq|]. split; [apply relinked_refl|]. set_solver.
  - assert (Hq' := Hq). destruct Hq' as (Hhd & y & Hy & Hq2).
    rewrite Hhd. pose proof (is_queue_NoDup _ _ _ Hq) as Hnd.
    apply NoDup_cons in Hnd as [Hb _].
    destruct (decide (b = a)) as [->|Hba].
    + rewrite bool_decide_eq_true_2 by done. mrun.
      rewrite Ha in Hy. injection Hy as <-.
      rewrite filter_cons_False by naive_solver.
      rewrite filter_ne_notin by done.
      eexists. split; [reflexivity|]. rewrite tcbs_with_q_head.
      cbn [tcbs with_tcbs]. rewrite q_head_with_tcbs, q_head_with_q_head.
      rewrite decide_True by done. split; [|split; [|split]].
      * eapply is_queue_ext; [|exact Hq2]. intros c Hc.
        rewrite lookup_insert_ne; [done|]. set_solver.
      * repeat split.
        -- cbn [vms with_tcbs]. by rewrite vms_with_q_head.
        -- cbn [mutexes with_tcbs]. by rewrite mutexes_with_q_head.
        -- cbn [tick_ with_tcbs]. by rewrite tick_with_q_head.
        -- intros q' Hq'. rewrite q_head_with_tcbs, q_head_with_q_head.
           by rewrite decide_False.
        -- intros c Hc. cbn [tcbs with_tcbs].
           rewrite lookup_insert_ne; [done|]. set_solver.
        -- intros c. cbn [tcbs with_tcbs].
           destruct (decide (a = c)) as [<-|].
           ++ by rewrite lookup_insert_eq, Ha.
           ++ by rewrite lookup_insert_ne.
      * intros _. by rewrite lookup_insert_eq.
      * set_solver.
    + rewrite bool_decide_eq_false_2 by congruence. mrun.
      pose proof (is_queue_length _ _ _ Hq) as Hlen.
      destruct (q_delete_task_loop_spec s a t l Ha (fuel_of s) b)
        as (h' & Hrun & Hq' & Hrl & Hin & Hout).
      * by rewrite <- Hhd.
      * done.
      * unfold fuel_of. simpl in Hlen. lia.
      * rewrite Hrun. eexists. split; [reflexivity|].
        rewrite filter_cons_True by done. rewrite q_head_with_tcbs, Hhd.
        cbn [tcbs with_tcbs]. split; [done|].
        split; [by apply relinked_with_tcbs|]. split.
        -- intros Hx. apply Hin. set_solver.
        -- intros Hx. rewrite Hout by set_solver. apply with_tcbs_id.
Qed.

Lemma rep_relinked s s' L q X l' :
  rep s L → relinked q X s s' →
  is_queue (tcbs s') (q_head q s') l' →
  (∀ q' c, q' ≠ q → c ∈ L q' → (c ∉ X) ∧ (c ∉ l')) →
  rep s' (<[q := l']> L).
Proof.
  intros [Hq Hd] (_ & _ & _ & Hh & Hrl) Hl' Hsep. split.
  - intros q'. destruct (decide (q = q')) as [<-|Hne].
    + by rewrite fn_lookup_insert.
    + rewrite fn_lookup_insert_ne by done. rewrite Hh by done.
      eapply relinked_heap_is_queue; [exact Hrl| |apply Hq].
      intros c Hc. by apply (Hsep q').
  - intros q1 q2 c.
    destruct (decide (q = q1)) as [<-|H1], (decide (q = q2)) as [<-|H2];
      rewrite ?fn_lookup_insert, ?fn_lookup_insert_ne by done; try done.
    + intros H1 H2'. by destruct (Hsep q2 c).
    + intros H1' H2'. by destruct (Hsep q1 c).
    + apply Hd.
Qed.

Lemma rep_NoDup s L q : rep s L → NoDup (L q).
Proof. intros [Hq _]. eapply is_queue_NoDup, Hq. Qed.

Lemma q_delete_task_rep s L a t q :
  rep s L → tcbs s !! a = Some t → pp_q_of (state t) = Some q →
  ∃ s', q_delete_task NDEBUG (Some a) s = Ok (tt, s')
      ∧ rep s' (<[q := filter (λ c, c ≠ a) (L q)]> L)
      ∧ relinked q (L q) s s'
      ∧ (a ∈ L q → next <$> tcbs s' !! a = Some None)
      ∧ (a ∉ L q → s' = s).
Proof.
  intros Hrep Ha Hst.
  destruct (q_delete_task_spec s a t q (L q) Ha Hst) as (s' & Hrun & H).
  { apply Hrep. }
  destruct H as (Hq' & Hrl & Hin & Hout).
  exists s'. split; [done|]. split; [|done].
  eapply rep_relinked; try done. intros q' c Hne Hc.
  destruct Hrep as [_ Hd]. split.
  - intros Hc'. apply Hne. by apply (Hd q' q c).
  - intros [_ Hc']%list_elem_of_filter. apply Hne. by apply (Hd q' q c).
Qed.

Lemma q_insert_task_rep s L a t q :
  rep s L → tcbs s !! a = Some t → pp_q_of (state t) = Some q →
  (∀ q', a ∉ L q') →
  ∃ s', q_insert_task NDEBUG (Some a) s = Ok (tt, s')
      ∧ rep s' (<[q := insert_by_priority (prio s) a (L q)]> L)
      ∧ relinked q (a :: L q) s s'.
Proof.
  intros Hrep Ha Hst Hdet.
  destruct (q_insert_task_spec s a t q (L q) Ha Hst) as (s' & Hrun & Hq' & Hrl).
  { apply Hrep. }
  { apply Hdet. }
  exists s'. split; [done|]. split; [|done].
  eapply rep_relinked; try done. intros q' c Hne Hc.
  destruct Hrep as [_ Hd].
  assert (c ≠ a) by (intros ->; by apply (Hdet q')).
  assert (c ∉ L q) by (intros Hc'; apply Hne; by apply (Hd q' q c)).
  split; [set_solver|]. intros [?|?]%elem_of_insert_by_priority; done.
Qed.

(** *** From the executable checks to the predicates and back *)

Lemma rep_queue_of s L q : rep s L → queue_of q s = Some (L q).
Proof. intros [Hq _]. apply queue_of_is_queue, Hq. Qed.

Lemma queues_wf_rep s : queues_wf s = true → rep s (queues s).
Proof.
  unfold queues_wf.
  destruct (queue_of Q_DOMANT s) as [d|] eqn:Hd; [|done].
  destruct (queue_of Q_READY s) as [r|] eqn:Hr; [|done].
  destruct (queue_of Q_WAITING s) as [w|] eqn:Hw; [|done].
  destruct (queue_of Q_SUSPENDED s) as [u|] eqn:Hu; [|done].
  intros Hnd%bool_decide_eq_true.
  apply NoDup_app in Hnd as (_ & H1 & Hnd).
  apply NoDup_app in Hnd as (_ & H2 & Hnd).
  apply NoDup_app in Hnd as (_ & H3 & _).
  split.
  - intros q. apply queue_of_is_queue. unfold queues.
    by destruct q; rewrite ?Hd, ?Hr, ?Hw, ?Hu.
  - intros q q' c. unfold queues.
    destruct q, q'; rewrite ?Hd, ?Hr, ?Hw, ?Hu; simpl; try done;
      intros; exfalso; set_solver.
Qed.

Lemma rep_queues_wf s L : rep s L → queues_wf s = true.
Proof.
  intros Hrep. unfold queues_wf. rewrite !(rep_queue_of s L) by done.
  apply bool_decide_eq_true. destruct Hrep as [Hq Hd].
  rewrite !NoDup_app. repeat split;
    try (eapply is_queue_NoDup; apply Hq).
  - intros c H1 H2. rewrite !elem_of_app in H2.
    destruct H2 as [H2|[H2|H2]]; by pose proof (Hd _ _ _ H1 H2).
  - intros c H1 H2. rewrite !elem_of_app in H2.
    destruct H2 as [H2|H2]; by pose proof (Hd _ _ _ H1 H2).
  - intros c H1 H2. by pose proof (Hd _ _ _ H1 H2).
Qed.

Lemma ascending_cons x l :
  ascending (x :: l)
  = match l with [] => true | y :: _ => (x <=? y) && ascending l end.
Proof. by destruct l. Qed.

Lemma ascending_insert (key : nat → Z) a l1 l2 :
  ascending (key <$> (l1 ++ l2)) = true →
  Forall (λ b, key b <= key a) l1 →
  match l2 with [] => True | b :: _ => key a < key b end →
  ascending (key <$> (l1 ++ a :: l2)) = true.
Proof.
  intros Hs Hle Hgt. induction l1 as [|c l1 IH].
  - simpl app in *. rewrite fmap_cons, ascending_cons.
    destruct l2 as [|b l2]; [done|]. rewrite fmap_cons.
    apply andb_true_iff. split; [lia|done].
  - apply Forall_cons in Hle as [Hc Hle].
    simpl app in *. rewrite fmap_cons, ascending_cons in *.
    destruct l1 as [|d l1]; simpl app in *; rewrite fmap_cons in *.
    + apply andb_true_iff. split; [lia|]. apply IH; [|done].
      by destruct l2; [|apply andb_true_iff in Hs as [_ ?]].
    + apply andb_true_iff in Hs as [? ?].
      apply andb_true_iff. split; [done|]. by apply IH.
Qed.

Lemma relinked_prio q X s s' c : relinked q X s s' → prio s' c = prio s c.
Proof.
  intros (_ & _ & _ & _ & _ & D). unfold prio. specialize (D c).
  destruct (tcbs s !! c) as [t|], (tcbs s' !! c) as [t'|]; simpl in D;
    try done.
  injection D as D. by destruct t, t'; simpl in *; simplify_eq.
Qed.

(** C1. [q_insert_task] puts a TCB that is not on the queue its state selects
    into that queue, immediately before the first element whose
    [priority_preemption] is strictly greater than its own and so behind every
    element of equal key; a queue sorted ascending stays sorted. *)
Theorem q_insert_task_position s a t q l :
  tcbs s !! a = Some t → pp_q_of (state t) = Some q →
  queue_of q s = Some l → a ∉ l →
  ∃ s' l1 l2,
    q_insert_task NDEBUG (Some a) s = Ok (tt, s')
    ∧ l = l1 ++ l2
    ∧ queue_of q s' = Some (l1 ++ a :: l2)
    ∧ Forall (λ b, prio s b <= prio s a) l1
    ∧ match l2 with [] => True | b :: _ => prio s a < prio s b end
    ∧ (sorted_queue s l = true → sorted_queue s' (l1 ++ a :: l2) = true).
Proof.
  intros Ha Hst Hq%queue_of_is_queue Hnotin.
  destruct (q_insert_task_spec s a t q l Ha Hst Hq Hnotin)
    as (s' & Hrun & Hq' & Hrl).
  destruct (insert_by_priority_split (prio s) a l)
    as (l1 & l2 & Hl & Hins & Hle & Hgt).
  exists s', l1, l2. rewrite Hins in Hq'.
  split; [done|]. split; [done|]. split; [by apply queue_of_is_queue|].
  split; [done|]. split; [done|]. unfold sorted_queue. intros Hs.
  rewrite (list_fmap_ext (prio s') (prio s))
    by (intros; eapply relinked_prio; eauto).
  apply ascending_insert; [by rewrite <- Hl|done|done].
Qed.

(** C9. [q_delete_task] unlinks exactly the TCB given from the queue its
    state selects: the other elements keep their order, the TCB's [next] is
    [NULL] afterwards, no other field of any TCB and no other queue changes;
    a TCB that is not on that queue (an empty queue included) leaves the
    whole memory as it was. *)
Theorem q_delete_task_removes s a t q l :
  queues_wf s = true →
  tcbs s !! a = Some t → pp_q_of (state t) = Some q →
  queue_of q s = Some l →
  ∃ s',
    q_delete_task NDEBUG (Some a) s = Ok (tt, s')
    ∧ (a ∈ l →
       ∃ l1 l2,
         l = l1 ++ a :: l2 ∧ (a ∉ l1 ++ l2)
         ∧ queue_of q s' = Some (l1 ++ l2)
         ∧ tcbs s' !! a = Some (set_next None t)
         ∧ (∀ q', q' ≠ q → queue_of q' s' = queue_of q' s)
         ∧ (∀ c, set_next None <$> tcbs s' !! c
                 = set_next None <$> tcbs s !! c))
    ∧ (a ∉ l → s' = s).
Proof.
  intros Hwf%queues_wf_rep Ha Hst Hl.
  assert (queues s q = l) as Hql by (unfold queues; by rewrite Hl).
  destruct (q_delete_task_rep s (queues s) a t q Hwf Ha Hst)
    as (s' & Hrun & Hrep' & Hrl & Hin & Hout).
  rewrite Hql in *. exists s'. split; [done|]. split; [|done].
  intros Hal. destruct (list_elem_of_split _ _ Hal) as (l1 & l2 & ->).
  pose proof (rep_NoDup _ _ q Hwf) as Hnd. rewrite Hql in Hnd.
  apply NoDup_app in Hnd as (_ & Hd1 & Hnd).
  apply NoDup_cons in Hnd as [Hd2 _].
  assert (a ∉ l1) as Hd3 by (intros ?; eapply Hd1; [done|set_solver]).
  exists l1, l2. split; [done|]. split; [set_solver|].
  assert (filter (λ c, c ≠ a) (l1 ++ a :: l2) = l1 ++ l2) as Hf.
  { rewrite filter_app, filter_cons_False by naive_solver.
    by rewrite !filter_ne_notin. }
  rewrite Hf in Hrep'. split; [|split; [|split]].
  - rewrite (rep_queue_of _ _ q Hrep'). by rewrite fn_lookup_insert.
  - specialize (Hin Hal). destruct Hrl as (_ & _ & _ & _ & _ & D).
    specialize (D a). rewrite Ha in D.
    destruct (tcbs s' !! a) as [t'|]; [|done]. simpl in *.
    injection Hin as Hin. f_equal.
    assert (set_next None t' = set_next None t) as <- by congruence.
    destruct t'; simpl in *. by subst.
  - intros q' Hne. rewrite (rep_queue_of _ _ q' Hrep').
    rewrite fn_lookup_insert_ne by done. symmetry.
    by apply rep_queue_of.
  - apply Hrl.
Qed.

(** *** The invariant as predicates *)

Lemma states_agree_on_spec q s :
  states_agree_on q s = true →
  ∀ c, c ∈ queues s q →
    ∃ t, tcbs s !! c = Some t ∧ pp_q_of (state t) = Some q.
Proof.
  unfold states_agree_on, queues.
  destruct (queue_of q s) as [l|]; [|done]. simpl.
  intros H c Hc. rewrite forallb_forall in H.
  apply list_elem_of_In in Hc. specialize (H c Hc).
  destruct (tcbs s !! c) as [t|]; [|done].
  exists t. split; [done|]. by apply bool_decide_eq_true in H.
Qed.

Lemma vms_open_on_spec q s :
  vms_open_on q s = true →
  ∀ c, c ∈ queues s q →
    ∃ t v, tcbs s !! c = Some t ∧ vm t = Some v ∧ is_Some (vms s !! v).
Proof.
  unfold vms_open_on, queues.
  destruct (queue_of q s) as [l|]; [|done]. simpl.
  intros H c Hc. rewrite forallb_forall in H.
  apply list_elem_of_In in Hc. specialize (H c Hc).
  destruct (tcbs s !! c) as [t|]; [|done].
  destruct (vm t) as [v|] eqn:Hv; [|done].
  exists t, v. split; [done|]. split; [done|].
  by apply bool_decide_eq_true in H.
Qed.

Lemma invariant_inv s : invariant s = true → inv s (queues s).
Proof.
  unfold invariant, states_agree, vms_open. rewrite !andb_true_iff.
  intros [[Hwf [[[A1 A2] A3] A4]] [[V1 V2] V3]].
  split; [by apply queues_wf_rep|]. split.
  - intros q c Hc. apply (states_agree_on_spec q); [|done]. by destruct q.
  - intros q c Hq Hc. apply (vms_open_on_spec q); [|done]. by destruct q.
Qed.

Lemma inv_invariant s L : inv s L → invariant s = true.
Proof.
  intros (Hrep & Hag & Hvm). unfold invariant, states_agree, vms_open.
  assert (∀ q, states_agree_on q s = true) as A.
  { intros q. unfold states_agree_on. rewrite (rep_queue_of s L q Hrep).
    apply forallb_forall. intros c Hc%list_elem_of_In.
    destruct (Hag q c Hc) as (t & -> & Ht). by apply bool_decide_eq_true. }
  assert (∀ q, q ≠ Q_DOMANT → vms_open_on q s = true) as V.
  { intros q Hq. unfold vms_open_on. rewrite (rep_queue_of s L q Hrep).
    apply forallb_forall. intros c Hc%list_elem_of_In.
    destruct (Hvm q c Hq Hc) as (t & v & -> & -> & Hv).
    by apply bool_decide_eq_true. }
  rewrite (rep_queues_wf s L Hrep), !A, !V; done.
Qed.

(** *** Taking a TCB off its queue and putting it back

    Most operations follow one pattern: [q_delete_task(tcb)], some writes to
    fields of [tcb] other than [next], [q_insert_task(tcb)]. *)

Lemma keeps_link_next f x : keeps_link f → next (f x) = next x.
Proof.
  intros Hf. assert (x = set_next (next x) x) as E by by destruct x.
  rewrite E at 1. by rewrite Hf.
Qed.

Lemma keeps_link_data f x y :
  keeps_link f → set_next None x = set_next None y →
  set_next None (f x) = set_next None (f y).
Proof. intros Hf E. by rewrite <- !Hf, E. Qed.

Lemma rep_ext s L L' : (∀ q, L q = L' q) → rep s L → rep s L'.
Proof.
  intros E [Hq Hd]. split.
  - intros q. rewrite <- E. apply Hq.
  - intros q q' c. rewrite <- !E. apply Hd.
Qed.

Lemma rep_store s L a t t' :
  rep s L → tcbs s !! a = Some t → next t' = next t →
  rep (with_tcbs (<[a := t']> (tcbs s)) s) L.
Proof.
  intros [Hq Hd] Ha Hn. split; [|done]. intros q.
  rewrite q_head_with_tcbs. cbn [tcbs with_tcbs].
  eapply is_queue_ext; [|apply Hq]. intros c _.
  destruct (decide (a = c)) as [<-|].
  - rewrite lookup_insert_eq, Ha. simpl. by rewrite Hn.
  - by rewrite lookup_insert_ne.
Qed.

Lemma elem_of_moved key a q2 L q c :
  c ∈ moved key a q2 L q ↔ (c = a ∧ q = q2) ∨ (c ≠ a ∧ c ∈ L q).
Proof.
  unfold moved. destruct (decide (q = q2)) as [->|Hne].
  - rewrite elem_of_insert_by_priority, list_elem_of_filter. naive_solver.
  - rewrite list_elem_of_filter. naive_solver.
Qed.

Lemma requeue_spec f s L a t q q2 :
  inv s L → tcbs s !! a = Some t → a ∈ L q →
  keeps_link f → (∀ x, vm (f x) = vm x) →
  pp_q_of (state (f t)) = Some q2 →
  (q2 ≠ Q_DOMANT → q ≠ Q_DOMANT) →
  ∃ s1 t1 s2 t2,
    q_delete_task NDEBUG (Some a) s = Ok (tt, s1)
    ∧ tcbs s1 !! a = Some t1
    ∧ set_next None t1 = set_next None t
    ∧ vms s1 = vms s ∧ mutexes s1 = mutexes s ∧ tick_ s1 = tick_ s
    ∧ q_insert_task NDEBUG (Some a) (with_tcbs (<[a := f t1]> (tcbs s1)) s1)
      = Ok (tt, s2)
    ∧ inv s2 (moved (prio s2) a q2 L)
    ∧ vms s2 = vms s ∧ mutexes s2 = mutexes s ∧ tick_ s2 = tick_ s
    ∧ tcbs s2 !! a = Some t2
    ∧ set_next None t2 = set_next None (f t)
    ∧ (∀ c, c ≠ a →
         set_next None <$> tcbs s2 !! c = set_next None <$> tcbs s !! c).
Proof.
  intros (Hrep & Hag & Hvm) Ha Hin Hf Hfvm Hq2 Hopen.
  destruct (Hag q a Hin) as (t' & Ht' & Hst).
  rewrite Ha in Ht'. injection Ht' as <-.
  destruct (q_delete_task_rep s L a t q Hrep Ha Hst)
    as (s1 & Hrun1 & Hrep1 & Hrl1 & _ & _).
  destruct Hrl1 as (Hv1 & Hm1 & Hk1 & Hh1 & Hrh1).
  destruct (relinked_heap_lookup _ _ _ _ _ Hrh1 Ha) as (t1 & Ht1 & Hd1).
  set (s1' := with_tcbs (<[a := f t1]> (tcbs s1)) s1).
  set (L1 := <[q := filter (λ c, c ≠ a) (L q)]> L) in *.
  assert (∀ q', L1 q' = filter (λ c, c ≠ a) (L q')) as HL1.
  { intros q'. unfold L1. destruct (decide (q = q')) as [<-|Hne].
    - by rewrite fn_lookup_insert.
    - rewrite fn_lookup_insert_ne by done. symmetry.
      apply filter_ne_notin. intros Hc. apply Hne.
      destruct Hrep as [_ Hd]. by apply (Hd q q' a). }
  assert (rep s1' L1) as Hrep1'.
  { eapply rep_store; [done|done|]. by apply keeps_link_next. }
  assert (set_next None (f t1) = set_next None (f t)) as Hd1'.
  { by apply keeps_link_data. }
  assert (pp_q_of (state (f t1)) = Some q2) as Hst1.
  { apply set_next_None_fields in Hd1'. by destruct Hd1' as (_&_&_&->&_). }
  destruct (q_insert_task_rep s1' L1 a (f t1) q2 Hrep1')
    as (s2 & Hrun2 & Hrep2 & Hrl2).
  { unfold s1'. cbn [tcbs with_tcbs]. by rewrite lookup_insert_eq. }
  { done. }
  { intros q'. rewrite HL1, list_elem_of_filter. naive_solver. }
  assert (Hrl2' := Hrl2). destruct Hrl2' as (Hv2 & Hm2 & Hk2 & Hh2 & Hrh2).
  assert (tcbs s1' !! a = Some (f t1)) as Ha1'.
  { unfold s1'. cbn [tcbs with_tcbs]. by rewrite lookup_insert_eq. }
  destruct (relinked_heap_lookup _ _ _ _ _ Hrh2 Ha1') as (t2 & Ht2 & Hd2).
  assert (∀ c, c ≠ a →
    set_next None <$> tcbs s2 !! c = set_next None <$> tcbs s !! c) as Hdata.
  { intros c Hc. destruct Hrh2 as [_ D2]. destruct Hrh1 as [_ D1].
    rewrite D2. unfold s1'. cbn [tcbs with_tcbs].
    rewrite lookup_insert_ne by done. apply D1. }
  unfold s1' in Hv2, Hm2, Hk2. cbn [vms mutexes tick_ with_tcbs] in Hv2, Hm2, Hk2.
  exists s1, t1, s2, t2. do 7 (split; [done|]).
  split; [|do 5 (split; [congruence|]); exact Hdata].
  assert (∀ c x, c ≠ a → tcbs s !! c = Some x →
            ∃ x', tcbs s2 !! c = Some x'
                  ∧ set_next None x' = set_next None x) as Hother.
  { intros c x Hc Hx. specialize (Hdata c Hc). rewrite Hx in Hdata.
    destruct (tcbs s2 !! c) as [x'|]; [|done]. exists x'.
    split; [done|]. simpl in Hdata. congruence. }
  split; [|split].
  - eapply rep_ext; [|exact Hrep2]. intros q'. unfold moved.
    destruct (decide (q' = q2)) as [->|Hne].
    + rewrite fn_lookup_insert, HL1. apply insert_by_priority_ext.
      intros c _. symmetry. eapply relinked_prio. exact Hrl2.
    + rewrite fn_lookup_insert_ne by done. apply HL1.
  - intros q' c [[-> ->]|[Hc Hcin]]%elem_of_moved.
    + exists t2. split; [done|].
      assert (set_next None t2 = set_next None (f t)) as E by congruence.
      apply set_next_None_fields in E. by destruct E as (_&_&_&->&_).
    + destruct (Hag q' c Hcin) as (x & Hx & Hxs).
      destruct (Hother c x Hc Hx) as (x' & Hx' & E).
      exists x'. split; [done|].
      apply set_next_None_fields in E. by destruct E as (_&_&_&->&_).
  - intros q' c Hq' [[-> ->]|[Hc Hcin]]%elem_of_moved.
    + destruct (Hvm q a) as (x & v & Hx & Hxv & Hv); [by apply Hopen|done|].
      rewrite Ha in Hx. injection Hx as <-.
      exists t2, v. split; [done|]. split; [|congruence].
      assert (set_next None t2 = set_next None (f t)) as E by congruence.
      apply set_next_None_fields in E. destruct E as (_&_&_&_&_&_&_&->).
      by rewrite Hfvm.
    + destruct (Hvm q' c Hq' Hcin) as (x & v & Hx & Hxv & Hv).
      destruct (Hother c x Hc Hx) as (x' & Hx' & E).
      exists x', v. split; [done|]. split; [|congruence].
      apply set_next_None_fields in E. by destruct E as (_&_&_&_&_&_&_&->).
Qed.

(** *** The preemption sweep *)

Lemma set_flag_preemption_ok' s v z :
  is_Some (vms s !! v) →
  set_flag_preemption (Some v) z s
  = Ok (tt, with_vms (<[v := mkVm z]> (vms s)) s).
Proof. intros [x Hx]. by eapply set_flag_preemption_ok. Qed.

Lemma preempt_running_loop_spec h l :
  ∀ n p s,
    tcbs s = h → is_queue h p l →
    (∀ c, c ∈ l → ∃ t v, h !! c = Some t ∧ vm t = Some v
                         ∧ is_Some (vms s !! v)) →
    (length l ≤ n)%nat →
    preempt_running_loop n p s
    = Ok (tt, with_vms (preempted h l (vms s)) s).
Proof.
  induction l as [|c l IH]; intros n p s Hh Hq Hvm Hn.
  - simpl in Hq. subst p. destruct n; simpl; by destruct s.
  - destruct Hq as (-> & t & Ht & Hq). destruct n as [|n]; [simpl in Hn; lia|].
    destruct (Hvm c) as (t' & v & Ht' & Hv & Hs); [set_solver|].
    rewrite Ht in Ht'. injection Ht' as <-. subst h.
    simpl preempt_running_loop. mrun. unfold preempted. simpl foldl.
    rewrite Ht, Hv.
    destruct (bool_decide (state t = TASKSTATE_RUNNING)).
    + erewrite bind_ok; [|by apply set_flag_preemption_ok']. mrun.
      rewrite IH; try done.
      * intros c' Hc'. destruct (Hvm c') as (t' & v' & ? & ? & Hs');
          [set_solver|].
        exists t', v'. split; [done|]. split; [done|]. cbn [vms with_vms].
        destruct (decide (v = v')) as [->|].
        -- by rewrite lookup_insert_eq.
        -- by rewrite lookup_insert_ne.
      * simpl in Hn. lia.
    + mrun. rewrite IH; try done.
      * intros c' Hc'. apply Hvm. set_solver.
      * simpl in Hn. lia.
Qed.

Lemma preempted_keeps h l :
  ∀ m v, m !! v = Some (mkVm 1) → preempted h l m !! v = Some (mkVm 1).
Proof.
  induction l as [|c l IH]; intros m v Hv; [done|].
  unfold preempted. simpl. apply IH.
  destruct (h !! c) as [t|]; [|done].
  destruct (bool_decide _); [|done]. destruct (vm t) as [v'|]; [|done].
  destruct (decide (v' = v)) as [->|].
  - by rewrite lookup_insert_eq.
  - by rewrite lookup_insert_ne.
Qed.

Lemma preempted_running h l :
  ∀ m c t v, c ∈ l → h !! c = Some t → state t = TASKSTATE_RUNNING →
             vm t = Some v → preempted h l m !! v = Some (mkVm 1).
Proof.
  induction l as [|c' l IH]; intros m c t v Hc Ht Hst Hv.
  - by apply elem_of_nil in Hc.
  - apply elem_of_cons in Hc as [<-|Hc].
    + unfold preempted. simpl. rewrite Ht, Hv.
      rewrite bool_decide_eq_true_2 by done.
      apply preempted_keeps. by rewrite lookup_insert_eq.
    + unfold preempted. simpl. by eapply IH.
Qed.

Lemma preempted_is_Some h l :
  ∀ m v, is_Some (m !! v) → is_Some (preempted h l m !! v).
Proof.
  induction l as [|c l IH]; intros m v Hv; [done|].
  unfold preempted. simpl. apply IH.
  destruct (h !! c) as [t|]; [|done].
  destruct (bool_decide _); [|done]. destruct (vm t) as [v'|]; [|done].
  destruct (decide (v' = v)) as [->|].
  - by rewrite lookup_insert_eq.
  - by rewrite lookup_insert_ne.
Qed.

(** The sweep as the three callers run it, from the head of the ready
    queue. *)
Lemma preempt_running_spec s L :
  inv s L →
  preempt_running s
  = Ok (tt, with_vms (preempted (tcbs s) (L Q_READY) (vms s)) s).
Proof.
  intros (Hrep & Hag & Hvm). unfold preempt_running. mrun.
  destruct Hrep as [Hq _].
  apply preempt_running_loop_spec; [done|apply Hq| |].
  - intros c Hc. by apply (Hvm Q_READY).
  - pose proof (is_queue_length _ _ _ (Hq Q_READY)). unfold fuel_of. lia.
Qed.

Lemma inv_with_vms s L m :
  inv s L → (∀ v, is_Some (vms s !! v) → is_Some (m !! v)) →
  inv (with_vms m s) L.
Proof.
  intros (Hrep & Hag & Hvm) Hm. split; [|split].
  - destruct Hrep as [Hq Hd]. split; [|done]. intros q.
    rewrite q_head_with_vms. apply Hq.
  - done.
  - intros q c Hq Hc. destruct (Hvm q c Hq Hc) as (t & v & ? & ? & ?).
    exists t, v. eauto.
Qed.

(** *** The operations on a task *)

Lemma mrbc_suspend_task_spec s L a t :
  inv s L → a ∈ L Q_READY → tcbs s !! a = Some t →
  ∃ s' t' v,
    mrbc_suspend_task NDEBUG (Some a) s = Ok (tt, s')
    ∧ inv s' (moved (prio s') a Q_SUSPENDED L)
    ∧ tcbs s' !! a = Some t'
    ∧ set_next None t' = set_next None (set_state TASKSTATE_SUSPENDED t)
    ∧ others_kept a s s'
    ∧ vm t = Some v
    ∧ vms s' = <[v := mkVm 1]> (vms s)
    ∧ mutexes s' = mutexes s ∧ tick_ s' = tick_ s.
Proof.
  intros Hinv Hin Ha.
  destruct (requeue_spec (set_state TASKSTATE_SUSPENDED) s L a t
              Q_READY Q_SUSPENDED Hinv Ha Hin)
    as (s1 & t1 & s2 & t2 & Hrun1 & Ht1 & Hd1 & Hv1 & Hm1 & Hk1 & Hrun2
        & Hinv2 & Hv2 & Hm2 & Hk2 & Ht2 & Hd2 & Hoth); try done.
  destruct Hinv as (Hrep & Hag & Hvm).
  destruct (Hvm Q_READY a) as (t' & v & Ht' & Hv & Hs); [done|done|].
  rewrite Ha in Ht'. injection Ht' as <-.
  assert (vm t2 = Some v) as Hv2t.
  { apply set_next_None_fields in Hd2. by destruct Hd2 as (_&_&_&_&_&_&_&->). }
  unfold mrbc_suspend_task, hal_disable_irq, hal_enable_irq. mrun.
  erewrite bind_ok by exact Hrun1. mrun.
  erewrite bind_ok by exact Hrun2. mrun. rewrite Hv2t.
  rewrite set_flag_preemption_ok' by (by rewrite Hv2).
  eexists _, t2, v. split; [reflexivity|]. rewrite Hv2.
  split; [|done].
  apply inv_with_vms; [done|]. intros v' Hv'. rewrite Hv2 in Hv'.
  destruct (decide (v = v')) as [->|].
  - by rewrite lookup_insert_eq.
  - by rewrite lookup_insert_ne.
Qed.

Lemma mrbc_resume_task_spec s L a t :
  inv s L → a ∈ L Q_SUSPENDED → tcbs s !! a = Some t →
  ∃ s' t',
    mrbc_resume_task NDEBUG (Some a) s = Ok (tt, s')
    ∧ inv s' (moved (prio s') a Q_READY L)
    ∧ tcbs s' !! a = Some t'
    ∧ set_next None t' = set_next None (set_state TASKSTATE_READY t)
    ∧ others_kept a s s'
    ∧ vms s' = preempted (tcbs s) (L Q_READY) (vms s)
    ∧ mutexes s' = mutexes s ∧ tick_ s' = tick_ s.
Proof.
  intros Hinv Hin Ha.
  set (s0 := with_vms (preempted (tcbs s) (L Q_READY) (vms s)) s).
  assert (inv s0 L) as Hinv0.
  { apply inv_with_vms; [done|]. apply preempted_is_Some. }
  destruct (requeue_spec (set_state TASKSTATE_READY) s0 L a t
              Q_SUSPENDED Q_READY Hinv0 Ha Hin)
    as (s1 & t1 & s2 & t2 & Hrun1 & Ht1 & Hd1 & Hv1 & Hm1 & Hk1 & Hrun2
        & Hinv2 & Hv2 & Hm2 & Hk2 & Ht2 & Hd2 & Hoth); try done.
  unfold mrbc_resume_task, hal_disable_irq, hal_enable_irq. mrun.
  erewrite bind_ok by (by apply preempt_running_spec).
  erewrite bind_ok by exact Hrun1. mrun.
  erewrite bind_ok by exact Hrun2. mrun.
  by exists s2, t2.
Qed.

Lemma mrbc_sleep_ms_spec s L a t ms :
  inv s L → a ∈ L Q_READY → tcbs s !! a = Some t →
  ∃ s' t' v,
    mrbc_sleep_ms NDEBUG (Some a) ms s = Ok (tt, s')
    ∧ inv s' (moved (prio s') a Q_WAITING L)
    ∧ tcbs s' !! a = Some t'
    ∧ set_next None t'
      = set_next None
          (set_wakeup_tick (to_uint32 (tick_ s + ms))
             (set_reason TASKREASON_SLEEP
                (set_state TASKSTATE_WAITING (set_timeslice 0 t))))
    ∧ others_kept a s s'
    ∧ vm t = Some v
    ∧ vms s' = <[v := mkVm 1]> (vms s)
    ∧ mutexes s' = mutexes s ∧ tick_ s' = tick_ s.
Proof.
  intros Hinv Hin Ha.
  destruct (requeue_spec
              (λ x, set_wakeup_tick (to_uint32 (tick_ s + ms))
                      (set_reason TASKREASON_SLEEP
                         (set_state TASKSTATE_WAITING (set_timeslice 0 x))))
              s L a t Q_READY Q_WAITING Hinv Ha Hin)
    as (s1 & t1 & s2 & t2 & Hrun1 & Ht1 & Hd1 & Hv1 & Hm1 & Hk1 & Hrun2
        & Hinv2 & Hv2 & Hm2 & Hk2 & Ht2 & Hd2 & Hoth); try done.
  destruct Hinv as (Hrep & Hag & Hvm).
  destruct (Hvm Q_READY a) as (t' & v & Ht' & Hv & Hs); [done|done|].
  rewrite Ha in Ht'. injection Ht' as <-.
  assert (vm t2 = Some v) as Hv2t.
  { apply set_next_None_fields in Hd2. by destruct Hd2 as (_&_&_&_&_&_&_&->). }
  unfold mrbc_sleep_ms, hal_disable_irq, hal_enable_irq. mrun.
  erewrite bind_ok by exact Hrun1. mrun.
  rewrite !insert_insert_eq, Hk1.
  erewrite bind_ok by exact Hrun2. mrun. rewrite Hv2t.
  rewrite set_flag_preemption_ok' by (by rewrite Hv2).
  eexists _, t2, v. split; [reflexivity|]. rewrite Hv2.
  split; [|done].
  apply inv_with_vms; [done|]. intros v' Hv'. rewrite Hv2 in Hv'.
  destruct (decide (v = v')) as [->|].
  - by rewrite lookup_insert_eq.
  - by rewrite lookup_insert_ne.
Qed.

Lemma load_mutex_ok s m x :
  mutexes s !! m = Some x → load_mutex (Some m) s = Ok (x, s).
Proof. unfold load_mutex. by intros ->. Qed.

Lemma store_mutex_ok s m x f :
  mutexes s !! m = Some x →
  store_mutex (Some m) f s
  = Ok (tt, with_mutexes (<[m := f x]> (mutexes s)) s).
Proof. unfold store_mutex. by intros ->. Qed.

(** [mrbc_mutex_lock] on a mutex that is held. *)
Lemma mrbc_mutex_lock_blocks_spec s L a t m x :
  inv s L → a ∈ L Q_READY → tcbs s !! a = Some t →
  mutexes s !! m = Some x → lock x ≠ 0 →
  ∃ s' t' v,
    mrbc_mutex_lock NDEBUG (Some m) (Some a) s = Ok (0, s')
    ∧ inv s' (moved (prio s') a Q_WAITING L)
    ∧ tcbs s' !! a = Some t'
    ∧ set_next None t'
      = set_next None
          (set_mutex (Some m)
             (set_reason TASKREASON_MUTEX (set_state TASKSTATE_WAITING t)))
    ∧ others_kept a s s'
    ∧ vm t = Some v
    ∧ vms s' = <[v := mkVm 1]> (vms s)
    ∧ mutexes s' = mutexes s ∧ tick_ s' = tick_ s.
Proof.
  intros Hinv Hin Ha Hm Hlk.
  destruct (requeue_spec
              (λ x, set_mutex (Some m)
                      (set_reason TASKREASON_MUTEX
                         (set_state TASKSTATE_WAITING x)))
              s L a t Q_READY Q_WAITING Hinv Ha Hin)
    as (s1 & t1 & s2 & t2 & Hrun1 & Ht1 & Hd1 & Hv1 & Hm1 & Hk1 & Hrun2
        & Hinv2 & Hv2 & Hm2 & Hk2 & Ht2 & Hd2 & Hoth); try done.
  destruct Hinv as (Hrep & Hag & Hvm).
  destruct (Hvm Q_READY a) as (t' & v & Ht' & Hv & Hs); [done|done|].
  rewrite Ha in Ht'. injection Ht' as <-.
  assert (vm t2 = Some v) as Hv2t.
  { apply set_next_None_fields in Hd2. by destruct Hd2 as (_&_&_&_&_&_&_&->). }
  unfold mrbc_mutex_lock, hal_disable_irq, hal_enable_irq. mrun.
  erewrite bind_ok by (by apply load_mutex_ok).
  rewrite (proj2 (Z.eqb_neq _ _) Hlk).
  erewrite bind_ok by exact Hrun1. mrun.
  rewrite !insert_insert_eq.
  erewrite bind_ok by exact Hrun2. mrun. rewrite Hv2t.
  erewrite bind_ok by (apply set_flag_preemption_ok'; by rewrite Hv2). mrun.
  eexists _, t2, v. split; [reflexivity|]. rewrite Hv2.
  split; [|done].
  apply inv_with_vms; [done|]. intros v' Hv'. rewrite Hv2 in Hv'.
  destruct (decide (v = v')) as [->|].
  - by rewrite lookup_insert_eq.
  - by rewrite lookup_insert_ne.
Qed.

Lemma queue_of_queues q s l : queue_of q s = Some l → queues s q = l.
Proof. unfold queues. by intros ->. Qed.

Lemma kept_prio a s s' t t' :
  others_kept a s s' → tcbs s !! a = Some t → tcbs s' !! a = Some t' →
  priority_preemption t' = priority_preemption t →
  ∀ c, prio s' c = prio s c.
Proof.
  intros Hoth Ha Ha' Hp c. unfold prio.
  destruct (decide (c = a)) as [->|Hc]; [by rewrite Ha, Ha'|].
  specialize (Hoth c Hc).
  destruct (tcbs s !! c) as [x|], (tcbs s' !! c) as [x'|]; simpl in Hoth;
    try done.
  assert (set_next None x' = set_next None x) as E by congruence.
  apply set_next_None_fields in E. by destruct E as (_&->&_).
Qed.

(** C3, as the code has it.  [mrbc_sleep_ms] clears the timeslice of the
    task it moves to [WAITING]; [mrbc_suspend_task] and a blocking
    [mrbc_mutex_lock] move the task to [SUSPENDED] and to [WAITING] with the
    timeslice it had. *)
Theorem timeslice_on_leaving_ready s r a t ms :
  invariant s = true → queue_of Q_READY s = Some r → a ∈ r →
  tcbs s !! a = Some t →
  (∃ s' t', mrbc_sleep_ms NDEBUG (Some a) ms s = Ok (tt, s')
            ∧ tcbs s' !! a = Some t'
            ∧ state t' = TASKSTATE_WAITING ∧ reason t' = TASKREASON_SLEEP
            ∧ timeslice t' = 0)
  ∧ (∃ s' t', mrbc_suspend_task NDEBUG (Some a) s = Ok (tt, s')
              ∧ tcbs s' !! a = Some t'
              ∧ state t' = TASKSTATE_SUSPENDED
              ∧ timeslice t' = timeslice t)
  ∧ (∀ m x, mutexes s !! m = Some x → lock x ≠ 0 →
       ∃ s' t', mrbc_mutex_lock NDEBUG (Some m) (Some a) s = Ok (0, s')
                ∧ tcbs s' !! a = Some t'
                ∧ state t' = TASKSTATE_WAITING ∧ reason t' = TASKREASON_MUTEX
                ∧ timeslice t' = timeslice t).
Proof.
  intros Hinv%invariant_inv Hr%queue_of_queues Hin Ha. rewrite <- Hr in Hin.
  split; [|split].
  - destruct (mrbc_sleep_ms_spec s _ a t ms Hinv Hin Ha)
      as (s' & t' & v & Hrun & _ & Ht' & E & _).
    exists s', t'. split; [done|]. split; [done|].
    apply set_next_None_fields in E.
    by destruct E as (_&_&->&->&->&_).
  - destruct (mrbc_suspend_task_spec s _ a t Hinv Hin Ha)
      as (s' & t' & v & Hrun & _ & Ht' & E & _).
    exists s', t'. split; [done|]. split; [done|].
    apply set_next_None_fields in E.
    by destruct E as (_&_&->&->&_).
  - intros m x Hm Hlk.
    destruct (mrbc_mutex_lock_blocks_spec s _ a t m x Hinv Hin Ha Hm Hlk)
      as (s' & t' & v & Hrun & _ & Ht' & E & _).
    exists s', t'. split; [done|]. split; [done|].
    apply set_next_None_fields in E.
    by destruct E as (_&_&->&->&->&_).
Qed.

(** C8.  [mrbc_suspend_task] followed by [mrbc_resume_task] brings a task
    of the ready queue back to [READY] on the ready queue, behind every task
    of equal [priority_preemption] and right before the first one of a
    greater key, with its priority as it was.  The timeslice is not
    replenished: [mrbc_resume_task] leaves it as it finds it, whereas
    [mrbc_tick], [mrbc_create_task] and the dispatcher give a task that
    becomes [READY] a slice of [TIMESLICE_TICK]; a task that is suspended
    with timeslice 0 is [READY] with timeslice 0. *)
Theorem suspend_resume_round_trip s r a t :
  invariant s = true → queue_of Q_READY s = Some r → a ∈ r →
  tcbs s !! a = Some t →
  ∃ s1 s2 t2 l1 l2,
    mrbc_suspend_task NDEBUG (Some a) s = Ok (tt, s1)
    ∧ mrbc_resume_task NDEBUG (Some a) s1 = Ok (tt, s2)
    ∧ tcbs s2 !! a = Some t2
    ∧ state t2 = TASKSTATE_READY
    ∧ priority t2 = priority t
    ∧ priority_preemption t2 = priority_preemption t
    ∧ timeslice t2 = timeslice t
    ∧ filter (λ c, c ≠ a) r = l1 ++ l2
    ∧ queue_of Q_READY s2 = Some (l1 ++ a :: l2)
    ∧ Forall (λ b, prio s b <= prio s a) l1
    ∧ match l2 with [] => True | b :: _ => prio s a < prio s b end
    ∧ invariant s2 = true.
Proof.
  intros Hinv%invariant_inv Hr%queue_of_queues Hin Ha. rewrite <- Hr in Hin.
  destruct (mrbc_suspend_task_spec s _ a t Hinv Hin Ha)
    as (s1 & t1 & v & Hrun1 & Hinv1 & Ht1 & E1 & Hoth1 & _).
  destruct (mrbc_resume_task_spec s1 _ a t1 Hinv1) as
    (s2 & t2 & Hrun2 & Hinv2 & Ht2 & E2 & Hoth2 & _); [|done|].
  { apply elem_of_moved. by left. }
  apply set_next_None_fields in E1. simpl in E1.
  destruct E1 as (Ep1 & Epp1 & Ets1 & _).
  apply set_next_None_fields in E2. simpl in E2.
  destruct E2 as (Ep2 & Epp2 & Ets2 & Est2 & _).
  assert (∀ c, prio s2 c = prio s c) as Hprio.
  { intros c. rewrite (kept_prio a s1 s2 t1 t2), (kept_prio a s s1 t t1);
      done. }
  destruct (insert_by_priority_split (prio s) a (filter (λ c, c ≠ a) r))
    as (l1 & l2 & Hl & Hins & Hle & Hgt).
  exists s1, s2, t2, l1, l2. do 3 (split; [done|]).
  split; [done|]. do 3 (split; [congruence|]). split; [done|].
  split; [|split; [done|]; split; [done|]; by eapply inv_invariant].
  destruct Hinv2 as (Hrep2 & _). rewrite (rep_queue_of _ _ Q_READY Hrep2).
  f_equal. unfold moved at 1. rewrite decide_True by done.
  unfold moved. rewrite decide_False by done. cbv zeta.
  rewrite list_filter_filter, Hr, <- Hins.
  rewrite (list_filter_iff _ (λ c, c ≠ a)) by naive_solver.
  apply insert_by_priority_ext. intros c _. apply Hprio.
Qed.

(** *** Scans that look for a TCB *)

Lemma find_split {A} (f : A → bool) l b :
  find f l = Some b →
  ∃ l1 l2, l = l1 ++ b :: l2 ∧ Forall (λ c, f c = false) l1 ∧ f b = true.
Proof.
  induction l as [|c l IH]; simpl; [done|].
  destruct (f c) eqn:E.
  - intros [= <-]. by exists [], l.
  - intros (l1 & l2 & -> & H1 & H2)%IH. exists (c :: l1), l2.
    repeat split; [|done]. by constructor.
Qed.

Lemma find_none_Forall {A} (f : A → bool) l :
  find f l = None → Forall (λ c, f c = false) l.
Proof.
  induction l as [|c l IH]; simpl; [constructor|].
  destruct (f c) eqn:E; [done|]. intros H. constructor; auto.
Qed.

Lemma find_requested_task_loop_spec s vmp l :
  ∀ n p, is_queue (tcbs s) p l → (length l ≤ n)%nat →
         find_requested_task_loop n vmp p s = Ok (find (runs_vm s vmp) l, s).
Proof.
  induction l as [|c l IH]; intros n p Hq Hn.
  - simpl in Hq. subst p. by destruct n.
  - destruct Hq as (-> & t & Ht & Hq). destruct n as [|n]; [simpl in Hn; lia|].
    simpl find_requested_task_loop. mrun. simpl find. unfold runs_vm at 1.
    rewrite Ht. destruct (bool_decide (vm t = vmp)); [done|].
    apply IH; [done|]. simpl in Hn. lia.
Qed.

Lemma find_requested_task_spec s vmp r :
  queue_of Q_READY s = Some r →
  find_requested_task vmp s = Ok (find (runs_vm s vmp) r, s).
Proof.
  intros Hq%queue_of_is_queue. unfold find_requested_task. mrun.
  apply find_requested_task_loop_spec; [done|].
  pose proof (is_queue_length _ _ _ Hq). unfold fuel_of. lia.
Qed.

(** The scan of [mrbc_mutex_unlock] passes over the TCBs that do not wait
    for the mutex. *)
Lemma mrbc_mutex_unlock_loop_skip s m w1 :
  ∀ p rest,
    is_queue (tcbs s) p (w1 ++ rest) →
    Forall (λ c, waits_for s m c = false) w1 →
    ∃ p', is_queue (tcbs s) p' rest
        ∧ ∀ n, mrbc_mutex_unlock_loop NDEBUG (length w1 + n) m p s
               = mrbc_mutex_unlock_loop NDEBUG n m p' s.
Proof.
  induction w1 as [|c w1 IH]; intros p rest Hq Hno.
  - exists p. by split.
  - destruct Hq as (-> & t & Ht & Hq).
    apply Forall_cons in Hno as [Hc Hno].
    destruct (IH _ _ Hq Hno) as (p' & Hq' & Hrun). exists p'.
    split; [done|]. intros n. simpl mrbc_mutex_unlock_loop. mrun.
    unfold waits_for in Hc. rewrite Ht in Hc. rewrite Hc. apply Hrun.
Qed.

Lemma inv_with_mutexes s L m : inv s L → inv (with_mutexes m s) L.
Proof.
  intros (Hrep & Hag & Hvm). split; [|done].
  destruct Hrep as [Hq Hd]. split; [|done]. intros q.
  destruct q; [apply (Hq Q_DOMANT)|apply (Hq Q_READY)|apply (Hq Q_WAITING)
              |apply (Hq Q_SUSPENDED)].
Qed.

(** The scan of [mrbc_mutex_unlock] at the first TCB that waits for the
    mutex. *)
Lemma mrbc_mutex_unlock_loop_wake s L m x b tb n :
  inv s L → b ∈ L Q_WAITING → tcbs s !! b = Some tb →
  waits_for s (Some m) b = true → mutexes s !! m = Some x →
  ∃ s2 t2,
    mrbc_mutex_unlock_loop NDEBUG (S n) (Some m) (Some b) s = Ok (1, s2)
    ∧ inv s2 (moved (prio s2) b Q_READY L)
    ∧ tcbs s2 !! b = Some t2
    ∧ set_next None t2 = set_next None (set_state TASKSTATE_READY tb)
    ∧ others_kept b s s2
    ∧ vms s2 = vms s
    ∧ mutexes s2 = <[m := set_tcb (Some b) x]> (mutexes s)
    ∧ tick_ s2 = tick_ s.
Proof.
  intros Hinv Hin Htb Hb Hm.
  set (s0 := with_mutexes (<[m := set_tcb (Some b) x]> (mutexes s)) s).
  assert (inv s0 L) as Hinv0 by by apply inv_with_mutexes.
  destruct (requeue_spec (set_state TASKSTATE_READY) s0 L b tb
              Q_WAITING Q_READY Hinv0 Htb Hin)
    as (s1 & t1 & s2 & t2 & Hrun1 & Ht1 & Hd1 & Hv1 & Hm1 & Hk1 & Hrun2
        & Hinv2 & Hv2 & Hm2 & Hk2 & Ht2 & Hd2 & Hoth); try done.
  unfold waits_for in Hb. rewrite Htb in Hb.
  simpl mrbc_mutex_unlock_loop. mrun. rewrite Hb.
  erewrite bind_ok by (by apply store_mutex_ok). fold s0.
  erewrite bind_ok by exact Hrun1. mrun.
  erewrite bind_ok by exact Hrun2. mrun.
  by exists s2, t2.
Qed.

(** C2. [mrbc_mutex_unlock], called by the owner of a locked mutex: the
    first TCB of the waiting queue that waits for this mutex becomes the
    owner, leaves the waiting queue, is [READY] and on the ready queue, every
    [RUNNING] task has its preemption flag set, and [lock] stays 1 (the branch
    writes the owner field only); without such a waiter only [lock] changes,
    to 0. *)
Theorem mrbc_mutex_unlock_hands_over s m x w r :
  invariant s = true → mutexes s !! m = Some x → lock x = 1 →
  queue_of Q_WAITING s = Some w → queue_of Q_READY s = Some r →
  match find (waits_for s (Some m)) w with
  | Some b =>
      ∃ s' tb r1 r2,
        mrbc_mutex_unlock NDEBUG (Some m) (tcb x) s = Ok (0, s')
        ∧ mutexes s' !! m = Some (mkMutex 1 (Some b))
        ∧ queue_of Q_WAITING s' = Some (filter (λ c, c ≠ b) w)
        ∧ tcbs s' !! b = Some tb ∧ state tb = TASKSTATE_READY
        ∧ r = r1 ++ r2
        ∧ queue_of Q_READY s' = Some (r1 ++ b :: r2)
        ∧ (∀ c tc, c ∈ r1 ++ b :: r2 → tcbs s' !! c = Some tc →
             state tc = TASKSTATE_RUNNING →
             ∃ v, vm tc = Some v ∧ vms s' !! v = Some (mkVm 1))
        ∧ invariant s' = true
  | None =>
      mrbc_mutex_unlock NDEBUG (Some m) (tcb x) s
      = Ok (0, with_mutexes (<[m := set_lock 0 x]> (mutexes s)) s)
  end.
Proof.
  intros Hinv%invariant_inv Hm Hlk Hw%queue_of_queues Hr%queue_of_queues.
  assert (Hinv' := Hinv). destruct Hinv' as (Hrep & Hag & Hvm).
  assert (Hqw := proj1 Hrep Q_WAITING). rewrite Hw in Hqw.
  pose proof (is_queue_length _ _ _ Hqw) as Hlen.
  unfold mrbc_mutex_unlock, hal_disable_irq, hal_enable_irq.
  destruct (find (waits_for s (Some m)) w) as [b|] eqn:Hfind.
  - destruct (find_split _ _ _ Hfind) as (w1 & w2 & -> & Hno & Hb).
    destruct (mrbc_mutex_unlock_loop_skip s (Some m) w1 _ _ Hqw Hno)
      as (p' & Hqb & Hskip).
    assert (Hqb' := Hqb). destruct Hqb' as (-> & tb & Htb & _).
    assert (fuel_of s = (length w1 + S (size (tcbs s) - length w1))%nat)
      as Hfuel.
    { unfold fuel_of. rewrite length_app in Hlen. simpl in Hlen. lia. }
    destruct (mrbc_mutex_unlock_loop_wake s (queues s) m x b tb
                (size (tcbs s) - length w1) Hinv)
      as (s2 & t2 & Hrun & Hinv2 & Ht2 & E2 & Hoth & Hv2 & Hm2 & Hk2);
      [rewrite Hw; set_solver|done|done|done|].
    erewrite bind_ok by (by apply load_mutex_ok).
    erewrite bind_ok by (apply assert_ok; by apply bool_decide_eq_true).
    erewrite bind_ok by (by apply load_mutex_ok).
    erewrite bind_ok by (apply assert_ok; by apply Z.eqb_eq).
    mrun.
    erewrite bind_ok by (rewrite Hfuel, Hskip; exact Hrun).
    cbn [Z.eqb negb].
    erewrite bind_ok by (by eapply preempt_running_spec). mrun.
    destruct (insert_by_priority_split (prio s2) b
                (filter (λ c, c ≠ b) (queues s Q_READY)))
      as (r1 & r2 & Hr12 & Hins & _).
    rewrite filter_ne_notin in Hr12.
    2:{ intros Hbr. destruct Hrep as [_ Hd].
        assert (b ∈ queues s Q_WAITING) by (rewrite Hw; set_solver).
        by pose proof (Hd _ _ _ Hbr H). }
    assert (inv (with_vms (preempted (tcbs s2)
                   (moved (prio s2) b Q_READY (queues s) Q_READY) (vms s2)) s2)
                (moved (prio s2) b Q_READY (queues s))) as Hinv3.
    { apply inv_with_vms; [done|]. apply preempted_is_Some. }
    assert (moved (prio s2) b Q_READY (queues s) Q_READY = r1 ++ b :: r2)
      as Hready.
    { unfold moved. by rewrite decide_True. }
    eexists _, t2, r1, r2. split; [reflexivity|].
    split; [cbn [mutexes with_vms]; rewrite Hm2, lookup_insert_eq;
            destruct x; simpl in *; by subst|].
    split.
    { rewrite (rep_queue_of _ _ Q_WAITING (proj1 Hinv3)). unfold moved.
      rewrite decide_False by done. by rewrite Hw. }
    split; [done|]. split.
    { apply set_next_None_fields in E2. by destruct E2 as (_&_&_&->&_). }
    split; [by rewrite <- Hr, Hr12|]. split.
    { rewrite (rep_queue_of _ _ Q_READY (proj1 Hinv3)). by rewrite Hready. }
    split; [|by eapply inv_invariant].
    intros c tc Hc Htc Hrun'. cbn [tcbs with_vms] in Htc.
    destruct Hinv2 as (_ & _ & Hvm2).
    destruct (Hvm2 Q_READY c) as (tc' & v & Htc' & Hv & _);
      [done|by rewrite Hready|].
    rewrite Htc in Htc'. injection Htc' as <-. exists v. split; [done|].
    cbn [vms with_vms]. eapply preempted_running; try done.
    by rewrite Hready.
  - apply find_none_Forall in Hfind.
    destruct (mrbc_mutex_unlock_loop_skip s (Some m) w (q_head Q_WAITING s) [])
      as (p' & Hqe & Hskip); [by rewrite app_nil_r|done|].
    simpl in Hqe. subst p'.
    assert (fuel_of s = (length w + S (size (tcbs s) - length w))%nat)
      as Hfuel by (unfold fuel_of; lia).
    erewrite bind_ok by (by apply load_mutex_ok).
    erewrite bind_ok by (apply assert_ok; by apply bool_decide_eq_true).
    erewrite bind_ok by (by apply load_mutex_ok).
    erewrite bind_ok by (apply assert_ok; by apply Z.eqb_eq).
    mrun.
    erewrite bind_ok by (rewrite Hfuel, Hskip; reflexivity).
    cbn [Z.eqb negb].
    erewrite bind_ok by (by apply store_mutex_ok). by mrun.
Qed.

(** *** Task creation *)

Lemma detached_spec s a : detached s a = true → ∀ q, a ∉ queues s q.
Proof.
  unfold detached, all_queued. intros H%bool_decide_eq_true q.
  rewrite !elem_of_app in H. destruct q; tauto.
Qed.

Section CreateTask.

Variable mrbc_raw_alloc : M ptr.
Variable MRBC_TCB_INITIALIZER : MrbcTcb.
Variable mrbc_vm_open : M ptr.
Variable mrbc_load_mrb : ptr → list Z → M Z.
Variable mrbc_vm_begin : ptr → M unit.

(** C5, as the code has it.  [mrbc_create_task] on a TCB whose state is
    [DOMANT] and that is on no queue opens no VM and loads nothing; it sets
    the timeslice to [TIMESLICE_TICK] and [priority_preemption] to
    [priority], leaves the state [DOMANT] and enqueues the TCB on the dormant
    queue, the ready queue staying as it was. *)
Theorem mrbc_create_task_dormant vm_code s a t d :
  queues_wf s = true → detached s a = true →
  tcbs s !! a = Some t → state t = TASKSTATE_DOMANT →
  queue_of Q_DOMANT s = Some d →
  ∃ s' t' d1 d2,
    mrbc_create_task NDEBUG mrbc_raw_alloc MRBC_TCB_INITIALIZER mrbc_vm_open
      mrbc_load_mrb mrbc_vm_begin vm_code (Some a) s = Ok (Some a, s')
    ∧ tcbs s' !! a = Some t'
    ∧ state t' = TASKSTATE_DOMANT
    ∧ timeslice t' = TIMESLICE_TICK
    ∧ priority_preemption t' = priority t
    ∧ priority t' = priority t
    ∧ vm t' = vm t
    ∧ vms s' = vms s
    ∧ d = d1 ++ d2
    ∧ queue_of Q_DOMANT s' = Some (d1 ++ a :: d2)
    ∧ queue_of Q_READY s' = queue_of Q_READY s.
Proof.
  intros Hrep%queues_wf_rep Hdet Ha Hst Hd%queue_of_queues.
  pose proof (detached_spec _ _ Hdet) as Hnot.
  set (t1 := set_priority_preemption (priority t)
               (set_timeslice TIMESLICE_TICK t)).
  set (s1 := with_tcbs (<[a := t1]> (tcbs s)) s).
  assert (rep s1 (queues s)) as Hrep1 by by eapply rep_store.
  destruct (q_insert_task_rep s1 (queues s) a t1 Q_DOMANT Hrep1)
    as (s2 & Hrun & Hrep2 & Hrl); [| |done|].
  { unfold s1. cbn [tcbs with_tcbs]. by rewrite lookup_insert_eq. }
  { unfold t1. simpl. by rewrite Hst. }
  unfold mrbc_create_task, hal_disable_irq, hal_enable_irq. mrun.
  rewrite Hst. rewrite bool_decide_eq_true_2 by done. cbn [negb]. mrun.
  rewrite insert_insert_eq. fold t1. fold s1.
  erewrite bind_ok by exact Hrun. mrun.
  destruct Hrl as (Hv & _ & _ & _ & Hrh).
  assert (tcbs s1 !! a = Some t1) as Ha1.
  { unfold s1. cbn [tcbs with_tcbs]. by rewrite lookup_insert_eq. }
  destruct (relinked_heap_lookup _ _ _ _ _ Hrh Ha1) as (t2 & Ht2 & E).
  apply set_next_None_fields in E. simpl in E.
  destruct E as (Ep & Epp & Ets & Est & _ & _ & _ & Evm).
  destruct (insert_by_priority_split (prio s1) a (queues s Q_DOMANT))
    as (d1 & d2 & Hd12 & Hins & _).
  exists s2, t2, d1, d2. do 2 (split; [done|]). split; [congruence|].
  do 5 (split; [done|]). split; [congruence|]. split.
  - rewrite (rep_queue_of _ _ Q_DOMANT Hrep2).
    by rewrite fn_lookup_insert, Hins.
  - rewrite (rep_queue_of _ _ Q_READY Hrep2).
    rewrite fn_lookup_insert_ne by done. symmetry.
    apply queue_of_is_queue, Hrep.
Qed.

End CreateTask.

(** *** The dispatcher *)

Lemma is_queue_nil_iff h p l : is_queue h p l → (p = None ↔ l = []).
Proof. destruct l; simpl; [done|]. intros [-> _]. done. Qed.

Lemma mrbc_vm_end_ok s v :
  is_Some (vms s !! v) → mrbc_vm_end (Some v) s = Ok (tt, s).
Proof. intros [x Hx]. unfold mrbc_vm_end. by rewrite Hx. Qed.

Lemma mrbc_vm_close_ok s v :
  is_Some (vms s !! v) →
  mrbc_vm_close (Some v) s = Ok (tt, with_vms (delete v (vms s)) s).
Proof. intros [x Hx]. unfold mrbc_vm_close. by rewrite Hx. Qed.

Lemma queue_of_nil s L q :
  rep s L → queue_of q s = Some [] ↔ q_head q s = None.
Proof.
  intros Hrep. rewrite (rep_queue_of s L q Hrep).
  destruct Hrep as [Hq _]. rewrite (is_queue_nil_iff _ _ _ (Hq q)).
  split; [by intros [= ->]|by intros ->].
Qed.

(** *** The tick handler *)

Lemma is_queue_head h p l : is_queue h p l → p = head l.
Proof. destruct l; simpl; [done|]. by intros [-> _]. Qed.

Lemma inv_store s L a t t' :
  inv s L → tcbs s !! a = Some t →
  next t' = next t → state t' = state t → vm t' = vm t →
  inv (with_tcbs (<[a := t']> (tcbs s)) s) L.
Proof.
  intros (Hrep & Hag & Hvm) Ha Hn Hs Hv. split; [|split].
  - by eapply rep_store.
  - intros q c Hc. destruct (Hag q c Hc) as (x & Hx & Hxs).
    cbn [tcbs with_tcbs]. destruct (decide (a = c)) as [->|].
    + rewrite lookup_insert_eq. exists t'. split; [done|].
      rewrite Hs. congruence.
    + rewrite lookup_insert_ne by done. eauto.
  - intros q c Hq Hc. destruct (Hvm q c Hq Hc) as (x & v & Hx & Hxv & Hvs).
    cbn [tcbs vms with_tcbs]. destruct (decide (a = c)) as [->|].
    + rewrite lookup_insert_eq. exists t', v. split; [done|].
      split; [|done]. rewrite Hv. congruence.
    + rewrite lookup_insert_ne by done. eauto.
Qed.

Lemma due_ext s s' c :
  set_next None <$> tcbs s' !! c = set_next None <$> tcbs s !! c →
  tick_ s' = tick_ s → due s' c = due s c.
Proof.
  intros D Hk. unfold due. rewrite Hk.
  destruct (tcbs s !! c) as [x|], (tcbs s' !! c) as [x'|]; simpl in D;
    try done.
  assert (set_next None x' = set_next None x) as E by congruence.
  apply set_next_None_fields in E.
  by destruct E as (_ & _ & _ & _ & -> & -> & _).
Qed.

Lemma mrbc_tick_loop_spec rest :
  ∀ n s L pre flag,
    inv s L → L Q_WAITING = pre ++ rest → (length rest ≤ n)%nat →
    ∃ s' L',
      mrbc_tick_loop NDEBUG n (head rest) flag s
      = Ok (if existsb (due s) rest then 1 else flag, s')
      ∧ inv s' L'
      ∧ vms s' = vms s ∧ mutexes s' = mutexes s ∧ tick_ s' = tick_ s
      ∧ (∀ c, ¬ (c ∈ rest ∧ due s c = true) →
           set_next None <$> tcbs s' !! c = set_next None <$> tcbs s !! c
           ∧ ∀ q, c ∈ L' q ↔ c ∈ L q)
      ∧ (∀ c x, c ∈ rest → due s c = true → tcbs s !! c = Some x →
           c ∈ L' Q_READY
           ∧ ∃ x', tcbs s' !! c = Some x'
                   ∧ set_next None x'
                     = set_next None
                         (set_timeslice TIMESLICE_TICK
                            (set_state TASKSTATE_READY x))).
Proof.
  induction rest as [|c rest IH]; intros n s L pre flag Hinv HL Hn.
  - exists s, L. simpl. assert (mrbc_tick_loop NDEBUG n None flag s
      = Ok (flag, s)) as -> by by destruct n.
    split; [done|]. split; [done|]. do 3 (split; [done|]).
    split; [done|]. intros c x Hc. by apply elem_of_nil in Hc.
  - destruct n as [|n]; [simpl in Hn; lia|].
    assert (Hinv' := Hinv). destruct Hinv' as (Hrep & Hag & Hvm).
    assert (Hq := proj1 Hrep Q_WAITING). rewrite HL in Hq.
    pose proof (is_queue_NoDup _ _ _ Hq) as Hnd.
    apply NoDup_app in Hnd as (_ & Hpre & Hnd).
    apply NoDup_cons in Hnd as [Hc _].
    destruct (is_queue_suffix _ _ _ _ Hq) as (p' & Hq').
    destruct Hq' as (_ & x & Hx & Hrest). apply is_queue_head in Hrest.
    simpl head. simpl mrbc_tick_loop. mrun. rewrite Hrest.
    simpl existsb. unfold due at 1. rewrite Hx.
    destruct (bool_decide (reason x = TASKREASON_SLEEP)
              && (wakeup_tick x =? tick_ s)) eqn:Hdue.
    + assert (due s c = true) as Hduec by (unfold due; by rewrite Hx).
      destruct (requeue_spec
                  (λ y, set_timeslice TIMESLICE_TICK
                          (set_state TASKSTATE_READY y))
                  s L c x Q_WAITING Q_READY Hinv Hx)
        as (s1 & t1 & s2 & t2 & Hrun1 & Ht1 & Hd1 & Hv1 & Hm1 & Hk1 & Hrun2
            & Hinv2 & Hv2 & Hm2 & Hk2 & Ht2 & Hd2 & Hoth); try done.
      { rewrite HL. set_solver. }
      destruct (IH n s2 (moved (prio s2) c Q_READY L) pre 1 Hinv2)
        as (s' & L' & Hrun' & Hinv' & Hv' & Hm' & Hk' & H3 & H4).
      { unfold moved. rewrite decide_False by done. cbv zeta.
        rewrite HL, filter_app, filter_cons_False by naive_solver.
        rewrite !filter_ne_notin; [done|done|].
        intros Hcp. by apply (Hpre c Hcp), list_elem_of_here. }
      { simpl in Hn. lia. }
      assert (∀ c0, c0 ≠ c → due s2 c0 = due s c0) as Hdue2.
      { intros c0 Hc0. apply due_ext; [by apply Hoth|done]. }
      exists s', L'.
      erewrite bind_ok by exact Hrun1. mrun. rewrite insert_insert_eq.
      erewrite bind_ok by exact Hrun2. rewrite Hrun'.
      split; [by destruct (existsb (due s2) rest)|].
      split; [done|]. do 3 (split; [congruence|]). split.
      * intros c0 Hc0. assert (c0 ≠ c) as Hne.
        { intros ->. apply Hc0. split; [set_solver|done]. }
        destruct (H3 c0) as [D HL'].
        { rewrite Hdue2 by done. intros [? ?]. apply Hc0. set_solver. }
        split; [by rewrite D; apply Hoth|].
        intros q. rewrite HL', elem_of_moved. naive_solver.
      * intros c0 x0 Hc0 Hd0 Hx0. apply elem_of_cons in Hc0 as [->|Hc0].
        -- rewrite Hx in Hx0. injection Hx0 as <-.
           destruct (H3 c) as [D HL']; [naive_solver|].
           split; [apply HL', elem_of_moved; by left|].
           rewrite Ht2 in D. destruct (tcbs s' !! c) as [x'|]; [|done].
           exists x'. split; [done|]. simpl in D. congruence.
        -- assert (c0 ≠ c) as Hne by (by intros ->).
           specialize (Hoth c0 Hne). rewrite Hx0 in Hoth.
           destruct (tcbs s2 !! c0) as [x2|] eqn:Hx2; [|done].
           assert (set_next None x2 = set_next None x0) as E2
             by (simpl in Hoth; congruence).
           destruct (H4 c0 x2 Hc0) as (Hin & x' & Hx' & E');
             [by rewrite Hdue2|done|].
           split; [done|]. exists x'. split; [done|]. rewrite E'.
           by apply (keeps_link_data
                       (λ y, set_timeslice TIMESLICE_TICK
                               (set_state TASKSTATE_READY y))).
    + assert (due s c = false) as Hduec by (unfold due; by rewrite Hx).
      destruct (IH n s L (pre ++ [c]) flag Hinv)
        as (s' & L' & Hrun' & Hinv' & Hv' & Hm' & Hk' & H3 & H4).
      { by rewrite <- app_assoc. }
      { simpl in Hn. lia. }
      exists s', L'. rewrite Hrun'. split; [done|]. split; [done|].
      do 3 (split; [done|]). split.
      * intros c0 Hc0. apply H3. intros [? ?]. apply Hc0. set_solver.
      * intros c0 x0 Hc0 Hd0 Hx0. apply elem_of_cons in Hc0 as [->|Hc0].
        -- congruence.
        -- by apply H4.
Qed.

Lemma inv_with_tick s L z : inv s L → inv (with_tick z s) L.
Proof.
  intros (Hrep & Hag & Hvm). split; [|done].
  destruct Hrep as [Hq Hd]. split; [|done]. intros q.
  destruct q; [apply (Hq Q_DOMANT)|apply (Hq Q_READY)|apply (Hq Q_WAITING)
              |apply (Hq Q_SUSPENDED)].
Qed.

Lemma modify_ok f s : modify f s = Ok (tt, f s).
Proof. done. Qed.

(** [mrbc_tick]: the counter advances by one; a TCB of the waiting queue
    that sleeps until the new counter value is [READY] with a full timeslice
    on the ready queue, every other TCB of the waiting queue stays as it
    is. *)
Lemma mrbc_tick_spec s L :
  inv s L →
  ∃ s' L',
    mrbc_tick NDEBUG s = Ok (tt, s')
    ∧ inv s' L'
    ∧ tick_ s' = to_uint32 (tick_ s + 1)
    ∧ mutexes s' = mutexes s
    ∧ ∀ c x, c ∈ L Q_WAITING → tcbs s !! c = Some x →
        if bool_decide (reason x = TASKREASON_SLEEP)
           && (wakeup_tick x =? to_uint32 (tick_ s + 1))
        then c ∈ L' Q_READY
             ∧ ∃ x', tcbs s' !! c = Some x'
                     ∧ set_next None x'
                       = set_next None
                           (set_timeslice TIMESLICE_TICK
                              (set_state TASKSTATE_READY x))
        else c ∈ L' Q_WAITING
             ∧ ∃ x', tcbs s' !! c = Some x'
                     ∧ set_next None x' = set_next None x.
Proof.
  intros Hinv. set (s0 := with_tick (to_uint32 (tick_ s + 1)) s).
  assert (inv s0 L) as Hinv0 by by apply inv_with_tick.
  unfold mrbc_tick. erewrite bind_ok by apply modify_ok. fold s0.
  erewrite bind_ok by apply get_q_ok.
  match goal with
  | |- context [bind ?m _ s0] =>
      assert (∃ s1, m s0 = Ok (tt, s1) ∧ inv s1 L ∧ tick_ s1 = tick_ s0
                    ∧ mutexes s1 = mutexes s0
                    ∧ ∀ c, c ∉ L Q_READY → tcbs s1 !! c = tcbs s0 !! c)
        as (s1 & Hstep & Hinv1 & Hk1 & Hm1 & Hkeep)
  end.
  { assert (Hinv0' := Hinv0). destruct Hinv0' as (Hrep & Hag & Hvm).
    assert (Hq := proj1 Hrep Q_READY).
    destruct (L Q_READY) as [|h r] eqn:HLr.
    - assert (q_head Q_READY s0 = None) as -> by exact Hq. by exists s0.
    - destruct Hq as (Hhd & x & Hx & _).
      assert (q_head Q_READY s0 = Some h) as -> by exact Hhd. mrun.
      destruct (bool_decide (state x = TASKSTATE_RUNNING)
                && (0 <? timeslice x)); [|by exists s0].
      mrun.
      set (x1 := set_timeslice (to_uint8 (timeslice x - 1)) x).
      set (s1 := with_tcbs (<[h := x1]> (tcbs s0)) s0).
      assert (inv s1 L) as Hinv1 by by apply (inv_store s0 L h x x1).
      assert (∀ c, c ∉ L Q_READY → tcbs s1 !! c = tcbs s0 !! c) as Hkeep.
      { intros c Hc. unfold s1. cbn [tcbs with_tcbs].
        rewrite lookup_insert_ne; [done|]. intros ->. apply Hc.
        rewrite HLr. set_solver. }
      rewrite HLr in Hkeep.
      destruct (to_uint8 (timeslice x - 1) =? 0); [|by exists s1].
      destruct (Hvm Q_READY h) as (x' & v & Hx' & Hv & Hvs);
        [done|rewrite HLr; set_solver|].
      rewrite Hx in Hx'. injection Hx' as <-. rewrite Hv.
      rewrite set_flag_preemption_ok' by done.
      eexists. split; [reflexivity|]. split; [|done].
      apply inv_with_vms; [done|]. intros v' Hv'. cbn [vms with_tcbs] in *.
      destruct (decide (v = v')) as [->|].
      + by rewrite lookup_insert_eq.
      + by rewrite lookup_insert_ne. }
  erewrite bind_ok by exact Hstep. mrun.
  assert (tick_ s0 = to_uint32 (tick_ s + 1)) as Hk0 by done.
  assert (mutexes s0 = mutexes s) as Hm0 by done.
  destruct (mrbc_tick_loop_spec (L Q_WAITING) (fuel_of s1) s1 L [] 0 Hinv1)
    as (s2 & L2 & Hrun & Hinv2 & Hv2 & Hm2 & Hk2 & H3 & H4); [done| |].
  { destruct Hinv1 as ([Hq _] & _).
    pose proof (is_queue_length _ _ _ (Hq Q_WAITING)). unfold fuel_of. lia. }
  rewrite (is_queue_head _ _ _ (proj1 (proj1 Hinv1) Q_WAITING)).
  erewrite bind_ok by exact Hrun.
  assert (∀ c x, c ∈ L Q_WAITING → tcbs s !! c = Some x →
            tcbs s1 !! c = Some x
            ∧ due s1 c = bool_decide (reason x = TASKREASON_SLEEP)
                         && (wakeup_tick x =? to_uint32 (tick_ s + 1)))
    as Hwait.
  { intros c x Hc Hx. assert (tcbs s1 !! c = Some x) as Hx1.
    { rewrite Hkeep; [done|]. intros Hcr. destruct Hinv as ([_ Hd] & _).
      by pose proof (Hd _ _ _ Hc Hcr). }
    split; [done|]. unfold due. by rewrite Hx1, Hk1. }
  assert (∀ m, inv (with_vms m s2) L2 →
            ∀ c x, c ∈ L Q_WAITING → tcbs s !! c = Some x →
              if bool_decide (reason x = TASKREASON_SLEEP)
                 && (wakeup_tick x =? to_uint32 (tick_ s + 1))
              then c ∈ L2 Q_READY
                   ∧ ∃ x', tcbs (with_vms m s2) !! c = Some x'
                           ∧ set_next None x'
                             = set_next None
                                 (set_timeslice TIMESLICE_TICK
                                    (set_state TASKSTATE_READY x))
              else c ∈ L2 Q_WAITING
                   ∧ ∃ x', tcbs (with_vms m s2) !! c = Some x'
                           ∧ set_next None x' = set_next None x) as Hpost.
  { intros m _ c x Hc Hx. destruct (Hwait c x Hc Hx) as [Hx1 Hd].
    rewrite <- Hd. cbn [tcbs with_vms].
    destruct (due s1 c) eqn:Hdc.
    - by apply H4.
    - destruct (H3 c) as [D HL2]; [by intros [_ ?]; congruence|].
      split; [by apply HL2|]. rewrite Hx1 in D.
      destruct (tcbs s2 !! c) as [x'|]; [|done].
      exists x'. split; [done|]. simpl in D. congruence. }
  destruct (existsb (due s1) (L Q_WAITING)); cbn [Z.eqb negb].
  - rewrite (preempt_running_spec s2 L2 Hinv2).
    eexists _, L2. split; [reflexivity|].
    assert (inv (with_vms (preempted (tcbs s2) (L2 Q_READY) (vms s2)) s2) L2)
      as Hinv3 by (apply inv_with_vms; [done|apply preempted_is_Some]).
    split; [done|]. split; [cbn [tick_ with_vms]; congruence|].
    split; [cbn [mutexes with_vms]; congruence|]. by apply Hpost.
  - exists s2, L2. split; [done|]. split; [done|].
    split; [congruence|]. split; [congruence|].
    intros c x Hc Hx. specialize (Hpost (vms s2)).
    assert (with_vms (vms s2) s2 = s2) as E by by destruct s2.
    rewrite E in Hpost. by apply Hpost.
Qed.

(** *** The task that ends *)

(** [mrbc_tick] when the ready and the suspended queue are empty and every
    TCB of the waiting queue sleeps until the next tick: all of them are
    [READY] on the ready queue, and the waiting queue is empty. *)
Lemma mrbc_tick_wakes_all s L :
  inv s L → L Q_READY = [] → L Q_SUSPENDED = [] → L Q_WAITING ≠ [] →
  (∀ c, c ∈ L Q_WAITING → due_next s c = true) →
  ∃ s' L',
    mrbc_tick NDEBUG s = Ok (tt, s') ∧ inv s' L'
    ∧ L' Q_WAITING = [] ∧ L' Q_SUSPENDED = []
    ∧ (∀ c, c ∈ L' Q_DOMANT ↔ c ∈ L Q_DOMANT)
    ∧ ∀ c, c ∈ L Q_WAITING →
        c ∈ L' Q_READY ∧ state <$> tcbs s' !! c = Some TASKSTATE_READY.
Proof.
  intros Hinv Hr Hu Hw Hdue.
  set (s0 := with_tick (to_uint32 (tick_ s + 1)) s).
  assert (inv s0 L) as Hinv0 by by apply inv_with_tick.
  assert (Hinv0' := Hinv0). destruct Hinv0' as ([Hq Hd] & Hag & _).
  assert (q_head Q_READY s0 = None) as Hhd.
  { pose proof (Hq Q_READY) as Hqr. by rewrite Hr in Hqr. }
  destruct (mrbc_tick_loop_spec (L Q_WAITING) (fuel_of s0) s0 L [] 0 Hinv0)
    as (s2 & L2 & Hrun & Hinv2 & Hv2 & Hm2 & Hk2 & H3 & H4); [done| |].
  { pose proof (is_queue_length _ _ _ (Hq Q_WAITING)). unfold fuel_of. lia. }
  assert (existsb (due s0) (L Q_WAITING) = true) as Hex.
  { destruct (L Q_WAITING) as [|c w]; [done|]. simpl.
    assert (due s0 c = true) as -> by (apply Hdue; set_solver). done. }
  rewrite Hex in Hrun.
  assert (Hinv2' := Hinv2). destruct Hinv2' as ([Hq2 Hd2] & _).
  assert (∀ c, c ∈ L Q_WAITING →
            c ∈ L2 Q_READY ∧ state <$> tcbs s2 !! c = Some TASKSTATE_READY)
    as Hwoken.
  { intros c Hc. destruct (Hag Q_WAITING c Hc) as (x & Hx & _).
    destruct (H4 c x Hc (Hdue c Hc) Hx) as (Hin & x' & Hx' & E).
    split; [done|]. rewrite Hx'. simpl. apply set_next_None_fields in E.
    by destruct E as (_ & _ & _ & -> & _). }
  assert (∀ c q, c ∉ L Q_WAITING → c ∈ L2 q ↔ c ∈ L q) as Hrest.
  { intros c q Hc. apply (H3 c). by intros [? _]. }
  assert (∀ q, q ≠ Q_READY → ∀ c, c ∈ L2 q ↔ c ∈ L q ∧ c ∉ L Q_WAITING)
    as Hkept.
  { intros q Hne c. destruct (decide (c ∈ L Q_WAITING)) as [Hc|Hc].
    - split; [|naive_solver]. intros Hc2.
      destruct (Hwoken c Hc) as [Hcr _]. by pose proof (Hd2 _ _ _ Hc2 Hcr).
    - rewrite (Hrest c q Hc). naive_solver. }
  exists (with_vms (preempted (tcbs s2) (L2 Q_READY) (vms s2)) s2), L2.
  split.
  { unfold mrbc_tick. erewrite bind_ok by apply modify_ok. fold s0.
    erewrite bind_ok by apply get_q_ok. rewrite Hhd. mrun.
    rewrite (is_queue_head _ _ _ (Hq Q_WAITING)).
    erewrite bind_ok by exact Hrun. cbn [Z.eqb negb].
    by rewrite (preempt_running_spec s2 L2 Hinv2). }
  split; [apply inv_with_vms; [done|apply preempted_is_Some]|].
  split.
  { apply elem_of_nil_inv. intros c Hc.
    apply (Hkept Q_WAITING) in Hc; [|done]. naive_solver. }
  split.
  { apply elem_of_nil_inv. intros c Hc.
    apply (Hkept Q_SUSPENDED) in Hc; [|done]. rewrite Hu in Hc.
    destruct Hc as [Hc _]. by apply elem_of_nil in Hc. }
  split.
  { intros c. rewrite (Hkept Q_DOMANT) by done. split; [naive_solver|].
    intros Hc. split; [done|]. intros Hcw. by pose proof (Hd _ _ _ Hc Hcw). }
  intros c Hc. cbn [tcbs with_vms]. by apply Hwoken.
Qed.

Section Dispatcher.

Variable mrbc_vm_run : ptr → M Z.
Variable hal_idle_cpu : M unit.
Variable irq_ticks : nat → nat.

(** C6.  One turn of the dispatcher loop in which the VM of the selected task
    returns a negative result.  The task leaves the ready queue, is [DOMANT]
    and on the dormant queue, its VM is closed and its handle cleared: [s3]
    is the memory then.  The test that ends the loop loads the three queue
    heads one after another, with interrupts enabled.  When no tick falls
    between the loads, the turn ends the loop, and [mrbc_run] returns 0,
    exactly when the ready, the waiting and the suspended queue of [s3] are
    all empty, and otherwise the loop goes on.  When a tick falls after the
    load of [q_ready_], this fails: if the task that ended was alone on the
    ready queue, the suspended queue is empty and the tasks [w] of the
    waiting queue sleep until that tick, each on a VM of its own, then the
    tick makes them [READY] on the ready queue, the heads of the waiting and
    of the suspended queue read [NULL] after it, and [mrbc_run] returns 0
    while the tasks of [w] are ready to run. *)
Theorem mrbc_run_task_terminates n s a t v res s2 r2 d2 :
  q_ready_ s = Some a → tcbs s !! a = Some t → vm t = Some v →
  is_Some (vms s !! v) →
  mrbc_vm_run (Some v) (dispatched s a t v) = Ok (res, s2) → res < 0 →
  invariant s2 = true →
  queue_of Q_READY s2 = Some r2 → a ∈ r2 →
  queue_of Q_DOMANT s2 = Some d2 →
  ∃ s3 t3 v2 d21 d22,
    queue_of Q_READY s3 = Some (filter (λ c, c ≠ a) r2)
    ∧ tcbs s3 !! a = Some t3
    ∧ state t3 = TASKSTATE_DOMANT ∧ vm t3 = None
    ∧ d2 = d21 ++ d22
    ∧ queue_of Q_DOMANT s3 = Some (d21 ++ a :: d22)
    ∧ vm <$> tcbs s2 !! a = Some (Some v2)
    ∧ vms s3 = delete v2 (vms s2)
    ∧ queue_of Q_WAITING s3 = queue_of Q_WAITING s2
    ∧ queue_of Q_SUSPENDED s3 = queue_of Q_SUSPENDED s2
    ∧ (irq_ticks 0%nat = 0%nat → irq_ticks 1%nat = 0%nat →
       ∃ exit,
         mrbc_run_body NDEBUG mrbc_vm_run hal_idle_cpu irq_ticks s
         = Ok (exit, s3)
         ∧ (exit = Break ↔
            queue_of Q_READY s3 = Some [] ∧ queue_of Q_WAITING s3 = Some []
            ∧ queue_of Q_SUSPENDED s3 = Some [])
         ∧ mrbc_run NDEBUG mrbc_vm_run hal_idle_cpu irq_ticks (S n) s
           = match exit with
             | Break => Ok (0, s3)
             | Continue =>
                 mrbc_run NDEBUG mrbc_vm_run hal_idle_cpu irq_ticks n s3
             end)
    ∧ (irq_ticks 0%nat = 1%nat → irq_ticks 1%nat = 0%nat →
       r2 = [a] → queue_of Q_SUSPENDED s2 = Some [] →
       ∀ w, queue_of Q_WAITING s2 = Some w → w ≠ [] →
         forallb (λ c, due_next s2 c && negb (runs_vm s2 (Some v2) c)) w
         = true →
         ∃ s4 r4,
           mrbc_run_body NDEBUG mrbc_vm_run hal_idle_cpu irq_ticks s
           = Ok (Break, s4)
           ∧ mrbc_run NDEBUG mrbc_vm_run hal_idle_cpu irq_ticks (S n) s
             = Ok (0, s4)
           ∧ invariant s4 = true
           ∧ queue_of Q_READY s4 = Some r4
           ∧ queue_of Q_WAITING s4 = Some []
           ∧ queue_of Q_SUSPENDED s4 = Some []
           ∧ ∀ c, c ∈ w →
               c ∈ r4 ∧ state <$> tcbs s4 !! c = Some TASKSTATE_READY).
Proof.
  intros Hhd Ha Hv Hvs Hvm Hres Hinv%invariant_inv Hr2%queue_of_queues Hin
    Hd2%queue_of_queues.
  rewrite <- Hr2 in Hin.
  assert (Hinv' := Hinv). destruct Hinv' as (Hrep2 & Hag2 & Hvm2).
  destruct (Hvm2 Q_READY a) as (t2 & v2 & Ht2 & Hv2 & Hvs2); [done|done|].
  destruct (requeue_spec (set_state TASKSTATE_DOMANT) s2 (queues s2) a t2
              Q_READY Q_DOMANT Hinv Ht2 Hin)
    as (sa & ta & sb & tb & Hrun1 & Hta & Hda & Hva & Hma & Hka & Hrun2
        & Hinvb & Hvb & Hmb & Hkb & Htb & Hdb & Hoth); try done.
  apply set_next_None_fields in Hdb. simpl in Hdb.
  destruct Hdb as (_ & Epp & _ & Est & _ & _ & _ & Evm).
  set (s3 := with_tcbs (<[a := set_vm None tb]> (tcbs sb))
               (with_vms (delete v2 (vms sb)) sb)).
  assert (rep s3 (moved (prio sb) a Q_DOMANT (queues s2))) as Hrep3.
  { unfold s3.
    apply (rep_store (with_vms (delete v2 (vms sb)) sb) _ a tb); [|done|done].
    destruct Hinvb as ([Hq Hd] & _). split; [|done]. intros q.
    rewrite q_head_with_vms. apply Hq. }
  set (test :=
         (r <- get_q Q_READY;;
          if negb (bool_decide (r = None)) then ret Continue
          else
            mrbc_ticks NDEBUG (irq_ticks 0%nat);;
            w <- get_q Q_WAITING;;
            if negb (bool_decide (w = None)) then ret Continue
            else
              mrbc_ticks NDEBUG (irq_ticks 1%nat);;
              u <- get_q Q_SUSPENDED;;
              if negb (bool_decide (u = None)) then ret Continue
              else ret Break) : M loop_exit).
  assert (mrbc_run_body NDEBUG mrbc_vm_run hal_idle_cpu irq_ticks s
          = test s3) as Hbody.
  { unfold mrbc_run_body, hal_disable_irq, hal_enable_irq.
    erewrite bind_ok by apply get_q_ok. cbn [q_head]. rewrite Hhd. mrun.
    rewrite Hv. erewrite bind_ok by (by apply set_flag_preemption_ok').
    mrun. rewrite Hv. fold (dispatched s a t v).
    erewrite bind_ok by exact Hvm.
    rewrite (proj2 (Z.ltb_lt _ _) Hres). mrun.
    erewrite bind_ok by exact Hrun1. mrun.
    erewrite bind_ok by exact Hrun2. mrun.
    rewrite Evm, Hv2.
    erewrite bind_ok by (apply mrbc_vm_end_ok; by rewrite Hvb). mrun.
    rewrite Evm, Hv2.
    erewrite bind_ok by (apply mrbc_vm_close_ok; by rewrite Hvb).
    erewrite bind_ok by (apply store_ok; exact Htb).
    done. }
  destruct (insert_by_priority_split (prio sb) a
              (filter (λ c, c ≠ a) (queues s2 Q_DOMANT)))
    as (d21 & d22 & Hd12 & Hins & _).
  rewrite filter_ne_notin in Hd12.
  2:{ intros Had. destruct Hrep2 as [_ Hd].
      by pose proof (Hd _ _ _ Had Hin). }
  assert (∀ q, queue_of q s3 = Some (moved (prio sb) a Q_DOMANT (queues s2) q))
    as Hq3 by (intros q; by apply rep_queue_of).
  assert (∀ q, q ≠ Q_DOMANT → q ≠ Q_READY → queue_of q s3 = queue_of q s2)
    as Hsame.
  { intros q H1 H2. rewrite Hq3. unfold moved. rewrite decide_False by done.
    cbv zeta. rewrite filter_ne_notin.
    - symmetry. apply queue_of_is_queue, Hrep2.
    - intros Hq. destruct Hrep2 as [_ Hd]. by pose proof (Hd _ _ _ Hq Hin). }
  assert (queue_of Q_READY s3 = Some (filter (λ c, c ≠ a) r2)) as Hr3.
  { rewrite Hq3. unfold moved. rewrite decide_False by done. by rewrite Hr2. }
  exists s3, (set_vm None tb), v2, d21, d22.
  split; [done|].
  split; [unfold s3; cbn [tcbs with_tcbs]; by rewrite lookup_insert_eq|].
  split; [done|]. split; [done|]. split; [by rewrite <- Hd2|]. split.
  { rewrite Hq3. unfold moved. rewrite decide_True by done. cbv zeta.
    by rewrite Hins. }
  split; [by rewrite Ht2; simpl; rewrite Hv2|].
  split; [unfold s3; cbn [vms with_tcbs with_vms]; by rewrite Hvb|].
  split; [by apply Hsame|]. split; [by apply Hsame|]. split.
  - intros H0 H1.
    exists (if bool_decide (q_ready_ s3 = None)
               && bool_decide (q_waiting_ s3 = None)
               && bool_decide (q_suspended_ s3 = None)
            then Break else Continue).
    assert (mrbc_run_body NDEBUG mrbc_vm_run hal_idle_cpu irq_ticks s
            = Ok (if bool_decide (q_ready_ s3 = None)
                     && bool_decide (q_waiting_ s3 = None)
                     && bool_decide (q_suspended_ s3 = None)
                  then Break else Continue, s3)) as Hexit.
    { rewrite Hbody. unfold test. rewrite H0, H1.
      erewrite bind_ok by apply get_q_ok. cbn [q_head mrbc_ticks].
      destruct (bool_decide (q_ready_ s3 = None)); [|reflexivity].
      cbn [negb andb]. mrun. cbn [q_head].
      destruct (bool_decide (q_waiting_ s3 = None)); [|reflexivity].
      cbn [negb andb]. mrun. cbn [q_head].
      destruct (bool_decide (q_suspended_ s3 = None)); reflexivity. }
    split; [done|]. split.
    + rewrite !(queue_of_nil s3 _ _ Hrep3). cbn [q_head].
      destruct (bool_decide (q_ready_ s3 = None)) eqn:E1;
        [apply bool_decide_eq_true in E1|apply bool_decide_eq_false in E1];
      destruct (bool_decide (q_waiting_ s3 = None)) eqn:E2;
        [apply bool_decide_eq_true in E2|apply bool_decide_eq_false in E2
        |apply bool_decide_eq_true in E2|apply bool_decide_eq_false in E2];
      destruct (bool_decide (q_suspended_ s3 = None)) eqn:E3;
        try apply bool_decide_eq_true in E3;
        try apply bool_decide_eq_false in E3; simpl; naive_solver.
    + simpl mrbc_run. erewrite bind_ok by exact Hexit.
      by destruct (_ && _).
  - intros H0 H1 -> Hu%queue_of_queues w Hw%queue_of_queues Hne Hall.
    set (L3 := moved (prio sb) a Q_DOMANT (queues s2)) in *.
    assert (L3 Q_READY = []) as HL3r.
    { unfold L3, moved. rewrite decide_False by done. cbv zeta.
      rewrite Hr2. by rewrite filter_cons_False by naive_solver. }
    assert (∀ q, q ≠ Q_DOMANT → q ≠ Q_READY → L3 q = queues s2 q) as HL3.
    { intros q Hq1 Hq2. unfold L3, moved. rewrite decide_False by done.
      cbv zeta. apply filter_ne_notin. intros Hq. destruct Hrep2 as [_ Hd].
      by pose proof (Hd _ _ _ Hq Hin). }
    assert (L3 Q_WAITING = w) as HL3w by (by rewrite HL3).
    assert (L3 Q_SUSPENDED = []) as HL3u by (by rewrite HL3).
    assert (∀ c, c ∈ w → c ≠ a) as Hwa.
    { intros c Hc ->. rewrite <- Hw in Hc. destruct Hrep2 as [_ Hd].
      by pose proof (Hd _ _ _ Hc Hin). }
    rewrite forallb_forall in Hall.
    assert (∀ c, c ∈ w →
              due_next s2 c = true ∧ runs_vm s2 (Some v2) c = false)
      as Hall'.
    { intros c Hc. apply list_elem_of_In, Hall in Hc.
      apply andb_true_iff in Hc as [? ?%negb_true_iff]. done. }
    assert (inv s3 L3) as Hinv3.
    { destruct Hinvb as (_ & Hagb & Hvmb). split; [done|]. split.
      - intros q c Hc. destruct (Hagb q c Hc) as (x & Hx & Hxs).
        unfold s3. cbn [tcbs with_tcbs with_vms].
        destruct (decide (a = c)) as [<-|].
        + rewrite lookup_insert_eq. exists (set_vm None tb).
          split; [done|]. rewrite Htb in Hx. by injection Hx as <-.
        + rewrite lookup_insert_ne by done. eauto.
      - intros q c Hq Hc. assert (c ∈ w ∧ q = Q_WAITING) as [Hcw ->].
        { destruct q; [done| |by rewrite <- HL3w|].
          - rewrite HL3r in Hc. by apply elem_of_nil in Hc.
          - rewrite HL3u in Hc. by apply elem_of_nil in Hc. }
        destruct (Hvmb Q_WAITING c Hq Hc) as (x & vx & Hx & Hvx & Hvsx).
        unfold s3. cbn [tcbs vms with_tcbs with_vms].
        rewrite lookup_insert_ne by (intros ->; by apply (Hwa c)).
        exists x, vx. split; [done|]. split; [done|].
        rewrite lookup_delete_ne; [done|]. intros <-.
        destruct (Hall' c Hcw) as [_ Hno]. unfold runs_vm in Hno.
        specialize (Hoth c (Hwa c Hcw)). rewrite Hx in Hoth.
        destruct (tcbs s2 !! c) as [x2|]; [|done]. simpl in Hoth.
        assert (set_next None x = set_next None x2) as E by congruence.
        apply set_next_None_fields in E.
        destruct E as (_ & _ & _ & _ & _ & _ & _ & E).
        apply bool_decide_eq_false in Hno. congruence. }
    assert (tick_ s3 = tick_ s2) as Hk3 by done.
    destruct (mrbc_tick_wakes_all s3 L3 Hinv3 HL3r HL3u)
      as (s4 & L4 & Htick & Hinv4 & HL4w & HL4u & _ & Hwoken).
    { by rewrite HL3w. }
    { intros c Hc. rewrite HL3w in Hc. destruct (Hall' c Hc) as [Hdue _].
      unfold due_next in *. rewrite <- Hdue, Hk3. apply due_ext; [|done].
      cbn [tcbs with_tick]. unfold s3. cbn [tcbs with_tcbs with_vms].
      rewrite lookup_insert_ne by (intros ->; by apply (Hwa c)).
      by apply Hoth, Hwa. }
    assert (Hrep4 := proj1 Hinv4).
    assert (mrbc_run_body NDEBUG mrbc_vm_run hal_idle_cpu irq_ticks s
            = Ok (Break, s4)) as Hexit.
    { rewrite Hbody. unfold test. rewrite H0, H1.
      erewrite bind_ok by apply get_q_ok.
      rewrite (proj1 (queue_of_nil s3 L3 Q_READY Hrep3))
        by (by rewrite (rep_queue_of s3 L3), HL3r).
      rewrite bool_decide_eq_true_2 by done. cbn [negb mrbc_ticks].
      rewrite !bind_bind. erewrite bind_ok by exact Htick. mrun.
      rewrite (proj1 (queue_of_nil s4 L4 Q_WAITING Hrep4))
        by (by rewrite (rep_queue_of s4 L4), HL4w).
      rewrite bool_decide_eq_true_2 by done. cbn [negb]. mrun.
      rewrite (proj1 (queue_of_nil s4 L4 Q_SUSPENDED Hrep4))
        by (by rewrite (rep_queue_of s4 L4), HL4u).
      by rewrite bool_decide_eq_true_2 by done. }
    exists s4, (L4 Q_READY). split; [done|]. split.
    { simpl mrbc_run. by erewrite bind_ok by exact Hexit. }
    split; [by eapply inv_invariant|].
    split; [by apply rep_queue_of|].
    split; [by rewrite (rep_queue_of s4 L4), HL4w|].
    split; [by rewrite (rep_queue_of s4 L4), HL4u|].
    intros c Hc. apply Hwoken. by rewrite HL3w.
Qed.

End Dispatcher.

End QueueFunctions.

(** ** The guest bindings *)

(** C7, as the code has it.  When no TCB of the ready queue belongs to the
    calling VM, the bindings [sleep], [sleep_ms], [relinquish],
    [change_priority], [suspend_task] and [resume_task] return with the
    memory untouched; [c_mutex_lock] and [c_mutex_unlock] assert that the TCB
    was found, and the assertion fails. *)
Theorem bindings_without_task NDEBUG float_ms s r vmp v :
  queue_of Q_READY s = Some r → find (runs_vm s vmp) r = None →
  c_sleep NDEBUG float_ms vmp v s = Ok (tt, s)
  ∧ c_sleep_ms NDEBUG vmp v s = Ok (tt, s)
  ∧ c_relinquish vmp v s = Ok (tt, s)
  ∧ c_change_priority vmp v s = Ok (tt, s)
  ∧ c_suspend_task NDEBUG vmp v s = Ok (tt, s)
  ∧ c_resume_task NDEBUG vmp v s = Ok (tt, s)
  ∧ c_mutex_lock false vmp v s = Err AssertionFailed
  ∧ c_mutex_unlock false vmp v s = Err AssertionFailed.
Proof.
  intros Hr Hnone.
  pose proof (find_requested_task_spec s vmp r Hr) as Hfind.
  rewrite Hnone in Hfind.
  unfold c_sleep, c_sleep_ms, c_relinquish, c_change_priority, c_suspend_task,
    c_resume_task, c_mutex_lock, c_mutex_unlock.
  rewrite !(bind_ok _ _ _ _ _ Hfind). by repeat split.
Qed.

Lemma to_uint32_to_int32 z : to_uint32 (to_int32 z) = to_uint32 z.
Proof.
  unfold to_uint32, to_int32. rewrite Zminus_mod_idemp_l. f_equal. lia.
Qed.

Lemma to_int32_small z : - 2 ^ 31 <= z < 2 ^ 31 → to_int32 z = z.
Proof. intros H. unfold to_int32. rewrite Z.mod_small; lia. Qed.

(** C10. The binding [sleep] with the integer argument [n] is the binding
    [sleep_ms] with the argument [n * 1000] (as the [int] product the C
    expression computes): both run [mrbc_sleep_ms] with the same
    milliseconds, whatever the memory; the caller's [wakeup_tick] becomes
    the tick counter plus [n * 1000], in [uint32_t]. *)
Theorem c_sleep_as_c_sleep_ms NDEBUG float_ms vmp v0 n ty s :
  c_sleep NDEBUG float_ms vmp [v0; mkValue MRB_TT_FIXNUM n] s
  = c_sleep_ms NDEBUG vmp [v0; mkValue ty (to_int32 (n * 1000))] s
  ∧ (- 2 ^ 31 <= n * 1000 < 2 ^ 31 → to_int32 (n * 1000) = n * 1000)
  ∧ ∀ r a,
      invariant s = true → queue_of Q_READY s = Some r →
      find (runs_vm s vmp) r = Some a →
      ∃ s' t',
        c_sleep NDEBUG float_ms vmp [v0; mkValue MRB_TT_FIXNUM n] s
        = Ok (tt, s')
        ∧ tcbs s' !! a = Some t'
        ∧ state t' = TASKSTATE_WAITING ∧ reason t' = TASKREASON_SLEEP
        ∧ wakeup_tick t' = to_uint32 (tick_ s + n * 1000).
Proof.
  split; [|split; [apply to_int32_small|]].
  - unfold c_sleep, c_sleep_ms, bind.
    by destruct (find_requested_task vmp s) as [[[a|] s']|].
  - intros r a Hinv Hr Hfind.
    pose proof (find_requested_task_spec s vmp r Hr) as Hrun.
    rewrite Hfind in Hrun.
    destruct (find_split _ _ _ Hfind) as (l1 & l2 & -> & _ & Ha).
    unfold runs_vm in Ha. destruct (tcbs s !! a) as [t|] eqn:Ht; [|done].
    apply invariant_inv in Hinv.
    destruct (mrbc_sleep_ms_spec NDEBUG s (queues s) a t
                (to_uint32 (to_int32 (n * 1000))) Hinv)
      as (s' & t' & v & Hsl & _ & Ht' & E & _); [|done|].
    { rewrite (queue_of_queues _ _ _ Hr). set_solver. }
    exists s', t'. unfold c_sleep. rewrite (bind_ok _ _ _ _ _ Hrun).
    simpl. split; [done|]. split; [done|].
    apply set_next_None_fields in E. simpl in E.
    destruct E as (_ & _ & _ & -> & -> & -> & _). do 2 (split; [done|]).
    rewrite to_uint32_to_int32. unfold to_uint32.
    by rewrite Zplus_mod_idemp_r.
Qed.

Lemma to_uint32_succ_ne z : to_uint32 z ≠ to_uint32 (z + 1).
Proof.
  unfold to_uint32. intros E.
  assert ((z + 1 - z) mod 2 ^ 32 = 0) as H.
  { rewrite Zminus_mod, <- E, Z.sub_diag. done. }
  replace (z + 1 - z) with 1 in H by lia. done.
Qed.

(** C4.  A task that calls [sleep_ms] with 0 gets the current tick as its
    [wakeup_tick].  [mrbc_tick] advances the counter before it compares, so
    at the next tick the two differ: the task is not woken, it is still
    [WAITING] on the waiting queue. *)
Theorem sleep_zero_misses_next_tick NDEBUG s r vmp a v0 ty :
  invariant s = true → queue_of Q_READY s = Some r →
  find (runs_vm s vmp) r = Some a →
  ∃ s1 s2 t2 w,
    c_sleep_ms NDEBUG vmp [v0; mkValue ty 0] s = Ok (tt, s1)
    ∧ mrbc_tick NDEBUG s1 = Ok (tt, s2)
    ∧ tick_ s2 = to_uint32 (tick_ s + 1)
    ∧ tcbs s2 !! a = Some t2
    ∧ state t2 = TASKSTATE_WAITING ∧ reason t2 = TASKREASON_SLEEP
    ∧ wakeup_tick t2 = to_uint32 (tick_ s)
    ∧ wakeup_tick t2 ≠ tick_ s2
    ∧ queue_of Q_WAITING s2 = Some w ∧ a ∈ w.
Proof.
  intros Hinv%invariant_inv Hr Hfind.
  pose proof (find_requested_task_spec s vmp r Hr) as Hrun.
  rewrite Hfind in Hrun.
  destruct (find_split _ _ _ Hfind) as (l1 & l2 & -> & _ & Ha).
  unfold runs_vm in Ha. destruct (tcbs s !! a) as [t|] eqn:Ht; [|done].
  destruct (mrbc_sleep_ms_spec NDEBUG s (queues s) a t 0 Hinv)
    as (s1 & t1 & v & Hsl & Hinv1 & Ht1 & E1 & _ & _ & _ & _ & Hk1);
    [|done|].
  { rewrite (queue_of_queues _ _ _ Hr). set_solver. }
  destruct (mrbc_tick_spec NDEBUG s1 _ Hinv1)
    as (s2 & L2 & Htick & Hinv2 & Hk2 & _ & Hwait).
  specialize (Hwait a t1). apply set_next_None_fields in E1. simpl in E1.
  destruct E1 as (_ & _ & _ & Est & Ers & Ewk & _).
  rewrite Z.add_0_r in Ewk. rewrite Hk1 in Hk2, Hwait.
  assert ((wakeup_tick t1 =? to_uint32 (tick_ s + 1)) = false) as Hne.
  { apply Z.eqb_neq. rewrite Ewk. apply to_uint32_succ_ne. }
  rewrite Hne, andb_false_r in Hwait.
  destruct Hwait as (Hin & t2 & Ht2 & E2);
    [apply elem_of_moved; by left|done|].
  apply set_next_None_fields in E2.
  destruct E2 as (_ & _ & _ & Est2 & Ers2 & Ewk2 & _).
  exists s1, s2, t2, (L2 Q_WAITING). unfold c_sleep_ms.
  rewrite (bind_ok _ _ _ _ _ Hrun). simpl.
  split; [done|]. split; [done|]. split; [done|]. split; [done|].
  split; [congruence|]. split; [congruence|]. split; [congruence|].
  split; [rewrite Hk2, Ewk2, Ewk; apply to_uint32_succ_ne|].
  split; [|done]. apply rep_queue_of, Hinv2.
Qed.

(** ** The properties on the sample memory *)

(** Closed decidable facts are settled by computation. *)
Ltac decide_by_compute :=
  refine (bool_decide_unpack _ _); vm_compute; exact I.

Example sample_invariant : invariant sample = true.
Proof. reflexivity. Qed.

Example sample_queues :
  queue_of Q_DOMANT sample = Some [4%nat]
  ∧ queue_of Q_READY sample = Some [1%nat; 2%nat]
  ∧ queue_of Q_WAITING sample = Some [3%nat]
  ∧ queue_of Q_SUSPENDED sample = Some [].
Proof. by vm_compute. Qed.

Lemma q_insert_task_position_witness :
  ∃ s' l1 l2,
    q_insert_task false (Some 6%nat) sample = Ok (tt, s')
    ∧ [1%nat; 2%nat] = l1 ++ l2
    ∧ queue_of Q_READY s' = Some (l1 ++ 6%nat :: l2)
    ∧ Forall (λ b, prio sample b <= prio sample 6%nat) l1
    ∧ match l2 with
      | [] => True
      | b :: _ => prio sample 6%nat < prio sample b
      end
    ∧ (sorted_queue sample [1%nat; 2%nat] = true
       → sorted_queue s' (l1 ++ 6%nat :: l2) = true).
Proof.
  eapply (q_insert_task_position false sample 6%nat _ Q_READY).
  - reflexivity.
  - reflexivity.
  - reflexivity.
  - decide_by_compute.
Defined.

Lemma q_delete_task_removes_witness :
  queues_wf sample = true
  ∧ ∃ s',
      q_delete_task false (Some 2%nat) sample = Ok (tt, s')
      ∧ (2%nat ∈ [1%nat; 2%nat] →
         ∃ l1 l2,
           [1%nat; 2%nat] = l1 ++ 2%nat :: l2 ∧ (2%nat ∉ l1 ++ l2)
           ∧ queue_of Q_READY s' = Some (l1 ++ l2)
           ∧ tcbs s' !! 2%nat
             = Some (set_next None
                       (sample_tcb None 128 10 TASKSTATE_READY
                          TASKREASON_SLEEP None (Some 2%nat)))
           ∧ (∀ q', q' ≠ Q_READY → queue_of q' s' = queue_of q' sample)
           ∧ (∀ c, set_next None <$> tcbs s' !! c
                   = set_next None <$> tcbs sample !! c))
      ∧ (2%nat ∉ [1%nat; 2%nat] → s' = sample).
Proof.
  split; [reflexivity|].
  apply (q_delete_task_removes false sample 2%nat _ Q_READY);
    reflexivity.
Defined.

Lemma mrbc_mutex_unlock_hands_over_witness :
  invariant sample = true
  ∧ ∃ s' tb r1 r2,
      mrbc_mutex_unlock false (Some 0%nat) (Some 1%nat) sample = Ok (0, s')
      ∧ mutexes s' !! 0%nat = Some (mkMutex 1 (Some 3%nat))
      ∧ queue_of Q_WAITING s' = Some (filter (λ c, c ≠ 3%nat) [3%nat])
      ∧ tcbs s' !! 3%nat = Some tb ∧ state tb = TASKSTATE_READY
      ∧ [1%nat; 2%nat] = r1 ++ r2
      ∧ queue_of Q_READY s' = Some (r1 ++ 3%nat :: r2)
      ∧ (∀ c tc, c ∈ r1 ++ 3%nat :: r2 → tcbs s' !! c = Some tc →
           state tc = TASKSTATE_RUNNING →
           ∃ v, vm tc = Some v ∧ vms s' !! v = Some (mkVm 1))
      ∧ invariant s' = true.
Proof.
  split; [reflexivity|].
  apply (mrbc_mutex_unlock_hands_over false sample 0%nat
           (mkMutex 1 (Some 1%nat)) [3%nat] [1%nat; 2%nat]);
    reflexivity.
Defined.

Lemma timeslice_on_leaving_ready_witness :
  invariant sample = true
  ∧ (∃ s' t', mrbc_sleep_ms false (Some 1%nat) 50 sample = Ok (tt, s')
              ∧ tcbs s' !! 1%nat = Some t'
              ∧ state t' = TASKSTATE_WAITING
              ∧ reason t' = TASKREASON_SLEEP
              ∧ timeslice t' = 0)
  ∧ (∃ s' t', mrbc_suspend_task false (Some 1%nat) sample = Ok (tt, s')
              ∧ tcbs s' !! 1%nat = Some t'
              ∧ state t' = TASKSTATE_SUSPENDED
              ∧ timeslice t' = 7).
Proof.
  split; [reflexivity|].
  destruct (timeslice_on_leaving_ready false sample [1%nat; 2%nat] 1%nat
              (sample_tcb (Some 2%nat) 128 7 TASKSTATE_RUNNING
                 TASKREASON_SLEEP None (Some 1%nat)) 50)
    as (Hsleep & Hsuspend & _);
    [reflexivity|reflexivity|decide_by_compute|reflexivity|].
  split; [exact Hsleep|exact Hsuspend].
Defined.

Lemma suspend_resume_round_trip_witness :
  invariant sample = true
  ∧ ∃ s1 s2 t2 l1 l2,
      mrbc_suspend_task false (Some 1%nat) sample = Ok (tt, s1)
      ∧ mrbc_resume_task false (Some 1%nat) s1 = Ok (tt, s2)
      ∧ tcbs s2 !! 1%nat = Some t2
      ∧ state t2 = TASKSTATE_READY
      ∧ priority t2 = 128
      ∧ priority_preemption t2 = 128
      ∧ timeslice t2 = 7
      ∧ filter (λ c, c ≠ 1%nat) [1%nat; 2%nat] = l1 ++ l2
      ∧ queue_of Q_READY s2 = Some (l1 ++ 1%nat :: l2)
      ∧ Forall (λ b, prio sample b <= prio sample 1%nat) l1
      ∧ match l2 with
        | [] => True
        | b :: _ => prio sample 1%nat < prio sample b
        end
      ∧ invariant s2 = true.
Proof.
  split; [reflexivity|].
  apply (suspend_resume_round_trip false sample [1%nat; 2%nat] 1%nat
           (sample_tcb (Some 2%nat) 128 7 TASKSTATE_RUNNING
              TASKREASON_SLEEP None (Some 1%nat)));
    [reflexivity|reflexivity|decide_by_compute|reflexivity].
Defined.

Lemma mrbc_create_task_dormant_witness :
  queues_wf sample = true ∧ detached sample 5%nat = true
  ∧ ∃ s' t' d1 d2,
      mrbc_create_task false sample_raw_alloc sample_initializer
        sample_vm_open sample_load_mrb sample_vm_begin [] (Some 5%nat) sample
      = Ok (Some 5%nat, s')
      ∧ tcbs s' !! 5%nat = Some t'
      ∧ state t' = TASKSTATE_DOMANT
      ∧ timeslice t' = TIMESLICE_TICK
      ∧ priority_preemption t' = 128
      ∧ priority t' = 128
      ∧ vm t' = None
      ∧ vms s' = vms sample
      ∧ [4%nat] = d1 ++ d2
      ∧ queue_of Q_DOMANT s' = Some (d1 ++ 5%nat :: d2)
      ∧ queue_of Q_READY s' = queue_of Q_READY sample.
Proof.
  split; [reflexivity|]. split; [reflexivity|].
  apply (mrbc_create_task_dormant false sample_raw_alloc sample_initializer
           sample_vm_open sample_load_mrb sample_vm_begin [] sample 5%nat
           (sample_tcb None 128 0 TASKSTATE_DOMANT TASKREASON_SLEEP None
              None) [4%nat]);
    reflexivity.
Defined.

Lemma mrbc_run_task_terminates_witness :
  invariant sample_last = true
  ∧ queue_of Q_READY sample_last = Some [1%nat]
  ∧ queue_of Q_WAITING sample_last = Some [2%nat]
  ∧ queue_of Q_SUSPENDED sample_last = Some []
  ∧ due_next sample_last 2%nat = true
  ∧ ∃ s4,
      mrbc_run false guest_ends sample_idle tick_after_ready 1 sample_last
      = Ok (0, s4)
      ∧ invariant s4 = true
      ∧ queue_of Q_READY s4 = Some [2%nat]
      ∧ state <$> tcbs s4 !! 2%nat = Some TASKSTATE_READY
      ∧ queue_of Q_DOMANT s4 = Some [1%nat]
      ∧ tick_ s4 = 6.
Proof.
  do 5 (split; [reflexivity|]).
  destruct (mrbc_run_task_terminates false guest_ends sample_idle
              tick_after_ready 0%nat sample_last 1%nat
              (sample_tcb None 128 10 TASKSTATE_READY TASKREASON_SLEEP None
                 (Some 1%nat))
              1%nat (-1)
              (dispatched sample_last 1%nat
                 (sample_tcb None 128 10 TASKSTATE_READY TASKREASON_SLEEP
                    None (Some 1%nat)) 1%nat)
              [1%nat] [])
    as (s3 & t3 & v2 & d21 & d22 & _ & _ & _ & _ & _ & _ & Hv2 & _ & _ & _
        & _ & Hrace);
    [reflexivity|reflexivity|reflexivity|by eexists|reflexivity|lia
    |reflexivity|reflexivity|decide_by_compute|reflexivity|].
  vm_compute in Hv2. injection Hv2 as <-.
  destruct (Hrace eq_refl eq_refl eq_refl eq_refl [2%nat])
    as (s4 & r4 & _ & Hrun & Hinv4 & _); [reflexivity|done|reflexivity|].
  exists s4. split; [exact Hrun|]. split; [exact Hinv4|].
  vm_compute in Hrun. injection Hrun as <-.
  repeat split; reflexivity.
Defined.

Lemma bindings_without_task_witness :
  find (runs_vm sample (Some 9%nat)) [1%nat; 2%nat] = None
  ∧ c_sleep false (λ _, 0) (Some 9%nat) [] sample = Ok (tt, sample)
  ∧ c_sleep_ms false (Some 9%nat) [] sample = Ok (tt, sample)
  ∧ c_relinquish (Some 9%nat) [] sample = Ok (tt, sample)
  ∧ c_change_priority (Some 9%nat) [] sample = Ok (tt, sample)
  ∧ c_suspend_task false (Some 9%nat) [] sample = Ok (tt, sample)
  ∧ c_resume_task false (Some 9%nat) [] sample = Ok (tt, sample)
  ∧ c_mutex_lock false (Some 9%nat) [] sample = Err AssertionFailed
  ∧ c_mutex_unlock false (Some 9%nat) [] sample = Err AssertionFailed.
Proof.
  split; [reflexivity|].
  apply (bindings_without_task false (λ _, 0) sample [1%nat; 2%nat]
           (Some 9%nat) []); reflexivity.
Defined.

Lemma c_sleep_as_c_sleep_ms_witness :
  invariant sample = true
  ∧ c_sleep false (λ _, 0) (Some 1%nat)
      [mkValue MRB_TT_OTHER 0; mkValue MRB_TT_FIXNUM 2] sample
    = c_sleep_ms false (Some 1%nat)
        [mkValue MRB_TT_OTHER 0; mkValue MRB_TT_FIXNUM 2000] sample
  ∧ ∃ s' t',
      c_sleep false (λ _, 0) (Some 1%nat)
        [mkValue MRB_TT_OTHER 0; mkValue MRB_TT_FIXNUM 2] sample
      = Ok (tt, s')
      ∧ tcbs s' !! 1%nat = Some t'
      ∧ state t' = TASKSTATE_WAITING ∧ reason t' = TASKREASON_SLEEP
      ∧ wakeup_tick t' = to_uint32 (5 + 2 * 1000).
Proof.
  split; [reflexivity|].
  destruct (c_sleep_as_c_sleep_ms false (λ _, 0) (Some 1%nat)
              (mkValue MRB_TT_OTHER 0) 2 MRB_TT_FIXNUM sample)
    as (Heq & _ & Hwake).
  split; [exact Heq|].
  apply (Hwake [1%nat; 2%nat] 1%nat); reflexivity.
Defined.

(** ** Where the code departs from the specification *)

(** C3 fails on the code.  From the empty memory, a task is created and
    dispatched, and its guest program calls [suspend_task]: the task is
    [SUSPENDED] with the 10 ticks of its timeslice. *)
Lemma suspended_task_keeps_timeslice :
  ∃ s1 s2 t,
    mrbc_create_task false sample_raw_alloc sample_initializer sample_vm_open
      sample_load_mrb sample_vm_begin [] None boot = Ok (Some 1%nat, s1)
    ∧ mrbc_run_body false guest_suspends sample_idle no_irq s1
      = Ok (Continue, s2)
    ∧ tcbs s2 !! 1%nat = Some t
    ∧ state t = TASKSTATE_SUSPENDED
    ∧ timeslice t = 10
    ∧ ¬ (0 < timeslice t →
         state t = TASKSTATE_READY ∨ state t = TASKSTATE_RUNNING).
Proof.
  do 3 eexists. split; [by vm_compute|]. split; [by vm_compute|].
  split; [by vm_compute|]. split; [done|]. split; [done|].
  simpl. intros H. destruct H as [H|H]; [lia|done|done].
Qed.

(** C5 fails on the code.  [mrbc_create_task] on the dormant TCB 5, which is
    on no queue, leaves it [DOMANT] and puts it on the dormant queue; the
    ready queue does not get it.  On the dormant TCB 4, which is on the
    dormant queue, the assertion of [q_insert_task] fails. *)
Lemma dormant_tcb_stays_dormant :
  (∃ s' t,
     mrbc_create_task false sample_raw_alloc sample_initializer
       sample_vm_open sample_load_mrb sample_vm_begin [] (Some 5%nat) sample
     = Ok (Some 5%nat, s')
     ∧ tcbs s' !! 5%nat = Some t
     ∧ state t = TASKSTATE_DOMANT ∧ state t ≠ TASKSTATE_READY
     ∧ queue_of Q_READY s' = Some [1%nat; 2%nat]
     ∧ queue_of Q_DOMANT s' = Some [4%nat; 5%nat])
  ∧ mrbc_create_task false sample_raw_alloc sample_initializer
      sample_vm_open sample_load_mrb sample_vm_begin [] (Some 4%nat) sample
    = Err AssertionFailed.
Proof.
  split; [|by vm_compute].
  do 2 eexists. split; [by vm_compute|]. split; [by vm_compute|].
  by vm_compute.
Qed.

(** C7 fails on the code for the two mutex bindings.  Called by a VM that
    has no TCB on the ready queue, [c_mutex_lock] and [c_mutex_unlock] stop
    at their assertion; in a build without assertions [c_mutex_lock] goes on
    and locks [mutex1] for the task [NULL]. *)
Lemma mutex_bindings_without_task :
  find (runs_vm sample (Some 9%nat)) [1%nat; 2%nat] = None
  ∧ c_mutex_lock false (Some 9%nat) [] sample ≠ Ok (tt, sample)
  ∧ c_mutex_unlock false (Some 9%nat) [] sample ≠ Ok (tt, sample)
  ∧ ∃ s',
      c_mutex_lock true (Some 9%nat) [] boot = Ok (tt, s')
      ∧ mutexes s' !! 0%nat = Some (mkMutex 1 None)
      ∧ mutexes boot !! 0%nat = Some (mkMutex 0 None).
Proof.
  split; [done|]. split; [by vm_compute|]. split; [by vm_compute|].
  eexists. split; [by vm_compute|]. by vm_compute.
Qed.

(** C8 fails on the code.  Task 1 has 7 ticks of its slice left;
    [mrbc_suspend_task] and then [mrbc_resume_task] bring it back to [READY]
    with these 7 ticks, not with [TIMESLICE_TICK]. *)
Lemma resumed_task_keeps_timeslice :
  ∃ s1 s2 t,
    mrbc_suspend_task false (Some 1%nat) sample = Ok (tt, s1)
    ∧ mrbc_resume_task false (Some 1%nat) s1 = Ok (tt, s2)
    ∧ tcbs s2 !! 1%nat = Some t
    ∧ state t = TASKSTATE_READY
    ∧ timeslice t = 7
    ∧ timeslice t ≠ TIMESLICE_TICK.
Proof.
  do 3 eexists. split; [by vm_compute|]. split; [by vm_compute|].
  split; [by vm_compute|]. by vm_compute.
Qed.

(** What the slice that is not replenished leads to.  Task 1 of the sample
    memory uses up the 7 ticks of its slice and calls [suspend_task] before
    its VM returns; it is resumed, and task 2 goes to sleep: task 1 is the
    head of the ready queue, [READY] with timeslice 0.  Dispatched again, it
    is not charged by [mrbc_tick], which tests [timeslice > 0]: after 30
    ticks it is still [RUNNING] with timeslice 0 and the preemption flag of
    its VM is clear. *)
Example resumed_task_is_not_preempted :
  ∃ s1 s2 s3 s4 t4 s5 t5,
    mrbc_ticks false 7 sample = Ok (tt, s1)
    ∧ mrbc_suspend_task false (Some 1%nat) s1 = Ok (tt, s2)
    ∧ mrbc_resume_task false (Some 1%nat) s2 = Ok (tt, s3)
    ∧ mrbc_sleep_ms false (Some 2%nat) 1000 s3 = Ok (tt, s4)
    ∧ invariant s4 = true
    ∧ queue_of Q_READY s4 = Some [1%nat]
    ∧ tcbs s4 !! 1%nat = Some t4
    ∧ state t4 = TASKSTATE_READY ∧ timeslice t4 = 0
    ∧ mrbc_ticks false 30 (dispatched s4 1%nat t4 1%nat) = Ok (tt, s5)
    ∧ tcbs s5 !! 1%nat = Some t5
    ∧ state t5 = TASKSTATE_RUNNING ∧ timeslice t5 = 0
    ∧ vms s5 !! 1%nat = Some (mkVm 0).
Proof.
  do 7 eexists. split; [by vm_compute|]. split; [by vm_compute|].
  split; [by vm_compute|]. split; [by vm_compute|].
  split; [by vm_compute|]. split; [by vm_compute|].
  split; [by vm_compute|]. split; [done|]. split; [done|].
  split; [by vm_compute|]. split; [by vm_compute|]. done.
Qed.

(** The run of the dispatcher on which C6 fails, without the tick: the task
    that sleeps is on the waiting queue when its head is loaded, and the
    loop goes on. *)
Example mrbc_run_goes_on_without_tick :
  ∃ s3,
    mrbc_run_body false guest_ends sample_idle no_irq sample_last
    = Ok (Continue, s3)
    ∧ queue_of Q_READY s3 = Some []
    ∧ queue_of Q_WAITING s3 = Some [2%nat]
    ∧ queue_of Q_SUSPENDED s3 = Some [].
Proof.
  eexists. split; [by vm_compute|]. by vm_compute.
Qed.

Lemma sleep_zero_misses_next_tick_witness :
  invariant sample = true
  ∧ find (runs_vm sample (Some 1%nat)) [1%nat; 2%nat] = Some 1%nat
  ∧ tick_ sample = 5
  ∧ ∃ s1 s2 t2 w,
      c_sleep_ms false (Some 1%nat)
        [mkValue MRB_TT_OTHER 0; mkValue MRB_TT_FIXNUM 0] sample
      = Ok (tt, s1)
      ∧ mrbc_tick false s1 = Ok (tt, s2)
      ∧ tick_ s2 = to_uint32 (5 + 1)
      ∧ tcbs s2 !! 1%nat = Some t2
      ∧ state t2 = TASKSTATE_WAITING ∧ reason t2 = TASKREASON_SLEEP
      ∧ wakeup_tick t2 = to_uint32 5
      ∧ wakeup_tick t2 ≠ tick_ s2
      ∧ queue_of Q_WAITING s2 = Some w ∧ 1%nat ∈ w.
Proof.
  split; [reflexivity|]. split; [reflexivity|]. split; [reflexivity|].
  apply (sleep_zero_misses_next_tick false sample [1%nat; 2%nat]
           (Some 1%nat) 1%nat); reflexivity.
Defined.

(** The same call with 1 instead of 0 is woken by the next tick. *)
Example sleep_one_wakes_at_next_tick :
  ∃ s1 s2 t,
    c_sleep_ms false (Some 1%nat)
      [mkValue MRB_TT_OTHER 0; mkValue MRB_TT_FIXNUM 1] sample = Ok (tt, s1)
    ∧ mrbc_tick false s1 = Ok (tt, s2)
    ∧ tcbs s2 !! 1%nat = Some t
    ∧ state t = TASKSTATE_READY
    ∧ queue_of Q_READY s2 = Some [2%nat; 1%nat].
Proof.
  do 3 eexists. split; [by vm_compute|]. split; [by vm_compute|].
  split; [by vm_compute|]. by vm_compute.
Qed.

(** * More of the monitor *)

Section MoreOfTheMonitor.

Variable NDEBUG : bool.

(** ** Lists and memories *)

Lemma Monitor_eq s s' :
  tcbs s' = tcbs s → vms s' = vms s → mutexes s' = mutexes s →
  (∀ q, q_head q s' = q_head q s) → tick_ s' = tick_ s → s' = s.
Proof.
  intros Ht Hv Hm Hq Hk. pose proof (Hq Q_DOMANT). pose proof (Hq Q_READY).
  pose proof (Hq Q_WAITING). pose proof (Hq Q_SUSPENDED).
  destruct s, s'; simpl in *. by subst.
Qed.

Lemma tcb_eq x y :
  next x = next y → set_next None x = set_next None y → x = y.
Proof. destruct x, y. unfold set_next. simpl. intros -> [=]. by subst. Qed.

(** Two memories that hold the same list hold the same links in it. *)
Lemma is_queue_next_eq h h' l :
  ∀ p p', is_queue h p l → is_queue h' p' l →
          ∀ c, c ∈ l → next <$> h' !! c = next <$> h !! c.
Proof.
  induction l as [|b l IH]; intros p p' H H' c Hc.
  - by apply elem_of_nil in Hc.
  - destruct H as (_ & t & Ht & H), H' as (_ & t' & Ht' & H').
    apply elem_of_cons in Hc as [->|Hc]; [|by eapply IH].
    rewrite Ht, Ht'. simpl.
    by rewrite (is_queue_head _ _ _ H), (is_queue_head _ _ _ H').
Qed.

Lemma filter_insert_by_priority key (a : nat) l :
  a ∉ l → filter (λ c, c ≠ a) (insert_by_priority key a l) = l.
Proof.
  intros Ha. destruct (insert_by_priority_split key a l)
    as (l1 & l2 & -> & -> & _).
  rewrite filter_app, filter_cons_False by naive_solver.
  rewrite !filter_ne_notin; [done| |]; set_solver.
Qed.

Lemma find_insert_by_priority key (f : nat → bool) a l :
  f a = true → Forall (λ c, f c = false) l →
  find f (insert_by_priority key a l) = Some a.
Proof.
  intros Ha. induction 1 as [|b l Hb Hl IH]; simpl; [by rewrite Ha|].
  destruct (key a <? key b); simpl; [by rewrite Ha|]. by rewrite Hb.
Qed.

Lemma ascending_Forall x l :
  ascending (x :: l) = true → Forall (λ y, x <= y) l ∧ ascending l = true.
Proof.
  revert x. induction l as [|y l IH]; intros x H; [by split|].
  rewrite ascending_cons in H. apply andb_true_iff in H as [Hxy Hl].
  split; [|done]. destruct (IH y Hl) as [Hy _]. constructor; [lia|].
  eapply Forall_impl; [exact Hy|]. intros z Hz. simpl in Hz. lia.
Qed.

Lemma ascending_cons_intro x l :
  Forall (λ y, x <= y) l → ascending l = true → ascending (x :: l) = true.
Proof.
  intros Hx Hl. rewrite ascending_cons. destruct l as [|y l]; [done|].
  apply Forall_cons in Hx as [Hxy _]. apply andb_true_iff. split; [lia|done].
Qed.

Lemma ascending_filter (key : nat → Z) (P : nat → Prop)
    `{∀ c, Decision (P c)} l :
  ascending (key <$> l) = true → ascending (key <$> filter P l) = true.
Proof.
  induction l as [|c l IH]; [done|]. rewrite fmap_cons.
  intros [Hc Hl]%ascending_Forall.
  destruct (decide (P c)).
  - rewrite filter_cons_True by done. rewrite fmap_cons.
    apply ascending_cons_intro; [|by apply IH].
    rewrite Forall_fmap, Forall_forall in Hc |- *.
    intros y [_ Hy]%list_elem_of_filter. by apply Hc.
  - rewrite filter_cons_False by done. by apply IH.
Qed.

Lemma sorted_moved s s' L a q2 :
  (∀ q, sorted_queue s (L q) = true) → (∀ c, prio s' c = prio s c) →
  ∀ q, sorted_queue s' (moved (prio s') a q2 L q) = true.
Proof.
  intros Hs Hp q. unfold sorted_queue, moved.
  assert (ascending (prio s' <$> filter (λ c, c ≠ a) (L q)) = true) as Hf.
  { apply ascending_filter. erewrite list_fmap_ext; [apply (Hs q)|].
    intros i c _. apply Hp. }
  destruct (decide (q = q2)); [|done].
  destruct (insert_by_priority_split (prio s') a
              (filter (λ c, c ≠ a) (L q)))
    as (l1 & l2 & Hl & -> & Hle & Hgt).
  apply ascending_insert; [by rewrite <- Hl|done|done].
Qed.

Lemma queues_sorted_spec s L :
  rep s L → queues_sorted s = true ↔ ∀ q, sorted_queue s (L q) = true.
Proof.
  intros Hrep. unfold queues_sorted, queues. cbn [forallb].
  rewrite !(rep_queue_of s L) by done. simpl. rewrite !andb_true_iff.
  split.
  - intros (? & ? & ? & ? & _) []; done.
  - intros H. by rewrite !H.
Qed.

(** ** The queue functions *)

(** X1. [find_requested_task] returns the first TCB of the ready queue, in
    queue order, whose [vm] is the VM given, [NULL] when the queue has none,
    and leaves the memory as it is. *)
Theorem find_requested_task_first s r vmp :
  queue_of Q_READY s = Some r →
  ∃ res,
    find_requested_task vmp s = Ok (res, s)
    ∧ match res with
      | Some a => ∃ r1 r2, r = r1 ++ a :: r2
                           ∧ Forall (λ c, runs_vm s vmp c = false) r1
                           ∧ runs_vm s vmp a = true
      | None => Forall (λ c, runs_vm s vmp c = false) r
      end.
Proof.
  intros Hr. exists (find (runs_vm s vmp) r).
  split; [by apply find_requested_task_spec|].
  destruct (find (runs_vm s vmp) r) as [a|] eqn:Hfind.
  - destruct (find_split _ _ _ Hfind) as (r1 & r2 & ? & ? & ?). eauto.
  - by apply find_none_Forall.
Qed.

(** X2. [q_insert_task] of a TCB that is on no queue followed by
    [q_delete_task] of the same TCB restores the memory: every queue head
    and every link is as before, but for the link of the TCB itself, which
    is [NULL]. *)
Theorem q_insert_delete_round_trip s a t q :
  queues_wf s = true → detached s a = true →
  tcbs s !! a = Some t → pp_q_of (state t) = Some q →
  ∃ s1 l1,
    q_insert_task NDEBUG (Some a) s = Ok (tt, s1)
    ∧ queue_of q s1 = Some l1 ∧ a ∈ l1
    ∧ q_delete_task NDEBUG (Some a) s1
      = Ok (tt, with_tcbs (<[a := set_next None t]> (tcbs s)) s).
Proof.
  intros Hrep%queues_wf_rep Hdet Ha Hst.
  pose proof (detached_spec _ _ Hdet) as Hnot.
  set (L := queues s) in *.
  destruct (q_insert_task_rep NDEBUG s L a t q Hrep Ha Hst Hnot)
    as (s1 & Hrun1 & Hrep1 & Hrl1).
  assert (Hrl1' := Hrl1). destruct Hrl1' as (Hv1 & Hm1 & Hk1 & Hh1 & Hrh1).
  destruct (relinked_heap_lookup _ _ _ _ _ Hrh1 Ha) as (t1 & Ht1 & E1).
  assert (pp_q_of (state t1) = Some q) as Hst1.
  { apply set_next_None_fields in E1. by destruct E1 as (_&_&_&->&_). }
  set (L1 := <[q := insert_by_priority (prio s) a (L q)]> L) in *.
  assert (L1 q = insert_by_priority (prio s) a (L q)) as HL1q
    by (unfold L1; by rewrite fn_lookup_insert).
  destruct (q_delete_task_rep NDEBUG s1 L1 a t1 q Hrep1 Ht1 Hst1)
    as (s2 & Hrun2 & Hrep2 & Hrl2 & Hnx & _).
  rewrite HL1q in Hrl2, Hnx, Hrep2.
  rewrite filter_insert_by_priority in Hrep2 by apply Hnot.
  destruct Hrl2 as (Hv2 & Hm2 & Hk2 & Hh2 & Hrh2).
  assert (is_queue (tcbs s2) (q_head q s2) (L q)) as Hq2.
  { pose proof (proj1 Hrep2 q) as H. by rewrite fn_lookup_insert in H. }
  pose proof (proj1 Hrep q) as Hq0.
  exists s1, (L1 q). split; [done|]. split; [by apply rep_queue_of|].
  split; [rewrite HL1q; apply elem_of_insert_by_priority; by left|].
  rewrite Hrun2. do 2 f_equal. apply Monitor_eq; cbn [tcbs vms mutexes tick_
    with_tcbs]; try congruence.
  - apply map_eq. intros c. destruct (decide (c = a)) as [->|Hca].
    + rewrite lookup_insert_eq.
      specialize (Hnx ltac:(apply elem_of_insert_by_priority; by left)).
      destruct (relinked_heap_lookup _ _ _ _ _ Hrh2 Ht1) as (t2 & Ht2 & E2).
      rewrite Ht2 in Hnx |- *. f_equal. injection Hnx as Hnx.
      apply tcb_eq; [done|]. rewrite E2, E1. by destruct t.
    + rewrite lookup_insert_ne by done.
      destruct (decide (c ∈ L q)) as [Hc|Hc].
      * pose proof (is_queue_next_eq _ _ _ _ _ Hq0 Hq2 c Hc) as Hn.
        destruct Hrh1 as [_ D1], Hrh2 as [_ D2].
        specialize (D1 c). specialize (D2 c). rewrite D1 in D2.
        destruct (tcbs s !! c) as [x|], (tcbs s2 !! c) as [x2|];
          simpl in *; try done.
        f_equal. apply tcb_eq; congruence.
      * destruct Hrh1 as [F1 _], Hrh2 as [F2 _]. rewrite F2, F1; [done| |].
        -- set_solver.
        -- rewrite elem_of_insert_by_priority. naive_solver.
  - intros q'. rewrite q_head_with_tcbs.
    destruct (decide (q' = q)) as [->|Hne].
    + by rewrite (is_queue_head _ _ _ Hq2), (is_queue_head _ _ _ Hq0).
    + rewrite Hh2, Hh1; done.
Qed.

(** ** The mutex *)

Lemma waits_for_ext s s' m c :
  set_next None <$> tcbs s' !! c = set_next None <$> tcbs s !! c →
  waits_for s' m c = waits_for s m c.
Proof.
  intros D. unfold waits_for.
  destruct (tcbs s !! c) as [x|], (tcbs s' !! c) as [x'|]; simpl in D;
    try done.
  assert (set_next None x' = set_next None x) as E by congruence.
  apply set_next_None_fields in E.
  by destruct E as (_ & _ & _ & _ & -> & _ & -> & _).
Qed.

(** [mrbc_mutex_unlock] when no TCB of the waiting queue waits for the
    mutex. *)
Lemma mrbc_mutex_unlock_no_waiter s m x w :
  queue_of Q_WAITING s = Some w →
  Forall (λ c, waits_for s (Some m) c = false) w →
  mutexes s !! m = Some x → lock x = 1 →
  mrbc_mutex_unlock NDEBUG (Some m) (tcb x) s
  = Ok (0, with_mutexes (<[m := set_lock 0 x]> (mutexes s)) s).
Proof.
  intros Hqw%queue_of_is_queue Hno Hm Hlk.
  pose proof (is_queue_length _ _ _ Hqw) as Hlen.
  destruct (mrbc_mutex_unlock_loop_skip NDEBUG s (Some m) w
              (q_head Q_WAITING s) [])
    as (p' & Hqe & Hskip); [by rewrite app_nil_r|done|].
  simpl in Hqe. subst p'.
  assert (fuel_of s = (length w + S (size (tcbs s) - length w))%nat)
    as Hfuel by (unfold fuel_of; lia).
  unfold mrbc_mutex_unlock, hal_disable_irq, hal_enable_irq.
  erewrite bind_ok by (by apply load_mutex_ok).
  erewrite bind_ok by (apply assert_ok; by apply bool_decide_eq_true).
  erewrite bind_ok by (by apply load_mutex_ok).
  erewrite bind_ok by (apply assert_ok; by apply Z.eqb_eq).
  mrun.
  erewrite bind_ok by (rewrite Hfuel, Hskip; reflexivity).
  cbn [Z.eqb negb].
  erewrite bind_ok by (by apply store_mutex_ok). by mrun.
Qed.

(** [mrbc_mutex_unlock] when [b] is the first TCB of the waiting queue that
    waits for the mutex. *)
Lemma mrbc_mutex_unlock_wakes s L m x w1 b w2 tb :
  inv s L → L Q_WAITING = w1 ++ b :: w2 →
  Forall (λ c, waits_for s (Some m) c = false) w1 →
  waits_for s (Some m) b = true → tcbs s !! b = Some tb →
  mutexes s !! m = Some x → lock x = 1 →
  ∃ s' t',
    mrbc_mutex_unlock NDEBUG (Some m) (tcb x) s = Ok (0, s')
    ∧ inv s' (moved (prio s') b Q_READY L)
    ∧ tcbs s' !! b = Some t'
    ∧ set_next None t' = set_next None (set_state TASKSTATE_READY tb)
    ∧ others_kept b s s'
    ∧ mutexes s' = <[m := set_tcb (Some b) x]> (mutexes s)
    ∧ tick_ s' = tick_ s.
Proof.
  intros Hinv HL Hno Hb Htb Hm Hlk.
  assert (Hqw := proj1 (proj1 Hinv) Q_WAITING). rewrite HL in Hqw.
  pose proof (is_queue_length _ _ _ Hqw) as Hlen.
  destruct (mrbc_mutex_unlock_loop_skip NDEBUG s (Some m) w1 _ _ Hqw Hno)
    as (p' & Hqb & Hskip).
  assert (Hqb' := Hqb). destruct Hqb' as (-> & _).
  assert (fuel_of s = (length w1 + S (size (tcbs s) - length w1))%nat)
    as Hfuel.
  { unfold fuel_of. rewrite length_app in Hlen. simpl in Hlen. lia. }
  destruct (mrbc_mutex_unlock_loop_wake NDEBUG s L m x b tb
              (size (tcbs s) - length w1) Hinv)
    as (s2 & t2 & Hrun & Hinv2 & Ht2 & E2 & Hoth & Hv2 & Hm2 & Hk2);
    [rewrite HL; set_solver|done|done|done|].
  unfold mrbc_mutex_unlock, hal_disable_irq, hal_enable_irq.
  erewrite bind_ok by (by apply load_mutex_ok).
  erewrite bind_ok by (apply assert_ok; by apply bool_decide_eq_true).
  erewrite bind_ok by (by apply load_mutex_ok).
  erewrite bind_ok by (apply assert_ok; by apply Z.eqb_eq).
  mrun.
  erewrite bind_ok by (rewrite Hfuel, Hskip; exact Hrun).
  cbn [Z.eqb negb].
  erewrite bind_ok by (by eapply preempt_running_spec). mrun.
  eexists _, t2. split; [reflexivity|].
  split; [apply inv_with_vms; [done|apply preempted_is_Some]|]. done.
Qed.

(** [mrbc_mutex_lock] on a mutex that is free. *)
Lemma mrbc_mutex_lock_free s m x tcbp :
  mutexes s !! m = Some x → lock x = 0 →
  mrbc_mutex_lock NDEBUG (Some m) tcbp s
  = Ok (0, with_mutexes (<[m := mkMutex 1 tcbp]> (mutexes s)) s).
Proof.
  intros Hm Hlk.
  unfold mrbc_mutex_lock, hal_disable_irq, hal_enable_irq. mrun.
  erewrite bind_ok by (by apply load_mutex_ok).
  rewrite Hlk. cbn [Z.eqb].
  erewrite bind_ok by (by apply store_mutex_ok).
  erewrite bind_ok
    by (apply store_mutex_ok; cbn [mutexes with_mutexes];
        by rewrite lookup_insert_eq).
  mrun. cbn [mutexes with_mutexes]. rewrite insert_insert_eq.
  by destruct s.
Qed.

(** X3. On an unlocked mutex [mrbc_mutex_trylock] and [mrbc_mutex_lock] do
    the same: they return 0 with the mutex locked and the caller recorded as
    its owner, and no TCB, VM or queue changes.  While the mutex is locked,
    [mrbc_mutex_trylock] returns 1 to every caller and leaves the memory as
    it is. *)
Theorem mrbc_mutex_trylock_excludes s m x tcbp :
  mutexes s !! m = Some x → lock x = 0 →
  let s1 := with_mutexes (<[m := mkMutex 1 tcbp]> (mutexes s)) s in
  mrbc_mutex_trylock (Some m) tcbp s = Ok (0, s1)
  ∧ mrbc_mutex_lock NDEBUG (Some m) tcbp s = Ok (0, s1)
  ∧ ∀ tcbp', mrbc_mutex_trylock (Some m) tcbp' s1 = Ok (1, s1).
Proof.
  intros Hm Hlk s1.
  assert (∀ k : Z → M Z,
    bind (bind (store_mutex (Some m) (set_lock 1))
            (λ _, bind (store_mutex (Some m) (set_tcb tcbp)) (λ _, ret 0)))
         k s = k 0 s1) as Hstores.
  { intros k. rewrite bind_bind.
    erewrite bind_ok by (by apply store_mutex_ok). rewrite bind_bind.
    erewrite bind_ok
      by (apply store_mutex_ok; cbn [mutexes with_mutexes];
          by rewrite lookup_insert_eq).
    rewrite bind_ret. cbn [mutexes with_mutexes].
    rewrite insert_insert_eq. by destruct s. }
  split; [|split].
  - unfold mrbc_mutex_trylock, hal_disable_irq, hal_enable_irq. mrun.
    erewrite bind_ok by (by apply load_mutex_ok).
    rewrite Hlk. cbn [Z.eqb]. by rewrite Hstores.
  - by apply (mrbc_mutex_lock_free s m x).
  - intros tcbp'.
    unfold mrbc_mutex_trylock, hal_disable_irq, hal_enable_irq. mrun.
    erewrite bind_ok
      by (apply load_mutex_ok; unfold s1; cbn [mutexes with_mutexes];
          by rewrite lookup_insert_eq).
    cbn [lock Z.eqb]. by mrun.
Qed.

(** X4. [mrbc_mutex_lock] of an unlocked mutex followed by
    [mrbc_mutex_unlock] by the same caller, with no task waiting for the
    mutex: both return 0 and the memory is as before, but for the owner field
    of the mutex, which still names the caller. *)
Theorem mrbc_mutex_lock_unlock_round_trip s m x w tcbp :
  queue_of Q_WAITING s = Some w →
  find (waits_for s (Some m)) w = None →
  mutexes s !! m = Some x → lock x = 0 →
  ∃ s1,
    mrbc_mutex_lock NDEBUG (Some m) tcbp s = Ok (0, s1)
    ∧ mutexes s1 !! m = Some (mkMutex 1 tcbp)
    ∧ mrbc_mutex_unlock NDEBUG (Some m) tcbp s1
      = Ok (0, with_mutexes (<[m := mkMutex 0 tcbp]> (mutexes s)) s).
Proof.
  intros Hw Hnone%find_none_Forall Hm Hlk.
  set (s1 := with_mutexes (<[m := mkMutex 1 tcbp]> (mutexes s)) s).
  exists s1. split; [|split].
  - by apply (mrbc_mutex_lock_free s m x).
  - unfold s1. cbn [mutexes with_mutexes]. by rewrite lookup_insert_eq.
  - pose proof (mrbc_mutex_unlock_no_waiter s1 m (mkMutex 1 tcbp) w) as H.
    cbn [tcb] in H. rewrite H; try done.
    + unfold s1. cbn [mutexes with_mutexes]. rewrite insert_insert_eq.
      by destruct s.
    + unfold s1. cbn [mutexes with_mutexes]. by rewrite lookup_insert_eq.
Qed.

(** X5. A task of the ready queue that calls [mrbc_mutex_lock] on a locked
    mutex nobody else waits for is moved to the waiting queue; when the
    owner then calls [mrbc_mutex_unlock], the mutex goes to that task: it is
    the owner, [READY] on the ready queue with the [priority_preemption] and
    the timeslice it had, the waiting queue is as it was before the two
    calls, and the mutex stays locked. *)
Theorem mrbc_mutex_lock_unlock_hand_over s r w a t m x :
  invariant s = true →
  queue_of Q_READY s = Some r → a ∈ r → tcbs s !! a = Some t →
  queue_of Q_WAITING s = Some w →
  find (waits_for s (Some m)) w = None →
  mutexes s !! m = Some x → lock x = 1 →
  ∃ s1 w1 s2 t2 l1 l2,
    mrbc_mutex_lock NDEBUG (Some m) (Some a) s = Ok (0, s1)
    ∧ queue_of Q_WAITING s1 = Some w1 ∧ a ∈ w1
    ∧ mrbc_mutex_unlock NDEBUG (Some m) (tcb x) s1 = Ok (0, s2)
    ∧ mutexes s2 !! m = Some (mkMutex 1 (Some a))
    ∧ tcbs s2 !! a = Some t2
    ∧ state t2 = TASKSTATE_READY
    ∧ priority_preemption t2 = priority_preemption t
    ∧ timeslice t2 = timeslice t
    ∧ queue_of Q_WAITING s2 = Some w
    ∧ filter (λ c, c ≠ a) r = l1 ++ l2
    ∧ queue_of Q_READY s2 = Some (l1 ++ a :: l2)
    ∧ Forall (λ b, prio s b <= prio s a) l1
    ∧ match l2 with [] => True | b :: _ => prio s a < prio s b end
    ∧ invariant s2 = true.
Proof.
  intros Hinv%invariant_inv Hr%queue_of_queues Hin Ha Hw%queue_of_queues
    Hnone%find_none_Forall Hm Hlk.
  rewrite <- Hr in Hin. set (L := queues s) in *.
  assert (lock x ≠ 0) as Hlk' by lia.
  destruct (mrbc_mutex_lock_blocks_spec NDEBUG s L a t m x Hinv Hin Ha Hm Hlk')
    as (s1 & t1 & v & Hrun1 & Hinv1 & Ht1 & E1 & Hoth1 & _ & _ & Hm1 & _).
  assert (a ∉ L Q_WAITING) as Haw.
  { intros Haw. destruct Hinv as ([_ Hd] & _).
    by pose proof (Hd _ _ _ Hin Haw). }
  set (L1 := moved (prio s1) a Q_WAITING L) in *.
  assert (L1 Q_WAITING = insert_by_priority (prio s1) a w) as HL1w.
  { unfold L1, moved. rewrite decide_True by done. cbv zeta.
    by rewrite filter_ne_notin, Hw. }
  destruct (insert_by_priority_split (prio s1) a w)
    as (wa & wb & Hwab & Hins & _).
  rewrite Hins in HL1w.
  assert (∀ c, c ≠ a → waits_for s1 (Some m) c = waits_for s (Some m) c)
    as Hwf by (intros c Hc; by apply waits_for_ext, Hoth1).
  assert (a ∉ w) as Haw' by (by rewrite <- Hw).
  assert (Hfields := E1). apply set_next_None_fields in Hfields.
  simpl in Hfields. destruct Hfields as (_ & Epp & Ets & _ & Ers & _ & Emx & _).
  destruct (mrbc_mutex_unlock_wakes s1 L1 m x wa a wb t1 Hinv1 HL1w)
    as (s2 & t2 & Hrun2 & Hinv2 & Ht2 & E2 & Hoth2 & Hm2 & _).
  { apply Forall_forall. intros c Hc. rewrite Hwf.
    - rewrite Forall_forall in Hnone. apply Hnone. rewrite Hwab. set_solver.
    - intros ->. apply Haw'. rewrite Hwab. set_solver. }
  { unfold waits_for. rewrite Ht1, Ers, Emx.
    by rewrite !bool_decide_eq_true_2. }
  { done. }
  { by rewrite Hm1. }
  { done. }
  apply set_next_None_fields in E2. simpl in E2.
  destruct E2 as (_ & Epp2 & Ets2 & Est2 & _).
  assert (∀ c, prio s2 c = prio s c) as Hprio.
  { intros c. rewrite (kept_prio a s1 s2 t1 t2), (kept_prio a s s1 t t1);
      done. }
  destruct (insert_by_priority_split (prio s) a (filter (λ c, c ≠ a) r))
    as (l1 & l2 & Hl & Hins2 & Hle & Hgt).
  exists s1, (wa ++ a :: wb), s2, t2, l1, l2.
  split; [done|]. split.
  { rewrite (rep_queue_of _ _ Q_WAITING (proj1 Hinv1)). by rewrite HL1w. }
  split; [set_solver|]. split; [done|]. split.
  { rewrite Hm2, Hm1, lookup_insert_eq. destruct x; simpl in *. by subst. }
  split; [done|]. split; [done|]. do 2 (split; [congruence|]). split.
  { rewrite (rep_queue_of _ _ Q_WAITING (proj1 Hinv2)). unfold moved.
    rewrite decide_False by done. cbv zeta. rewrite HL1w.
    rewrite filter_app, filter_cons_False by naive_solver.
    rewrite !filter_ne_notin; [by rewrite <- Hwab| |];
      intros ?; apply Haw'; rewrite Hwab; set_solver. }
  split; [done|]. split.
  { rewrite (rep_queue_of _ _ Q_READY (proj1 Hinv2)). f_equal.
    unfold moved at 1. rewrite decide_True by done. cbv zeta.
    unfold L1, moved. rewrite decide_False by done.
    rewrite list_filter_filter, Hr, <- Hins2.
    rewrite (list_filter_iff _ (λ c, c ≠ a)) by naive_solver.
    apply insert_by_priority_ext. intros c _. apply Hprio. }
  split; [done|]. split; [done|]. by eapply inv_invariant.
Qed.

(** ** The tick handler *)

(** [mrbc_tick] up to its walk over the waiting queue: the counter is
    advanced and the head of the ready queue is charged one tick. *)
Lemma mrbc_tick_head_spec s L :
  inv s L →
  ∃ s1,
    mrbc_tick NDEBUG s
    = bind (mrbc_tick_loop NDEBUG (fuel_of s1) (q_head Q_WAITING s1) 0)
        (λ flag, if negb (flag =? 0) then preempt_running else ret tt) s1
    ∧ inv s1 L ∧ tick_ s1 = to_uint32 (tick_ s + 1)
    ∧ mutexes s1 = mutexes s
    ∧ (∀ q, q_head q s1 = q_head q s)
    ∧ match L Q_READY with
      | [] => tcbs s1 = tcbs s ∧ vms s1 = vms s
      | h :: _ =>
          ∃ x v, tcbs s !! h = Some x ∧ vm x = Some v
            ∧ if bool_decide (state x = TASKSTATE_RUNNING)
                 && (0 <? timeslice x)
              then tcbs s1
                   = <[h := set_timeslice (to_uint8 (timeslice x - 1)) x]>
                       (tcbs s)
                   ∧ vms s1 = (if to_uint8 (timeslice x - 1) =? 0
                               then <[v := mkVm 1]> (vms s) else vms s)
              else tcbs s1 = tcbs s ∧ vms s1 = vms s
      end.
Proof.
  intros Hinv. set (s0 := with_tick (to_uint32 (tick_ s + 1)) s).
  assert (inv s0 L) as Hinv0 by by apply inv_with_tick.
  assert (∀ q, q_head q s0 = q_head q s) as Hh0 by (by intros []).
  unfold mrbc_tick. erewrite bind_ok by apply modify_ok. fold s0.
  erewrite bind_ok by apply get_q_ok.
  assert (Hinv0' := Hinv0). destruct Hinv0' as (Hrep & Hag & Hvm).
  assert (Hq := proj1 Hrep Q_READY).
  destruct (L Q_READY) as [|h r] eqn:HLr.
  - assert (q_head Q_READY s0 = None) as -> by exact Hq. mrun.
    by exists s0.
  - destruct Hq as (Hhd & x & Hx & _).
    assert (q_head Q_READY s0 = Some h) as -> by exact Hhd.
    destruct (Hvm Q_READY h) as (x' & v & Hx' & Hv & Hvs);
      [done|rewrite HLr; set_solver|].
    rewrite Hx in Hx'. injection Hx' as <-. mrun.
    destruct (bool_decide (state x = TASKSTATE_RUNNING)
              && (0 <? timeslice x)) eqn:Hrun.
    2:{ mrun. exists s0. do 5 (split; [done|]). exists x, v.
        by rewrite Hrun. }
    mrun.
    set (x1 := set_timeslice (to_uint8 (timeslice x - 1)) x).
    set (s1 := with_tcbs (<[h := x1]> (tcbs s0)) s0).
    assert (inv s1 L) as Hinv1 by by apply (inv_store s0 L h x x1).
    destruct (to_uint8 (timeslice x - 1) =? 0) eqn:Hz.
    + rewrite Hv.
      erewrite bind_ok by (by apply set_flag_preemption_ok'). mrun.
      eexists. split; [reflexivity|]. split.
      { apply inv_with_vms; [done|]. intros v' Hv'.
        cbn [vms with_tcbs] in *. destruct (decide (v = v')) as [->|].
        - by rewrite lookup_insert_eq.
        - by rewrite lookup_insert_ne. }
      do 3 (split; [done|]). exists x, v. by rewrite Hrun, Hz.
    + mrun. exists s1. do 5 (split; [done|]). exists x, v.
      by rewrite Hrun, Hz.
Qed.

(** The walk of [mrbc_tick] when no TCB of the waiting queue is due. *)
Lemma mrbc_tick_loop_idle s rest :
  ∀ n p flag,
    is_queue (tcbs s) p rest → Forall (λ c, due s c = false) rest →
    (length rest ≤ n)%nat →
    mrbc_tick_loop NDEBUG n p flag s = Ok (flag, s).
Proof.
  induction rest as [|c rest IH]; intros n p flag Hq Hno Hn.
  - simpl in Hq. subst p. by destruct n.
  - destruct Hq as (-> & x & Hx & Hq). destruct n as [|n]; [simpl in Hn; lia|].
    apply Forall_cons in Hno as [Hc Hno]. unfold due in Hc. rewrite Hx in Hc.
    simpl mrbc_tick_loop. mrun. rewrite Hc. apply IH; [done|done|].
    simpl in Hn. lia.
Qed.

(** X6. [mrbc_tick] advances the tick counter by one, in [uint32_t].  A TCB
    of the waiting queue that sleeps until the new counter value leaves the
    waiting queue and is [READY] on the ready queue with a full timeslice;
    every other TCB of the waiting queue stays there with its fields as they
    were.  The invariant of the memory is kept. *)
Theorem mrbc_tick_wakes_sleepers s w :
  invariant s = true → queue_of Q_WAITING s = Some w →
  ∃ s' r' w',
    mrbc_tick NDEBUG s = Ok (tt, s')
    ∧ tick_ s' = to_uint32 (tick_ s + 1)
    ∧ invariant s' = true
    ∧ queue_of Q_READY s' = Some r' ∧ queue_of Q_WAITING s' = Some w'
    ∧ ∀ c x, c ∈ w → tcbs s !! c = Some x →
        ∃ x', tcbs s' !! c = Some x'
          ∧ if bool_decide (reason x = TASKREASON_SLEEP)
               && (wakeup_tick x =? to_uint32 (tick_ s + 1))
            then c ∈ r' ∧ (c ∉ w')
                 ∧ set_next None x'
                   = set_next None
                       (set_timeslice TIMESLICE_TICK
                          (set_state TASKSTATE_READY x))
            else c ∈ w' ∧ set_next None x' = set_next None x.
Proof.
  intros Hinv%invariant_inv Hw%queue_of_queues.
  destruct (mrbc_tick_spec NDEBUG s _ Hinv)
    as (s' & L' & Hrun & Hinv' & Hk & _ & Hpost).
  exists s', (L' Q_READY), (L' Q_WAITING). split; [done|]. split; [done|].
  split; [by eapply inv_invariant|].
  split; [apply rep_queue_of, Hinv'|]. split; [apply rep_queue_of, Hinv'|].
  intros c x Hc Hx. rewrite <- Hw in Hc. specialize (Hpost c x Hc Hx).
  destruct (bool_decide (reason x = TASKREASON_SLEEP)
            && (wakeup_tick x =? to_uint32 (tick_ s + 1))).
  - destruct Hpost as (Hin & x' & Hx' & E). exists x'. split; [done|].
    split; [done|]. split; [|done]. intros Hcw.
    destruct Hinv' as ([_ Hd] & _). by pose proof (Hd _ _ _ Hin Hcw).
  - destruct Hpost as (Hin & x' & Hx' & E). by exists x'.
Qed.

Lemma due_false_of_fields s s1 c :
  tcbs s1 !! c = tcbs s !! c → tick_ s1 = to_uint32 (tick_ s + 1) →
  (∀ x, tcbs s !! c = Some x → reason x = TASKREASON_SLEEP →
        wakeup_tick x ≠ to_uint32 (tick_ s + 1)) →
  due s1 c = false.
Proof.
  intros Hc Hk Hno. unfold due. rewrite Hc, Hk.
  destruct (tcbs s !! c) as [x|]; [|done].
  destruct (bool_decide (reason x = TASKREASON_SLEEP)) eqn:E; [|done].
  apply bool_decide_eq_true in E. simpl. apply Z.eqb_neq. by apply Hno.
Qed.

Lemma existsb_false_Forall {A} (f : A → bool) l :
  Forall (λ c, f c = false) l → existsb f l = false.
Proof. induction 1 as [|c l Hc _ IH]; simpl; [done|]. by rewrite Hc. Qed.

(** X7. [mrbc_tick] charges the tick to the task at the head of the ready
    queue when it is [RUNNING] with a timeslice left: the timeslice goes down
    by one, and when it reaches 0 the preemption flag of the task's VM is
    set.  While more than one tick is left and no sleeper is due, no
    preemption flag changes. *)
Theorem mrbc_tick_charges_running s h r w x :
  invariant s = true → queue_of Q_READY s = Some (h :: r) →
  queue_of Q_WAITING s = Some w →
  tcbs s !! h = Some x → state x = TASKSTATE_RUNNING →
  0 < timeslice x <= 255 →
  ∃ s' x' v,
    mrbc_tick NDEBUG s = Ok (tt, s')
    ∧ tcbs s' !! h = Some x'
    ∧ timeslice x' = timeslice x - 1
    ∧ state x' = TASKSTATE_RUNNING
    ∧ vm x = Some v
    ∧ (timeslice x = 1 → vms s' !! v = Some (mkVm 1))
    ∧ (1 < timeslice x →
       (∀ c y, c ∈ w → tcbs s !! c = Some y → reason y = TASKREASON_SLEEP →
               wakeup_tick y ≠ to_uint32 (tick_ s + 1)) →
       vms s' = vms s).
Proof.
  intros Hinv%invariant_inv Hr%queue_of_queues Hw%queue_of_queues Hx Hst Hts.
  set (L := queues s) in *.
  destruct (mrbc_tick_head_spec s L Hinv)
    as (s1 & Hrun & Hinv1 & Hk1 & Hm1 & Hh1 & Hhead).
  rewrite Hr in Hhead. destruct Hhead as (x0 & v & Hx0 & Hv & Hhead).
  rewrite Hx in Hx0. injection Hx0 as <-.
  rewrite bool_decide_eq_true_2, (proj2 (Z.ltb_lt _ _)) in Hhead
    by (done || lia).
  cbn [andb] in Hhead. destruct Hhead as [Ht1 Hv1].
  assert (to_uint8 (timeslice x - 1) = timeslice x - 1) as Hu8
    by (unfold to_uint8; rewrite Z.mod_small; lia).
  rewrite Hu8 in Ht1, Hv1.
  destruct (mrbc_tick_loop_spec NDEBUG (L Q_WAITING) (fuel_of s1) s1 L [] 0
              Hinv1)
    as (s2 & L2 & Hloop & Hinv2 & Hv2 & Hm2 & Hk2 & H3 & _); [done| |].
  { destruct Hinv1 as ([Hq _] & _).
    pose proof (is_queue_length _ _ _ (Hq Q_WAITING)). unfold fuel_of. lia. }
  rewrite <- (is_queue_head _ _ _ (proj1 (proj1 Hinv1) Q_WAITING)) in Hloop.
  rewrite Hrun. erewrite bind_ok by exact Hloop.
  assert (h ∉ L Q_WAITING) as Hhw.
  { intros Hhw. destruct Hinv as ([_ Hd] & _).
    assert (h ∈ L Q_READY) as Hhr by (rewrite Hr; set_solver).
    by pose proof (Hd _ _ _ Hhr Hhw). }
  destruct (H3 h) as [D _]; [by intros [? _]|].
  rewrite Ht1, lookup_insert_eq in D.
  destruct (tcbs s2 !! h) as [x2|] eqn:Hx2; [|done].
  assert (set_next None x2
          = set_next None (set_timeslice (timeslice x - 1) x)) as E
    by (simpl in D; congruence).
  apply set_next_None_fields in E. simpl in E.
  destruct E as (_ & _ & Ets & Est & _).
  assert (vms s2 !! v = vms s1 !! v) as Hvv by by rewrite Hv2.
  destruct (existsb (due s1) (L Q_WAITING)) eqn:Hex; cbn [Z.eqb negb].
  - rewrite (preempt_running_spec s2 L2 Hinv2).
    eexists _, x2, v. split; [reflexivity|]. split; [done|].
    do 3 (split; [congruence|]). split.
    + intros H1. cbn [vms with_vms]. apply preempted_keeps.
      rewrite Hvv, Hv1. replace (timeslice x - 1) with 0 by lia.
      cbn [Z.eqb]. by rewrite lookup_insert_eq.
    + intros Hgt Hno. exfalso.
      rewrite existsb_false_Forall in Hex; [done|].
      apply Forall_forall. intros c Hc.
      apply (due_false_of_fields s); [|done|].
      * rewrite Ht1. rewrite lookup_insert_ne; [done|]. by intros ->.
      * intros y Hy. apply (Hno c y); [by rewrite <- Hw|done].
  - exists s2, x2, v. split; [done|]. split; [done|].
    do 3 (split; [congruence|]). split.
    + intros H1. rewrite Hvv, Hv1. replace (timeslice x - 1) with 0 by lia.
      cbn [Z.eqb]. by rewrite lookup_insert_eq.
    + intros Hgt _. rewrite Hv2, Hv1.
      by rewrite (proj2 (Z.eqb_neq _ _)) by lia.
Qed.

(** X8. When the head of the ready queue is not [RUNNING] with a timeslice
    left (the ready queue may be empty) and no TCB of the waiting queue
    sleeps until the next counter value, [mrbc_tick] changes nothing but the
    tick counter. *)
Theorem mrbc_tick_only_counts s w :
  invariant s = true → queue_of Q_WAITING s = Some w →
  slice_running s = false →
  (∀ c y, c ∈ w → tcbs s !! c = Some y → reason y = TASKREASON_SLEEP →
          wakeup_tick y ≠ to_uint32 (tick_ s + 1)) →
  mrbc_tick NDEBUG s = Ok (tt, with_tick (to_uint32 (tick_ s + 1)) s).
Proof.
  intros Hinv%invariant_inv Hw%queue_of_queues Hslice Hno.
  set (L := queues s) in *.
  destruct (mrbc_tick_head_spec s L Hinv)
    as (s1 & Hrun & Hinv1 & Hk1 & Hm1 & Hh1 & Hhead).
  assert (tcbs s1 = tcbs s ∧ vms s1 = vms s) as [Ht1 Hv1].
  { pose proof (proj1 (proj1 Hinv) Q_READY) as Hq.
    destruct (L Q_READY) as [|h r]; [done|].
    destruct Hq as (Hhd & _). destruct Hhead as (x & v & Hx & _ & Hhead).
    unfold slice_running in Hslice. cbn [q_head] in Hhd.
    rewrite Hhd, Hx in Hslice. by rewrite Hslice in Hhead. }
  assert (s1 = with_tick (to_uint32 (tick_ s + 1)) s) as ->.
  { apply Monitor_eq; try done. all: intros q; rewrite Hh1; by destruct q. }
  rewrite Hrun.
  erewrite bind_ok.
  2:{ apply (mrbc_tick_loop_idle _ (L Q_WAITING)).
      - apply Hinv1.
      - apply Forall_forall. intros c Hc.
        apply (due_false_of_fields s); [done|done|].
        intros y. apply Hno. by rewrite <- Hw.
      - pose proof (is_queue_length _ _ _ (proj1 (proj1 Hinv1) Q_WAITING)).
        unfold fuel_of. lia. }
  done.
Qed.

Lemma to_uint32_add_l x y : to_uint32 (to_uint32 x + y) = to_uint32 (x + y).
Proof. unfold to_uint32. by rewrite Zplus_mod_idemp_l. Qed.

Lemma to_uint32_add_ne x d :
  0 < d < 2 ^ 32 → to_uint32 (x + d) ≠ to_uint32 x.
Proof.
  unfold to_uint32. intros Hd E.
  assert ((x + d - x) mod 2 ^ 32 = 0) as H
    by (by rewrite Zminus_mod, E, Z.sub_diag).
  replace (x + d - x) with d in H by lia. rewrite Z.mod_small in H; lia.
Qed.

Lemma mrbc_ticks_app k1 k2 s :
  mrbc_ticks NDEBUG (k1 + k2) s
  = bind (mrbc_ticks NDEBUG k1) (λ _, mrbc_ticks NDEBUG k2) s.
Proof.
  revert s. induction k1 as [|k1 IH]; intros s.
  { reflexivity. }
  simpl. rewrite bind_bind. unfold bind.
  destruct (mrbc_tick NDEBUG s) as [[[] s']|]; [|done]. apply IH.
Qed.

(** A TCB of the waiting queue stays there over the ticks at which it is not
    due. *)
Lemma mrbc_ticks_keep_waiting k :
  ∀ s L a x,
    inv s L → a ∈ L Q_WAITING → tcbs s !! a = Some x →
    (∀ j : nat, (1 ≤ j ≤ k)%nat → reason x = TASKREASON_SLEEP →
                wakeup_tick x ≠ to_uint32 (tick_ s + Z.of_nat j)) →
    ∃ s' L' x',
      mrbc_ticks NDEBUG k s = Ok (tt, s') ∧ inv s' L'
      ∧ to_uint32 (tick_ s') = to_uint32 (tick_ s + Z.of_nat k)
      ∧ a ∈ L' Q_WAITING ∧ tcbs s' !! a = Some x'
      ∧ set_next None x' = set_next None x.
Proof.
  induction k as [|k IH]; intros s L a x Hinv Hin Hx Hno.
  - exists s, L, x. simpl. by rewrite Z.add_0_r.
  - destruct (mrbc_tick_spec NDEBUG s L Hinv)
      as (s1 & L1 & Hrun & Hinv1 & Hk1 & _ & Hpost).
    specialize (Hpost a x Hin Hx).
    assert (bool_decide (reason x = TASKREASON_SLEEP)
            && (wakeup_tick x =? to_uint32 (tick_ s + 1)) = false) as Hnd.
    { destruct (bool_decide (reason x = TASKREASON_SLEEP)) eqn:E; [|done].
      apply bool_decide_eq_true in E. simpl. apply Z.eqb_neq.
      apply (Hno 1%nat); [lia|done]. }
    rewrite Hnd in Hpost. destruct Hpost as (Hin1 & x1 & Hx1 & E1).
    assert (Hf := E1). apply set_next_None_fields in Hf.
    destruct Hf as (_ & _ & _ & _ & Ers & Ewk & _).
    destruct (IH s1 L1 a x1 Hinv1 Hin1 Hx1)
      as (s' & L' & x' & Hrun' & Hinv' & Hk' & Hin' & Hx' & E').
    { intros j Hj Hr. rewrite Ewk, Hk1, to_uint32_add_l.
      replace (tick_ s + 1 + Z.of_nat j)
        with (tick_ s + Z.of_nat (1 + j)) by lia.
      apply Hno; [lia|congruence]. }
    exists s', L', x'. simpl mrbc_ticks. erewrite bind_ok by exact Hrun.
    split; [done|]. split; [done|]. split.
    { rewrite Hk', Hk1, to_uint32_add_l. f_equal. lia. }
    split; [done|]. split; [done|]. congruence.
Qed.

(** X9. A task that calls [mrbc_sleep_ms] with [ms] between 1 and
    [2^32 - 1] is [WAITING] on the waiting queue over the next [ms - 1]
    ticks and is woken by tick number [ms]: it is then [READY] on the ready
    queue with a full timeslice.  With [ms = 0] its [wakeup_tick] is the
    current counter value, which the counter reaches again after [2^32]
    ticks: the task sleeps for [2^32] ticks. *)
Theorem mrbc_sleep_ms_wakes_after s r a t ms :
  invariant s = true → queue_of Q_READY s = Some r → a ∈ r →
  tcbs s !! a = Some t → 0 <= ms < 2 ^ 32 →
  let d := if ms =? 0 then 2 ^ 32 else ms in
  ∃ s1,
    mrbc_sleep_ms NDEBUG (Some a) ms s = Ok (tt, s1)
    ∧ (∀ k : nat, Z.of_nat k < d →
         ∃ s2 t2 w2,
           mrbc_ticks NDEBUG k s1 = Ok (tt, s2)
           ∧ tcbs s2 !! a = Some t2 ∧ state t2 = TASKSTATE_WAITING
           ∧ queue_of Q_WAITING s2 = Some w2 ∧ a ∈ w2)
    ∧ ∃ s3 t3 r3,
        mrbc_ticks NDEBUG (Z.to_nat d) s1 = Ok (tt, s3)
        ∧ tcbs s3 !! a = Some t3 ∧ state t3 = TASKSTATE_READY
        ∧ timeslice t3 = TIMESLICE_TICK
        ∧ queue_of Q_READY s3 = Some r3 ∧ a ∈ r3.
Proof.
  intros Hinv%invariant_inv Hr%queue_of_queues Hin Ha Hms d.
  rewrite <- Hr in Hin.
  destruct (mrbc_sleep_ms_spec NDEBUG s _ a t ms Hinv Hin Ha)
    as (s1 & t1 & v & Hrun & Hinv1 & Ht1 & E1 & _ & _ & _ & _ & Hk1).
  assert (Hf := E1). apply set_next_None_fields in Hf. simpl in Hf.
  destruct Hf as (_ & _ & _ & Est & Ers & Ewk & _).
  assert (1 <= d <= 2 ^ 32) as Hd.
  { unfold d. destruct (Z.eqb_spec ms 0); lia. }
  assert (to_uint32 (tick_ s + ms) = to_uint32 (tick_ s + d)) as Hwk.
  { unfold d. destruct (Z.eqb_spec ms 0) as [->|]; [|done].
    unfold to_uint32.
    replace (tick_ s + 2 ^ 32) with (tick_ s + 0 + 1 * 2 ^ 32) by lia.
    by rewrite Z_mod_plus_full. }
  rewrite Hwk in Ewk. clearbody d.
  assert (a ∈ moved (prio s1) a Q_WAITING (queues s) Q_WAITING) as Hin1
    by (apply elem_of_moved; by left).
  assert (∀ k : nat, Z.of_nat k < d →
            ∃ s2 L2 x2,
              mrbc_ticks NDEBUG k s1 = Ok (tt, s2) ∧ inv s2 L2
              ∧ to_uint32 (tick_ s2) = to_uint32 (tick_ s1 + Z.of_nat k)
              ∧ a ∈ L2 Q_WAITING ∧ tcbs s2 !! a = Some x2
              ∧ set_next None x2 = set_next None t1) as Hkeep.
  { intros k Hk. apply (mrbc_ticks_keep_waiting k s1 _ a t1 Hinv1 Hin1 Ht1).
    intros j Hj _. rewrite Ewk, Hk1.
    replace (tick_ s + d)
      with (tick_ s + Z.of_nat j + (d - Z.of_nat j)) by lia.
    apply to_uint32_add_ne. lia. }
  exists s1. split; [done|]. split.
  - intros k Hk.
    destruct (Hkeep k Hk) as (s2 & L2 & x2 & Hrun2 & Hinv2 & _ & Hin2 & Hx2 & E2).
    exists s2, x2, (L2 Q_WAITING). split; [done|]. split; [done|].
    apply set_next_None_fields in E2. destruct E2 as (_ & _ & _ & -> & _).
    split; [done|]. split; [apply rep_queue_of, Hinv2|done].
  - destruct (Hkeep (Z.to_nat (d - 1)) ltac:(lia))
      as (s2 & L2 & x2 & Hrun2 & Hinv2 & Hk2 & Hin2 & Hx2 & E2).
    destruct (mrbc_tick_spec NDEBUG s2 L2 Hinv2)
      as (s3 & L3 & Hrun3 & Hinv3 & Hk3 & _ & Hpost).
    specialize (Hpost a x2 Hin2 Hx2).
    assert (Hf := E2). apply set_next_None_fields in Hf.
    destruct Hf as (_ & _ & _ & _ & Ers2 & Ewk2 & _).
    assert (to_uint32 (tick_ s2 + 1) = wakeup_tick x2) as Hdue.
    { rewrite <- to_uint32_add_l, Hk2, to_uint32_add_l, Ewk2, Ewk, Hk1.
      f_equal. lia. }
    rewrite Hdue, Ers2, Ers, Z.eqb_refl, bool_decide_eq_true_2 in Hpost
      by done.
    destruct Hpost as (Hin3 & x3 & Hx3 & E3).
    apply set_next_None_fields in E3. simpl in E3.
    destruct E3 as (_ & _ & Ets3 & Est3 & _).
    exists s3, x3, (L3 Q_READY).
    replace (Z.to_nat d) with (Z.to_nat (d - 1) + 1)%nat by lia.
    rewrite mrbc_ticks_app. erewrite bind_ok by exact Hrun2.
    simpl mrbc_ticks. erewrite bind_ok by exact Hrun3.
    split; [done|]. do 3 (split; [done|]).
    split; [apply rep_queue_of, Hinv3|done].
Qed.

(** ** Yielding the processor *)

Lemma inv_store_state s L a t t' :
  inv s L → tcbs s !! a = Some t →
  next t' = next t → pp_q_of (state t') = pp_q_of (state t) →
  vm t' = vm t →
  inv (with_tcbs (<[a := t']> (tcbs s)) s) L.
Proof.
  intros (Hrep & Hag & Hvm) Ha Hn Hs Hv. split; [|split].
  - by eapply rep_store.
  - intros q c Hc. destruct (Hag q c Hc) as (x & Hx & Hxs).
    cbn [tcbs with_tcbs]. destruct (decide (a = c)) as [->|].
    + rewrite lookup_insert_eq. exists t'. split; [done|].
      rewrite Hs. congruence.
    + rewrite lookup_insert_ne by done. eauto.
  - intros q c Hq Hc. destruct (Hvm q c Hq Hc) as (x & v & Hx & Hxv & Hvs).
    cbn [tcbs vms with_tcbs]. destruct (decide (a = c)) as [->|].
    + rewrite lookup_insert_eq. exists t', v. split; [done|].
      split; [|done]. rewrite Hv. congruence.
    + rewrite lookup_insert_ne by done. eauto.
Qed.

Lemma inv_flag s L v z :
  inv s L → is_Some (vms s !! v) →
  inv (with_vms (<[v := mkVm z]> (vms s)) s) L.
Proof.
  intros Hinv Hv. apply inv_with_vms; [done|]. intros v' Hv'.
  destruct (decide (v = v')) as [->|].
  - by rewrite lookup_insert_eq.
  - by rewrite lookup_insert_ne.
Qed.

(** The queue lists of a memory that satisfies [inv] for two families of
    lists. *)
Lemma inv_unique s L L' q : inv s L → inv s L' → L q = L' q.
Proof.
  intros ([H _] & _) ([H' _] & _). eapply is_queue_inj; [apply H|apply H'].
Qed.

Lemma mrbc_relinquish_spec s L a t v :
  inv s L → tcbs s !! a = Some t → vm t = Some v → is_Some (vms s !! v) →
  let s' := with_vms (<[v := mkVm 1]> (vms s))
              (with_tcbs (<[a := set_timeslice 0 t]> (tcbs s)) s) in
  mrbc_relinquish (Some a) s = Ok (tt, s') ∧ inv s' L.
Proof.
  intros Hinv Ha Hv Hvs s'. split.
  - unfold mrbc_relinquish. mrun. rewrite Hv.
    by rewrite set_flag_preemption_ok'.
  - apply (inv_flag (with_tcbs (<[a := set_timeslice 0 t]> (tcbs s)) s));
      [|done].
    by apply (inv_store s L a t).
Qed.

Lemma mrbc_change_priority_spec s L a t v p :
  inv s L → tcbs s !! a = Some t → vm t = Some v → is_Some (vms s !! v) →
  let t' := set_timeslice 0
              (set_priority_preemption (to_uint8 p)
                 (set_priority (to_uint8 p) t)) in
  let s' := with_vms (<[v := mkVm 1]> (vms s))
              (with_tcbs (<[a := t']> (tcbs s)) s) in
  mrbc_change_priority (Some a) p s = Ok (tt, s') ∧ inv s' L.
Proof.
  intros Hinv Ha Hv Hvs t' s'. split.
  - unfold mrbc_change_priority. mrun. rewrite Hv.
    rewrite set_flag_preemption_ok' by done. cbn [tcbs vms with_tcbs].
    by rewrite !insert_insert_eq.
  - apply (inv_flag (with_tcbs (<[a := t']> (tcbs s)) s)); [|done].
    by apply (inv_store s L a t).
Qed.

(** The memory the dispatcher hands to the VM satisfies the invariant. *)
Lemma inv_dispatched s L a t v :
  inv s L → a ∈ L Q_READY → tcbs s !! a = Some t → vm t = Some v →
  inv (dispatched s a t v) L.
Proof.
  intros Hinv Hin Ha Hv. unfold dispatched.
  destruct (proj1 (proj2 Hinv) Q_READY a Hin) as (t' & Ht' & Hst).
  rewrite Ha in Ht'. injection Ht' as <-.
  destruct (proj2 (proj2 Hinv) Q_READY a) as (t' & v' & Ht' & Hv' & Hvs);
    [done|done|].
  rewrite Ha in Ht'. injection Ht' as <-.
  assert (v' = v) as -> by congruence.
  apply (inv_flag
           (with_tcbs (<[a := set_state TASKSTATE_RUNNING t]> (tcbs s)) s));
    [|done].
  by apply (inv_store_state s L a t).
Qed.

Section Yield.

Variable mrbc_vm_run : ptr → M Z.
Variable hal_idle_cpu : M unit.
Variable irq_ticks : nat → nat.

(** One turn of the dispatcher up to the return of the VM. *)
Lemma mrbc_run_body_runs_vm s a t v res s2 :
  q_ready_ s = Some a → tcbs s !! a = Some t → vm t = Some v →
  is_Some (vms s !! v) →
  mrbc_vm_run (Some v) (dispatched s a t v) = Ok (res, s2) → 0 <= res →
  mrbc_run_body NDEBUG mrbc_vm_run hal_idle_cpu irq_ticks s
  = (t <- load (Some a);;
     (if bool_decide (state t = TASKSTATE_RUNNING) then
        store (Some a) (set_state TASKSTATE_READY);;
        t <- load (Some a);;
        if timeslice t =? 0 then
          q_delete_task NDEBUG (Some a);;
          store (Some a) (set_timeslice TIMESLICE_TICK);;
          q_insert_task NDEBUG (Some a)
        else ret tt
      else ret tt);;
     hal_enable_irq;;
     ret Continue) s2.
Proof.
  intros Hhd Ha Hv Hvs Hvm Hres.
  unfold mrbc_run_body, hal_disable_irq.
  erewrite bind_ok by apply get_q_ok. cbn [q_head]. rewrite Hhd. mrun.
  rewrite Hv. erewrite bind_ok by (by apply set_flag_preemption_ok').
  mrun. rewrite Hv. fold (dispatched s a t v).
  erewrite bind_ok by exact Hvm.
  rewrite (proj2 (Z.ltb_ge _ _)) by lia.
  by rewrite bind_ret.
Qed.

(** The turn in which the task comes back [RUNNING] with its timeslice used
    up. *)
Lemma mrbc_run_body_requeues s a t v res s2 L2 t2 :
  q_ready_ s = Some a → tcbs s !! a = Some t → vm t = Some v →
  is_Some (vms s !! v) →
  mrbc_vm_run (Some v) (dispatched s a t v) = Ok (res, s2) → 0 <= res →
  inv s2 L2 → a ∈ L2 Q_READY → tcbs s2 !! a = Some t2 →
  state t2 = TASKSTATE_RUNNING → timeslice t2 = 0 →
  ∃ s3 t3,
    mrbc_run_body NDEBUG mrbc_vm_run hal_idle_cpu irq_ticks s = Ok (Continue, s3)
    ∧ inv s3 (moved (prio s3) a Q_READY L2)
    ∧ tcbs s3 !! a = Some t3
    ∧ set_next None t3
      = set_next None
          (set_timeslice TIMESLICE_TICK (set_state TASKSTATE_READY t2))
    ∧ others_kept a s2 s3
    ∧ vms s3 = vms s2 ∧ mutexes s3 = mutexes s2 ∧ tick_ s3 = tick_ s2.
Proof.
  intros Hhd Ha Hv Hvs Hvm Hres Hinv2 Hin Ht2 Hst Hts.
  set (s2' := with_tcbs (<[a := set_state TASKSTATE_READY t2]> (tcbs s2)) s2).
  assert (inv s2' L2) as Hinv2'.
  { apply (inv_store_state s2 L2 a t2); try done. simpl. by rewrite Hst. }
  destruct (requeue_spec NDEBUG (set_timeslice TIMESLICE_TICK) s2' L2 a
              (set_state TASKSTATE_READY t2) Q_READY Q_READY Hinv2')
    as (s1 & t1 & s3 & t3 & Hrun1 & Ht1 & Hd1 & Hv1 & Hm1 & Hk1 & Hrun2
        & Hinv3 & Hv3 & Hm3 & Hk3 & Ht3 & Hd3 & Hoth); try done.
  { unfold s2'. cbn [tcbs with_tcbs]. by rewrite lookup_insert_eq. }
  rewrite (mrbc_run_body_runs_vm s a t v res s2) by done.
  unfold hal_enable_irq. mrun. rewrite bool_decide_eq_true_2 by done.
  mrun. rewrite Hts. cbn [Z.eqb]. rewrite !bind_bind. fold s2'.
  erewrite bind_ok by exact Hrun1. mrun.
  erewrite bind_ok by exact Hrun2. mrun.
  exists s3, t3. do 4 (split; [done|]). split; [|done].
  intros c Hc. rewrite Hoth by done. unfold s2'. cbn [tcbs with_tcbs].
  by rewrite lookup_insert_ne.
Qed.

(** X10. Round robin.  When the VM hands the processor back with the task
    still [RUNNING] and its timeslice at 0, the dispatcher gives the task a
    full timeslice and requeues it: it is [READY] on the ready queue behind
    every task of equal [priority_preemption], right before the first one of
    a greater key, so that a sorted ready queue stays sorted.  No other
    queue and no VM changes, and the loop goes on. *)
Theorem mrbc_run_round_robin s a t v res s2 r2 t2 :
  q_ready_ s = Some a → tcbs s !! a = Some t → vm t = Some v →
  is_Some (vms s !! v) →
  mrbc_vm_run (Some v) (dispatched s a t v) = Ok (res, s2) → 0 <= res →
  invariant s2 = true → queue_of Q_READY s2 = Some r2 → a ∈ r2 →
  tcbs s2 !! a = Some t2 →
  state t2 = TASKSTATE_RUNNING → timeslice t2 = 0 →
  ∃ s3 t3 l1 l2,
    mrbc_run_body NDEBUG mrbc_vm_run hal_idle_cpu irq_ticks s = Ok (Continue, s3)
    ∧ tcbs s3 !! a = Some t3
    ∧ state t3 = TASKSTATE_READY ∧ timeslice t3 = TIMESLICE_TICK
    ∧ priority_preemption t3 = priority_preemption t2
    ∧ filter (λ c, c ≠ a) r2 = l1 ++ l2
    ∧ queue_of Q_READY s3 = Some (l1 ++ a :: l2)
    ∧ Forall (λ b, prio s2 b <= prio s2 a) l1
    ∧ match l2 with [] => True | b :: _ => prio s2 a < prio s2 b end
    ∧ (sorted_queue s2 r2 = true → sorted_queue s3 (l1 ++ a :: l2) = true)
    ∧ (∀ q, q ≠ Q_READY → queue_of q s3 = queue_of q s2)
    ∧ vms s3 = vms s2
    ∧ invariant s3 = true.
Proof.
  intros Hhd Ha Hv Hvs Hvm Hres Hinv2%invariant_inv Hr2%queue_of_queues Hin
    Ht2 Hst Hts.
  rewrite <- Hr2 in Hin.
  destruct (mrbc_run_body_requeues s a t v res s2 (queues s2) t2)
    as (s3 & t3 & Hrun & Hinv3 & Ht3 & E3 & Hoth & Hv3 & _); try done.
  apply set_next_None_fields in E3. simpl in E3.
  destruct E3 as (_ & Epp & Ets & Est & _).
  assert (∀ c, prio s3 c = prio s2 c) as Hprio
    by (by apply (kept_prio a s2 s3 t2 t3)).
  destruct (insert_by_priority_split (prio s2) a (filter (λ c, c ≠ a) r2))
    as (l1 & l2 & Hl & Hins & Hle & Hgt).
  exists s3, t3, l1, l2. do 5 (split; [done|]). split; [done|]. split.
  { rewrite (rep_queue_of _ _ Q_READY (proj1 Hinv3)). f_equal.
    unfold moved. rewrite decide_True by done. cbv zeta.
    rewrite Hr2, <- Hins. apply insert_by_priority_ext. intros c _.
    apply Hprio. }
  do 2 (split; [done|]). split.
  { unfold sorted_queue. intros Hs.
    rewrite (list_fmap_ext (prio s3) (prio s2)) by (intros; apply Hprio).
    apply ascending_insert; [|done|done]. rewrite <- Hl.
    by apply ascending_filter. }
  split; [|split; [done|by eapply inv_invariant]].
  intros q Hq. rewrite (rep_queue_of _ _ q (proj1 Hinv3)).
  rewrite (rep_queue_of _ _ q (proj1 Hinv2)). f_equal.
  unfold moved. rewrite decide_False by done. cbv zeta.
  apply filter_ne_notin. intros Haq. destruct Hinv2 as ([_ Hd] & _).
  by pose proof (Hd _ _ _ Hin Haq).
Qed.

(** X11. When the VM hands the processor back with a result that is not
    negative, the dispatcher moves no TCB unless the task is [RUNNING] with
    its timeslice at 0.  A task that is no longer [RUNNING], because it went
    to sleep, suspended itself or blocked, is left as that operation put it:
    the turn does not change the memory.  A task that is still [RUNNING] with
    timeslice left becomes [READY] where it is, with the timeslice it has
    left. *)
Theorem mrbc_run_keeps_place s a t v res s2 t2 :
  q_ready_ s = Some a → tcbs s !! a = Some t → vm t = Some v →
  is_Some (vms s !! v) →
  mrbc_vm_run (Some v) (dispatched s a t v) = Ok (res, s2) → 0 <= res →
  tcbs s2 !! a = Some t2 →
  (state t2 ≠ TASKSTATE_RUNNING →
   mrbc_run_body NDEBUG mrbc_vm_run hal_idle_cpu irq_ticks s = Ok (Continue, s2))
  ∧ (state t2 = TASKSTATE_RUNNING → timeslice t2 ≠ 0 →
     mrbc_run_body NDEBUG mrbc_vm_run hal_idle_cpu irq_ticks s
     = Ok (Continue,
           with_tcbs (<[a := set_state TASKSTATE_READY t2]> (tcbs s2)) s2)).
Proof.
  intros Hhd Ha Hv Hvs Hvm Hres Ht2.
  rewrite (mrbc_run_body_runs_vm s a t v res s2) by done.
  unfold hal_enable_irq. split.
  - intros Hst. mrun. by rewrite bool_decide_eq_false_2 by done.
  - intros Hst Hts. mrun. rewrite bool_decide_eq_true_2 by done. mrun.
    by rewrite (proj2 (Z.eqb_neq _ _)) by done.
Qed.

End Yield.

Section GuestTurn.

Variable hal_idle_cpu : M unit.
Variable irq_ticks : nat → nat.

(** One turn of the dispatcher with a guest that comes back [RUNNING] with
    its timeslice at 0 and the queues as they were. *)
Lemma guest_turn_requeues (G : ptr → M Z) s L a r t v s2 t2 :
  inv s L → L Q_READY = a :: r → tcbs s !! a = Some t → vm t = Some v →
  G (Some v) (dispatched s a t v) = Ok (0, s2) → inv s2 L →
  tcbs s2 !! a = Some t2 →
  state t2 = TASKSTATE_RUNNING → timeslice t2 = 0 →
  (∀ c, c ≠ a → prio s2 c = prio s c) →
  ∃ s3 t3 l1 l2,
    mrbc_run_body NDEBUG G hal_idle_cpu irq_ticks s = Ok (Continue, s3)
    ∧ tcbs s3 !! a = Some t3
    ∧ set_next None t3
      = set_next None
          (set_timeslice TIMESLICE_TICK (set_state TASKSTATE_READY t2))
    ∧ r = l1 ++ l2
    ∧ queue_of Q_READY s3 = Some (l1 ++ a :: l2)
    ∧ Forall (λ b, prio s b <= priority_preemption t2) l1
    ∧ match l2 with
      | [] => True
      | b :: _ => priority_preemption t2 < prio s b
      end
    ∧ (sorted_queue s r = true → sorted_queue s3 (l1 ++ a :: l2) = true)
    ∧ invariant s3 = true.
Proof.
  intros Hinv HLr Ha Hv HG Hinv2 Ht2 Hst Hts Hprio2.
  assert (a ∈ L Q_READY) as Hin by (rewrite HLr; set_solver).
  assert (q_ready_ s = Some a) as Hhd.
  { pose proof (proj1 (proj1 Hinv) Q_READY) as Hq. rewrite HLr in Hq.
    by destruct Hq as [Hq _]. }
  destruct (proj2 (proj2 Hinv) Q_READY a) as (t' & v' & Ht' & Hv' & Hvs);
    [done|done|].
  rewrite Ha in Ht'. injection Ht' as <-.
  assert (v' = v) as -> by congruence.
  destruct (mrbc_run_body_requeues G hal_idle_cpu irq_ticks s a t v 0 s2 L t2)
    as (s3 & t3 & Hrun & Hinv3 & Ht3 & E3 & Hoth & _); try done.
  assert (Hf := E3). apply set_next_None_fields in Hf. simpl in Hf.
  destruct Hf as (_ & Epp & _).
  assert (∀ c, prio s3 c = prio s2 c) as Hprio3
    by (by apply (kept_prio a s2 s3 t2 t3)).
  assert (a ∉ r) as Har.
  { pose proof (rep_NoDup _ _ Q_READY (proj1 Hinv)) as Hnd.
    rewrite HLr in Hnd. by apply NoDup_cons in Hnd as [? _]. }
  assert (prio s3 a = priority_preemption t2) as Hpa
    by (unfold prio; by rewrite Ht3).
  assert (∀ c, c ∈ r → prio s3 c = prio s c) as Hpr.
  { intros c Hc. rewrite Hprio3. apply Hprio2. by intros ->. }
  destruct (insert_by_priority_split (prio s3) a r)
    as (l1 & l2 & Hl & Hins & Hle & Hgt).
  exists s3, t3, l1, l2. do 4 (split; [done|]). split.
  { rewrite (rep_queue_of _ _ Q_READY (proj1 Hinv3)). f_equal.
    unfold moved. rewrite decide_True by done. cbv zeta.
    rewrite HLr, filter_cons_False by naive_solver.
    by rewrite filter_ne_notin. }
  split.
  { rewrite Forall_forall in Hle |- *. intros b Hb.
    rewrite <- Hpa, <- Hpr; [by apply Hle|]. rewrite Hl. set_solver. }
  split.
  { destruct l2 as [|b l2]; [done|].
    rewrite <- Hpa, <- Hpr; [done|]. rewrite Hl. set_solver. }
  split; [|by eapply inv_invariant].
  unfold sorted_queue. intros Hs. apply ascending_insert; [|done|done].
  rewrite <- Hl. erewrite list_fmap_ext; [exact Hs|].
  intros i c Hc. apply Hpr. by eapply list_elem_of_lookup_2.
Qed.

(** The guest's VM is the one of the task at the head of the ready queue:
    the bindings find that task. *)
Lemma find_requested_task_dispatched s L a r t v :
  inv s L → L Q_READY = a :: r → tcbs s !! a = Some t → vm t = Some v →
  find_requested_task (Some v) (dispatched s a t v)
  = Ok (Some a, dispatched s a t v).
Proof.
  intros Hinv HLr Ha Hv.
  assert (a ∈ L Q_READY) as Hin by (rewrite HLr; set_solver).
  pose proof (inv_dispatched s L a t v Hinv Hin Ha Hv) as Hinvd.
  rewrite (find_requested_task_spec _ _ (a :: r)).
  - simpl. unfold runs_vm, dispatched. cbn [tcbs with_vms with_tcbs].
    rewrite lookup_insert_eq. simpl. by rewrite bool_decide_eq_true_2.
  - rewrite <- HLr. apply rep_queue_of, Hinvd.
Qed.

(** X12. A task that calls [relinquish] gives the processor to its peers:
    at the end of the turn of the dispatcher it is [READY] with a full
    timeslice, on the ready queue behind every task of equal
    [priority_preemption] and right before the first one of a greater
    key. *)
Theorem relinquish_yields_to_peers s a r t :
  invariant s = true → queue_of Q_READY s = Some (a :: r) →
  tcbs s !! a = Some t →
  ∃ s3 t3 l1 l2,
    mrbc_run_body NDEBUG guest_relinquishes hal_idle_cpu irq_ticks s
    = Ok (Continue, s3)
    ∧ tcbs s3 !! a = Some t3
    ∧ state t3 = TASKSTATE_READY ∧ timeslice t3 = TIMESLICE_TICK
    ∧ priority_preemption t3 = priority_preemption t
    ∧ r = l1 ++ l2
    ∧ queue_of Q_READY s3 = Some (l1 ++ a :: l2)
    ∧ Forall (λ b, prio s b <= prio s a) l1
    ∧ match l2 with [] => True | b :: _ => prio s a < prio s b end
    ∧ invariant s3 = true.
Proof.
  intros Hinv%invariant_inv Hr%queue_of_queues Ha.
  set (L := queues s) in *.
  assert (a ∈ L Q_READY) as Hin by (rewrite Hr; set_solver).
  destruct (proj2 (proj2 Hinv) Q_READY a) as (t' & v & Ht' & Hv & Hvs);
    [done|done|].
  rewrite Ha in Ht'. injection Ht' as <-.
  pose proof (inv_dispatched s L a t v Hinv Hin Ha Hv) as Hinvd.
  set (tr := set_state TASKSTATE_RUNNING t).
  assert (tcbs (dispatched s a t v) !! a = Some tr) as Hd
    by (unfold dispatched; cbn [tcbs with_vms with_tcbs];
        by rewrite lookup_insert_eq).
  destruct (mrbc_relinquish_spec (dispatched s a t v) L a tr v Hinvd Hd Hv)
    as [Hrel Hinv2].
  { unfold dispatched. cbn [vms with_vms]. by rewrite lookup_insert_eq. }
  match type of Hrel with _ = Ok (_, ?m) => set (s2 := m) in * end.
  destruct (guest_turn_requeues guest_relinquishes s L a r t v s2
              (set_timeslice 0 tr) Hinv Hr Ha Hv)
    as (s3 & t3 & l1 & l2 & Hrun & Ht3 & E3 & Hl & Hq3 & Hle & Hgt & _ & Hi3);
    try done.
  { unfold guest_relinquishes, c_relinquish. rewrite bind_bind.
    erewrite bind_ok by (by eapply find_requested_task_dispatched).
    by erewrite bind_ok by exact Hrel. }
  { unfold s2. cbn [tcbs with_vms with_tcbs]. by rewrite lookup_insert_eq. }
  { intros c Hc. unfold prio, s2, dispatched.
    cbn [tcbs with_vms with_tcbs]. by rewrite !lookup_insert_ne. }
  apply set_next_None_fields in E3. simpl in E3.
  destruct E3 as (_ & Epp & Ets & Est & _).
  assert (prio s a = priority_preemption t) as Hpa
    by (unfold prio; by rewrite Ha).
  exists s3, t3, l1, l2. rewrite Hpa. by do 9 (split; [done|]).
Qed.

(** X13. [change_priority] takes effect at the end of the caller's slice.
    The new priority is the argument taken modulo 256, as the cast to
    [uint8_t] leaves it; at the end of the turn of the dispatcher the task is
    [READY] with a full timeslice, on the ready queue behind every task whose
    key is not above the new one and right before the first task of a greater
    key.  The other tasks of a sorted ready queue and the caller are sorted
    again. *)
Theorem change_priority_takes_effect s a r t v0 x :
  invariant s = true → queue_of Q_READY s = Some (a :: r) →
  tcbs s !! a = Some t →
  ∃ s3 t3 l1 l2,
    mrbc_run_body NDEBUG (guest_changes_priority [v0; x]) hal_idle_cpu irq_ticks s
    = Ok (Continue, s3)
    ∧ tcbs s3 !! a = Some t3
    ∧ state t3 = TASKSTATE_READY ∧ timeslice t3 = TIMESLICE_TICK
    ∧ priority t3 = value_i x mod 256
    ∧ priority_preemption t3 = value_i x mod 256
    ∧ r = l1 ++ l2
    ∧ queue_of Q_READY s3 = Some (l1 ++ a :: l2)
    ∧ Forall (λ b, prio s b <= value_i x mod 256) l1
    ∧ match l2 with
      | [] => True
      | b :: _ => value_i x mod 256 < prio s b
      end
    ∧ (sorted_queue s r = true → sorted_queue s3 (l1 ++ a :: l2) = true)
    ∧ invariant s3 = true.
Proof.
  intros Hinv%invariant_inv Hr%queue_of_queues Ha.
  set (L := queues s) in *.
  assert (a ∈ L Q_READY) as Hin by (rewrite Hr; set_solver).
  destruct (proj2 (proj2 Hinv) Q_READY a) as (t' & v & Ht' & Hv & Hvs);
    [done|done|].
  rewrite Ha in Ht'. injection Ht' as <-.
  pose proof (inv_dispatched s L a t v Hinv Hin Ha Hv) as Hinvd.
  set (tr := set_state TASKSTATE_RUNNING t).
  assert (tcbs (dispatched s a t v) !! a = Some tr) as Hd
    by (unfold dispatched; cbn [tcbs with_vms with_tcbs];
        by rewrite lookup_insert_eq).
  destruct (mrbc_change_priority_spec (dispatched s a t v) L a tr v
              (value_i x) Hinvd Hd Hv)
    as [Hchg Hinv2].
  { unfold dispatched. cbn [vms with_vms]. by rewrite lookup_insert_eq. }
  match type of Hchg with _ = Ok (_, ?m) => set (s2 := m) in * end.
  destruct (guest_turn_requeues (guest_changes_priority [v0; x]) s L a r t v
              s2 (set_timeslice 0
                   (set_priority_preemption (to_uint8 (value_i x))
                      (set_priority (to_uint8 (value_i x)) tr)))
              Hinv Hr Ha Hv)
    as (s3 & t3 & l1 & l2 & Hrun & Ht3 & E3 & Hl & Hq3 & Hle & Hgt & Hso
        & Hi3); try done.
  { unfold guest_changes_priority, c_change_priority. rewrite bind_bind.
    erewrite bind_ok by (by eapply find_requested_task_dispatched).
    unfold arg. cbn [lookup list_lookup]. rewrite bind_bind, bind_ret.
    by erewrite bind_ok by exact Hchg. }
  { unfold s2. cbn [tcbs with_vms with_tcbs]. by rewrite lookup_insert_eq. }
  { intros c Hc. unfold prio, s2, dispatched.
    cbn [tcbs with_vms with_tcbs]. by rewrite !lookup_insert_ne. }
  apply set_next_None_fields in E3. simpl in E3.
  destruct E3 as (Ep & Epp & Ets & Est & _).
  exists s3, t3, l1, l2. by do 11 (split; [done|]).
Qed.

End GuestTurn.

(** ** The guest bindings on a task that is found *)

(** [mrbc_resume_task] on a TCB of any queue but the dormant one. *)
Lemma mrbc_resume_task_from s L a t q :
  inv s L → a ∈ L q → q ≠ Q_DOMANT → tcbs s !! a = Some t →
  ∃ s' t',
    mrbc_resume_task NDEBUG (Some a) s = Ok (tt, s')
    ∧ inv s' (moved (prio s') a Q_READY L)
    ∧ tcbs s' !! a = Some t'
    ∧ set_next None t' = set_next None (set_state TASKSTATE_READY t)
    ∧ others_kept a s s'
    ∧ mutexes s' = mutexes s ∧ tick_ s' = tick_ s.
Proof.
  intros Hinv Hin Hq Ha.
  set (s0 := with_vms (preempted (tcbs s) (L Q_READY) (vms s)) s).
  assert (inv s0 L) as Hinv0.
  { apply inv_with_vms; [done|]. apply preempted_is_Some. }
  destruct (requeue_spec NDEBUG (set_state TASKSTATE_READY) s0 L a t
              q Q_READY Hinv0 Ha Hin)
    as (s1 & t1 & s2 & t2 & Hrun1 & Ht1 & Hd1 & Hv1 & Hm1 & Hk1 & Hrun2
        & Hinv2 & Hv2 & Hm2 & Hk2 & Ht2 & Hd2 & Hoth); try done.
  unfold mrbc_resume_task, hal_disable_irq, hal_enable_irq. mrun.
  erewrite bind_ok by (by apply preempt_running_spec).
  erewrite bind_ok by exact Hrun1. mrun.
  erewrite bind_ok by exact Hrun2. mrun.
  by exists s2, t2.
Qed.

(** What [find_requested_task] finds is a TCB of the ready queue. *)
Lemma find_requested_task_ready s L vmp :
  inv s L →
  ∃ res, find_requested_task vmp s = Ok (res, s)
         ∧ ∀ a, res = Some a → a ∈ L Q_READY ∧ is_Some (tcbs s !! a).
Proof.
  intros Hinv. exists (find (runs_vm s vmp) (L Q_READY)).
  split; [apply find_requested_task_spec, rep_queue_of, Hinv|].
  intros a (l1 & l2 & Hl & _ & Hrun)%find_split.
  split; [rewrite Hl; set_solver|]. unfold runs_vm in Hrun.
  by destruct (tcbs s !! a).
Qed.

(** X14. The bindings [sleep], [sleep_ms], [relinquish],
    [change_priority], [suspend_task] and [resume_task], called with an
    argument register, return and keep the invariant of the monitor's
    memory, whichever VM calls them and whatever the argument is. *)
Theorem bindings_keep_invariant float_ms s vmp v0 x :
  invariant s = true →
  (∃ s', c_sleep NDEBUG float_ms vmp [v0; x] s = Ok (tt, s')
         ∧ invariant s' = true)
  ∧ (∃ s', c_sleep_ms NDEBUG vmp [v0; x] s = Ok (tt, s')
           ∧ invariant s' = true)
  ∧ (∃ s', c_relinquish vmp [v0; x] s = Ok (tt, s') ∧ invariant s' = true)
  ∧ (∃ s', c_change_priority vmp [v0; x] s = Ok (tt, s')
           ∧ invariant s' = true)
  ∧ (∃ s', c_suspend_task NDEBUG vmp [v0; x] s = Ok (tt, s')
           ∧ invariant s' = true)
  ∧ (∃ s', c_resume_task NDEBUG vmp [v0; x] s = Ok (tt, s')
           ∧ invariant s' = true).
Proof.
  intros Hi. assert (Hinv := invariant_inv _ Hi).
  destruct (find_requested_task_ready s _ vmp Hinv) as (res & Hfind & Hres).
  unfold c_sleep, c_sleep_ms, c_relinquish, c_change_priority,
    c_suspend_task, c_resume_task.
  rewrite !(bind_ok _ _ _ _ _ Hfind).
  destruct res as [a|]; [|by repeat split; exists s].
  destruct (Hres a eq_refl) as [Hin [t Ha]].
  destruct (proj2 (proj2 Hinv) Q_READY a) as (t' & v & Ht' & Hv & Hvs);
    [done|done|].
  rewrite Ha in Ht'. injection Ht' as <-.
  assert (∀ ms, ∃ s', mrbc_sleep_ms NDEBUG (Some a) ms s = Ok (tt, s')
                      ∧ invariant s' = true) as Hsleep.
  { intros ms.
    destruct (mrbc_sleep_ms_spec NDEBUG s _ a t ms Hinv Hin Ha)
      as (s' & _ & _ & Hrun & Hinv' & _).
    exists s'. split; [done|]. by eapply inv_invariant. }
  unfold arg. cbn [lookup list_lookup]. rewrite !bind_ret.
  split; [by destruct (value_tt x); [apply Hsleep|apply Hsleep|exists s]|].
  split; [apply Hsleep|]. split; [|split; [|split]].
  - destruct (mrbc_relinquish_spec s _ a t v Hinv Ha Hv Hvs) as [Hrun Hinv'].
    eexists. split; [exact Hrun|]. by eapply inv_invariant.
  - destruct (mrbc_change_priority_spec s _ a t v (value_i x) Hinv Ha Hv Hvs)
      as [Hrun Hinv'].
    eexists. split; [exact Hrun|]. by eapply inv_invariant.
  - destruct (mrbc_suspend_task_spec NDEBUG s _ a t Hinv Hin Ha)
      as (s' & _ & _ & Hrun & Hinv' & _).
    exists s'. split; [done|]. by eapply inv_invariant.
  - destruct (mrbc_resume_task_from s _ a t Q_READY Hinv Hin) as
      (s' & _ & Hrun & Hinv' & _); [done|done|].
    exists s'. split; [done|]. by eapply inv_invariant.
Qed.

(** X15. The binding [resume_task] looks its task up on the ready queue, so
    the task it resumes is the caller itself: the caller goes behind its
    peers on the ready queue and is [READY]; the suspended, the waiting and
    the dormant queue stay as they are, and no TCB that is [SUSPENDED]
    changes its state. *)
Theorem c_resume_task_requeues_caller s vmp v :
  invariant s = true →
  ∃ s',
    c_resume_task NDEBUG vmp v s = Ok (tt, s')
    ∧ (∀ q, q ≠ Q_READY → queue_of q s' = queue_of q s)
    ∧ (∀ c x, tcbs s !! c = Some x → state x = TASKSTATE_SUSPENDED →
         ∃ x', tcbs s' !! c = Some x' ∧ state x' = TASKSTATE_SUSPENDED)
    ∧ (∀ r a, queue_of Q_READY s = Some r →
         find (runs_vm s vmp) r = Some a →
         ∃ t' l1 l2,
           tcbs s' !! a = Some t' ∧ state t' = TASKSTATE_READY
           ∧ filter (λ c, c ≠ a) r = l1 ++ l2
           ∧ queue_of Q_READY s' = Some (l1 ++ a :: l2)
           ∧ Forall (λ b, prio s b <= prio s a) l1
           ∧ match l2 with [] => True | b :: _ => prio s a < prio s b end)
    ∧ invariant s' = true.
Proof.
  intros Hi. assert (Hinv := invariant_inv _ Hi).
  pose proof (find_requested_task_spec s vmp _
                (rep_queue_of _ _ Q_READY (proj1 Hinv))) as Hfind.
  unfold c_resume_task. rewrite (bind_ok _ _ _ _ _ Hfind).
  destruct (find (runs_vm s vmp) (queues s Q_READY)) as [a|] eqn:Hfa.
  2:{ exists s. split; [done|]. split; [done|]. split; [eauto|].
      split; [|done]. intros r a Hr%queue_of_queues. rewrite <- Hr. by rewrite Hfa. }
  destruct (find_split _ _ _ Hfa) as (r1 & r2 & Hr12 & _ & Hrun).
  assert (a ∈ queues s Q_READY) as Hin by (rewrite Hr12; set_solver).
  unfold runs_vm in Hrun. destruct (tcbs s !! a) as [t|] eqn:Ha; [|done].
  destruct (mrbc_resume_task_from s _ a t Q_READY Hinv Hin)
    as (s' & t' & Hres & Hinv' & Ht' & E & Hoth & _); [done|done|].
  assert (Hf := E). apply set_next_None_fields in Hf. simpl in Hf.
  destruct Hf as (_ & Epp & _ & Est & _).
  exists s'. split; [done|]. split; [|split; [|split]].
  - intros q Hq. rewrite (rep_queue_of _ _ q (proj1 Hinv')).
    rewrite (rep_queue_of _ _ q (proj1 Hinv)). f_equal.
    unfold moved. rewrite decide_False by done. cbv zeta.
    apply filter_ne_notin. intros Haq. destruct Hinv as ([_ Hd] & _).
    by pose proof (Hd _ _ _ Hin Haq).
  - intros c x Hx Hst. destruct (decide (c = a)) as [->|Hc].
    + destruct (proj1 (proj2 Hinv) Q_READY a Hin) as (t0 & Ht0 & Hq0).
      rewrite Hx in Ht0. injection Ht0 as <-. by rewrite Hst in Hq0.
    + specialize (Hoth c Hc). rewrite Hx in Hoth.
      destruct (tcbs s' !! c) as [x'|]; [|done]. exists x'.
      split; [done|].
      assert (set_next None x' = set_next None x) as E'
        by (simpl in Hoth; congruence).
      apply set_next_None_fields in E'. destruct E' as (_&_&_&->&_). done.
  - intros r a' Hr%queue_of_queues Hfa'. rewrite <- Hr, Hfa in Hfa'.
    injection Hfa' as <-.
    assert (∀ c, prio s' c = prio s c) as Hprio
      by (by apply (kept_prio a s s' t t')).
    destruct (insert_by_priority_split (prio s) a (filter (λ c, c ≠ a) r))
      as (l1 & l2 & Hl & Hins & Hle & Hgt).
    exists t', l1, l2. do 3 (split; [done|]). split; [|done].
    rewrite (rep_queue_of _ _ Q_READY (proj1 Hinv')). f_equal.
    unfold moved. rewrite decide_True by done. cbv zeta.
    rewrite Hr, <- Hins. apply insert_by_priority_ext. intros c _.
    apply Hprio.
  - by eapply inv_invariant.
Qed.

(** ** Sorted queues *)

(** The walk of [mrbc_tick] keeps sorted queues sorted. *)
Lemma mrbc_tick_loop_sorted rest :
  ∀ n s L pre flag,
    inv s L → L Q_WAITING = pre ++ rest → (length rest ≤ n)%nat →
    (∀ q, sorted_queue s (L q) = true) →
    ∃ f s' L',
      mrbc_tick_loop NDEBUG n (head rest) flag s = Ok (f, s')
      ∧ inv s' L' ∧ (∀ q, sorted_queue s' (L' q) = true).
Proof.
  induction rest as [|c rest IH]; intros n s L pre flag Hinv HL Hn Hs.
  - exists flag, s, L. split; [by destruct n|done].
  - destruct n as [|n]; [simpl in Hn; lia|].
    assert (Hinv' := Hinv). destruct Hinv' as (Hrep & Hag & Hvm).
    assert (Hq := proj1 Hrep Q_WAITING). rewrite HL in Hq.
    pose proof (is_queue_NoDup _ _ _ Hq) as Hnd.
    apply NoDup_app in Hnd as (_ & Hpre & Hnd).
    apply NoDup_cons in Hnd as [Hc _].
    destruct (is_queue_suffix _ _ _ _ Hq) as (p' & Hq').
    destruct Hq' as (_ & x & Hx & Hrest). apply is_queue_head in Hrest.
    simpl head. simpl mrbc_tick_loop. mrun. rewrite Hrest.
    destruct (bool_decide (reason x = TASKREASON_SLEEP)
              && (wakeup_tick x =? tick_ s)) eqn:Hdue.
    + destruct (requeue_spec NDEBUG
                  (λ y, set_timeslice TIMESLICE_TICK
                          (set_state TASKSTATE_READY y))
                  s L c x Q_WAITING Q_READY Hinv Hx)
        as (s1 & t1 & s2 & t2 & Hrun1 & Ht1 & Hd1 & Hv1 & Hm1 & Hk1 & Hrun2
            & Hinv2 & Hv2 & Hm2 & Hk2 & Ht2 & Hd2 & Hoth); try done.
      { rewrite HL. set_solver. }
      apply set_next_None_fields in Hd2. simpl in Hd2.
      destruct Hd2 as (_ & Epp & _).
      destruct (IH n s2 (moved (prio s2) c Q_READY L) pre 1 Hinv2)
        as (f & s' & L' & Hrun' & Hinv' & Hs').
      { unfold moved. rewrite decide_False by done. cbv zeta.
        rewrite HL, filter_app, filter_cons_False by naive_solver.
        rewrite !filter_ne_notin; [done|done|].
        intros Hcp. by apply (Hpre c Hcp), list_elem_of_here. }
      { simpl in Hn. lia. }
      { apply (sorted_moved s); [done|]. by apply (kept_prio c s s2 x t2). }
      exists f, s', L'.
      erewrite bind_ok by exact Hrun1. mrun. rewrite insert_insert_eq.
      erewrite bind_ok by exact Hrun2. by rewrite Hrun'.
    + destruct (IH n s L (pre ++ [c]) flag Hinv)
        as (f & s' & L' & Hrun' & Hinv' & Hs').
      { by rewrite <- app_assoc. }
      { simpl in Hn. lia. }
      { done. }
      exists f, s', L'. by rewrite Hrun'.
Qed.

Lemma sorted_ext s s' l :
  (∀ c, prio s' c = prio s c) → sorted_queue s' l = sorted_queue s l.
Proof.
  intros Hp. unfold sorted_queue. f_equal. apply list_fmap_ext.
  intros i c _. apply Hp.
Qed.

(** X16. Sorted queues stay sorted.  In a memory whose four queues are
    sorted ascending by [priority_preemption], they are sorted again after
    [mrbc_tick], and after [mrbc_sleep_ms], [mrbc_suspend_task],
    [mrbc_resume_task] and [mrbc_mutex_lock] on a task of the ready queue. *)
Theorem operations_keep_queues_sorted s r a t :
  invariant s = true → queues_sorted s = true →
  queue_of Q_READY s = Some r → a ∈ r → tcbs s !! a = Some t →
  (∃ s', mrbc_tick NDEBUG s = Ok (tt, s') ∧ queues_sorted s' = true)
  ∧ (∀ ms, ∃ s', mrbc_sleep_ms NDEBUG (Some a) ms s = Ok (tt, s')
                 ∧ queues_sorted s' = true)
  ∧ (∃ s', mrbc_suspend_task NDEBUG (Some a) s = Ok (tt, s')
           ∧ queues_sorted s' = true)
  ∧ (∃ s', mrbc_resume_task NDEBUG (Some a) s = Ok (tt, s')
           ∧ queues_sorted s' = true)
  ∧ (∀ m x, mutexes s !! m = Some x →
       ∃ s', mrbc_mutex_lock NDEBUG (Some m) (Some a) s = Ok (0, s')
             ∧ queues_sorted s' = true).
Proof.
  intros Hinv%invariant_inv Hso Hr%queue_of_queues Hin Ha.
  rewrite <- Hr in Hin. set (L := queues s) in *.
  rewrite (queues_sorted_spec s L (proj1 Hinv)) in Hso.
  assert (∀ s' t' q2,
            inv s' (moved (prio s') a q2 L) → others_kept a s s' →
            tcbs s' !! a = Some t' →
            priority_preemption t' = priority_preemption t →
            queues_sorted s' = true) as Hmoved.
  { intros s' t' q2 Hinv' Hoth Ht' Epp.
    apply (queues_sorted_spec s' _ (proj1 Hinv')).
    apply (sorted_moved s); [done|]. by apply (kept_prio a s s' t t'). }
  split; [|split; [|split; [|split]]].
  - destruct (mrbc_tick_head_spec s L Hinv)
      as (s1 & Hrun & Hinv1 & Hk1 & Hm1 & Hh1 & Hhead).
    assert (∀ c, prio s1 c = prio s c) as Hp1.
    { intros c. unfold prio. destruct (L Q_READY) as [|h r0].
      - destruct Hhead as [-> _]. done.
      - destruct Hhead as (x & v & Hx & _ & Hhead).
        destruct (_ && _); destruct Hhead as [-> _]; [|done].
        destruct (decide (c = h)) as [->|].
        + by rewrite lookup_insert_eq, Hx.
        + by rewrite lookup_insert_ne. }
    destruct (mrbc_tick_loop_sorted (L Q_WAITING) (fuel_of s1) s1 L [] 0
                Hinv1)
      as (f & s2 & L2 & Hloop & Hinv2 & Hs2); [done| |
        by intros q; rewrite (sorted_ext s s1)|].
    { pose proof (is_queue_length _ _ _ (proj1 (proj1 Hinv1) Q_WAITING)).
      unfold fuel_of. lia. }
    rewrite <- (is_queue_head _ _ _ (proj1 (proj1 Hinv1) Q_WAITING))
      in Hloop.
    rewrite Hrun. erewrite bind_ok by exact Hloop.
    destruct (negb (f =? 0)).
    + rewrite (preempt_running_spec s2 L2 Hinv2).
      eexists. split; [reflexivity|].
      assert (inv (with_vms (preempted (tcbs s2) (L2 Q_READY) (vms s2)) s2)
                L2) as Hinv3
        by (apply inv_with_vms; [done|apply preempted_is_Some]).
      apply (queues_sorted_spec _ _ (proj1 Hinv3)). exact Hs2.
    + exists s2. split; [done|].
      by apply (queues_sorted_spec _ _ (proj1 Hinv2)).
  - intros ms.
    destruct (mrbc_sleep_ms_spec NDEBUG s L a t ms Hinv Hin Ha)
      as (s' & t' & v & Hrun & Hinv' & Ht' & E & Hoth & _).
    exists s'. split; [done|]. apply (Hmoved s' t' Q_WAITING); try done.
    apply set_next_None_fields in E. by destruct E as (_ & -> & _).
  - destruct (mrbc_suspend_task_spec NDEBUG s L a t Hinv Hin Ha)
      as (s' & t' & v & Hrun & Hinv' & Ht' & E & Hoth & _).
    exists s'. split; [done|]. apply (Hmoved s' t' Q_SUSPENDED); try done.
    apply set_next_None_fields in E. by destruct E as (_ & -> & _).
  - destruct (mrbc_resume_task_from s L a t Q_READY Hinv Hin)
      as (s' & t' & Hrun & Hinv' & Ht' & E & Hoth & _); [done|done|].
    exists s'. split; [done|]. apply (Hmoved s' t' Q_READY); try done.
    apply set_next_None_fields in E. by destruct E as (_ & -> & _).
  - intros m x Hm. destruct (decide (lock x = 0)) as [Hlk|Hlk].
    + eexists. split; [by apply (mrbc_mutex_lock_free s m x)|].
      apply (queues_sorted_spec _ L).
      * by apply inv_with_mutexes.
      * done.
    + destruct (mrbc_mutex_lock_blocks_spec NDEBUG s L a t m x Hinv Hin Ha
                  Hm Hlk)
        as (s' & t' & v & Hrun & Hinv' & Ht' & E & Hoth & _).
      exists s'. split; [done|]. apply (Hmoved s' t' Q_WAITING); try done.
      apply set_next_None_fields in E. by destruct E as (_ & -> & _).
Qed.

(** ** More on the mutex *)

(** X17. [mrbc_mutex_init] on a mutex given by the caller writes the
    unlocked initial value over whatever the mutex held, a lock and its owner
    included, and changes nothing else: no TCB and no queue.  The next
    [mrbc_mutex_lock] takes the mutex without blocking.  Called with [NULL],
    it returns [NULL] when the allocator does. *)
Theorem mrbc_mutex_init_frees mrbc_raw_alloc s m tcbp :
  mrbc_mutex_init mrbc_raw_alloc (Some m) s
  = Ok (Some m, with_mutexes (<[m := mkMutex 0 None]> (mutexes s)) s)
  ∧ bind (mrbc_mutex_init mrbc_raw_alloc (Some m))
      (λ r, mrbc_mutex_lock NDEBUG r tcbp) s
    = Ok (0, with_mutexes (<[m := mkMutex 1 tcbp]> (mutexes s)) s)
  ∧ ∀ s', mrbc_raw_alloc s = Ok (None, s') →
          mrbc_mutex_init mrbc_raw_alloc None s = Ok (None, s').
Proof.
  assert (mrbc_mutex_init mrbc_raw_alloc (Some m) s
          = Ok (Some m, with_mutexes (<[m := mkMutex 0 None]> (mutexes s)) s))
    as Hinit by done.
  split; [done|]. split.
  - erewrite bind_ok by exact Hinit.
    rewrite (mrbc_mutex_lock_free _ m (mkMutex 0 None)); try done.
    + cbn [mutexes with_mutexes]. rewrite insert_insert_eq. by destruct s.
    + cbn [mutexes with_mutexes]. by rewrite lookup_insert_eq.
  - intros s' Halloc. unfold mrbc_mutex_init.
    by erewrite bind_ok by exact Halloc.
Qed.

(** X18. [mrbc_mutex_unlock] checks by assertion only that the caller owns
    the mutex and that the mutex is locked: where assertions are compiled
    in, a call by another task or on an unlocked mutex fails the assertion;
    compiled with [NDEBUG], the caller is not looked at, and the call does
    what a call by the owner would do. *)
Theorem mrbc_mutex_unlock_checks_by_assert s m x tcbp :
  mutexes s !! m = Some x → tcb x ≠ tcbp ∨ lock x ≠ 1 →
  mrbc_mutex_unlock false (Some m) tcbp s = Err AssertionFailed
  ∧ mrbc_mutex_unlock true (Some m) tcbp s
    = mrbc_mutex_unlock true (Some m) (tcb x) s.
Proof.
  intros Hm Hbad. split; [|done].
  unfold mrbc_mutex_unlock.
  erewrite bind_ok by (by apply load_mutex_ok).
  destruct (decide (tcb x = tcbp)) as [Ho|Ho].
  - erewrite bind_ok by (apply assert_ok; by apply bool_decide_eq_true).
    erewrite bind_ok by (by apply load_mutex_ok).
    destruct Hbad as [?|Hlk]; [done|]. unfold assert, bind. simpl.
    by rewrite (proj2 (Z.eqb_neq _ _) Hlk).
  - unfold assert, bind. simpl. by rewrite bool_decide_eq_false_2.
Qed.

(** ** The build without a timer *)

(** One slice of a guest that calls [relinquish]. *)
Lemma mrbc_run_slices_relinquish s L a r t n res :
  inv s L → L Q_READY = a :: r → tcbs s !! a = Some t →
  state t = TASKSTATE_RUNNING → 0 < timeslice t →
  ∃ s' t',
    mrbc_run_slices guest_relinquishes (S n) (Some a) res s
    = mrbc_run_slices guest_relinquishes n (Some a) 0 s'
    ∧ inv s' L ∧ tcbs s' !! a = Some t'
    ∧ state t' = TASKSTATE_RUNNING ∧ timeslice t' = 255.
Proof.
  intros Hinv HLr Ha Hst Hts.
  assert (a ∈ L Q_READY) as Hin by (rewrite HLr; set_solver).
  destruct (proj2 (proj2 Hinv) Q_READY a) as (t0 & v & Ht0 & Hv & Hvs);
    [done|done|].
  rewrite Ha in Ht0. injection Ht0 as <-.
  set (sA := with_vms (<[v := mkVm 1]> (vms s)) s).
  assert (inv sA L) as HinvA by by apply inv_flag.
  assert (find_requested_task (Some v) sA = Ok (Some a, sA)) as Hfind.
  { rewrite (find_requested_task_spec _ _ (a :: r)).
    - simpl. unfold runs_vm. cbn [tcbs sA with_vms]. rewrite Ha, Hv.
      by rewrite bool_decide_eq_true_2.
    - rewrite <- HLr. apply rep_queue_of, HinvA. }
  destruct (mrbc_relinquish_spec sA L a t v HinvA Ha Hv) as [Hrel HinvB].
  { unfold sA. cbn [vms with_vms]. by rewrite lookup_insert_eq. }
  match type of Hrel with _ = Ok (_, ?m) => set (sB := m) in * end.
  assert (guest_relinquishes (Some v) sA = Ok (0, sB)) as Hguest.
  { unfold guest_relinquishes, c_relinquish. rewrite bind_bind.
    erewrite bind_ok by exact Hfind. by erewrite bind_ok by exact Hrel. }
  assert (tcbs sB !! a = Some (set_timeslice 0 t)) as HaB
    by (unfold sB; cbn [tcbs with_vms with_tcbs]; by rewrite lookup_insert_eq).
  set (t' := set_timeslice 255 (set_timeslice 0 t)).
  exists (with_tcbs (<[a := t']> (tcbs sB)) sB), t'.
  split; [|split; [by apply (inv_store sB L a (set_timeslice 0 t))|]].
  - simpl mrbc_run_slices. mrun. rewrite (proj2 (Z.ltb_lt _ _) Hts), Hv.
    erewrite bind_ok by (by apply set_flag_preemption_ok'). fold sA.
    mrun. rewrite Hv. erewrite bind_ok by exact Hguest. mrun.
    cbn [Z.ltb Z.compare]. mrun. rewrite Hst.
    by rewrite bool_decide_eq_true_2.
  - cbn [tcbs with_tcbs]. by rewrite lookup_insert_eq.
Qed.

(** X19. In the build with [MRBC_NO_TIMER], [relinquish] does not give up
    the processor.  The binding clears the caller's timeslice, and the
    dispatcher's [tcb->timeslice--] that follows takes the [uint8_t] from 0 to
    255: the task is still [RUNNING] and the loop over the slices goes on.  A
    guest that relinquishes in every slice never leaves the loop, however
    many slices are followed. *)
Theorem relinquish_keeps_processor_without_timer s a r t :
  invariant s = true → queue_of Q_READY s = Some (a :: r) →
  tcbs s !! a = Some t →
  state t = TASKSTATE_RUNNING → 0 < timeslice t →
  (∀ n res, ∃ s' t',
     mrbc_run_slices guest_relinquishes (S n) (Some a) res s
     = mrbc_run_slices guest_relinquishes n (Some a) 0 s'
     ∧ tcbs s' !! a = Some t'
     ∧ state t' = TASKSTATE_RUNNING ∧ timeslice t' = 255)
  ∧ ∀ n res,
      mrbc_run_slices guest_relinquishes n (Some a) res s = Err OutOfFuel.
Proof.
  intros Hinv%invariant_inv Hr%queue_of_queues Ha Hst Hts.
  set (L := queues s) in *. split.
  - intros n res.
    destruct (mrbc_run_slices_relinquish s L a r t n res)
      as (s' & t' & Hrun & _ & Ht' & ?); try done.
    by exists s', t'.
  - intros n. clearbody L. revert s t Hinv Ha Hst Hts.
    induction n as [|n IH]; intros s t Hinv Ha Hst Hts res.
    + simpl. mrun. by rewrite (proj2 (Z.ltb_lt _ _) Hts).
    + destruct (mrbc_run_slices_relinquish s L a r t n res)
        as (s' & t' & Hrun & Hinv' & Ht' & Hst' & Hts'); try done.
      rewrite Hrun. apply (IH s' t'); try done. lia.
Qed.

(** ** Creating a task *)

Lemma rep_fresh s s' L a :
  rep s L → (∀ q, a ∉ L q) →
  (∀ c, c ≠ a → tcbs s' !! c = tcbs s !! c) →
  (∀ q, q_head q s' = q_head q s) →
  rep s' L.
Proof.
  intros [Hq Hd] Ha Ht Hh. split; [|done]. intros q. rewrite Hh.
  eapply is_queue_ext; [|apply Hq]. intros c Hc. rewrite Ht; [done|].
  intros ->. by apply (Ha q).
Qed.

Section CreateFresh.

Variable mrbc_raw_alloc : M ptr.
Variable MRBC_TCB_INITIALIZER : MrbcTcb.
Variable mrbc_vm_open : M ptr.
Variable mrbc_load_mrb : ptr → list Z → M Z.
Variable mrbc_vm_begin : ptr → M unit.

(** X20. [mrbc_create_task] without a TCB of the caller's: with a TCB from
    the allocator, a VM that opens and bytecode that loads, the new task is
    returned in the state of [MRBC_TCB_INITIALIZER], with a full timeslice,
    [priority_preemption] equal to the initial priority and the VM as its
    [vm]; it is on the queue of its state, behind every task whose key is not
    above its own and right before the first one of a greater key.  The
    other TCBs keep their fields and the other queues their order. *)
Theorem mrbc_create_task_fresh vm_code s a v q l :
  queues_wf s = true → tcbs s !! a = None →
  mrbc_raw_alloc s = Ok (Some a, s) →
  state MRBC_TCB_INITIALIZER ≠ TASKSTATE_DOMANT →
  pp_q_of (state MRBC_TCB_INITIALIZER) = Some q →
  returns_on_vms mrbc_vm_open (Some v) →
  returns_on_vms (mrbc_load_mrb (Some v) vm_code) 0 →
  returns_on_vms (mrbc_vm_begin (Some v)) tt →
  queue_of q s = Some l →
  ∃ s' t' l1 l2,
    mrbc_create_task NDEBUG mrbc_raw_alloc MRBC_TCB_INITIALIZER mrbc_vm_open
      mrbc_load_mrb mrbc_vm_begin vm_code None s = Ok (Some a, s')
    ∧ tcbs s' !! a = Some t'
    ∧ state t' = state MRBC_TCB_INITIALIZER
    ∧ timeslice t' = TIMESLICE_TICK
    ∧ priority t' = priority MRBC_TCB_INITIALIZER
    ∧ priority_preemption t' = priority MRBC_TCB_INITIALIZER
    ∧ vm t' = Some v
    ∧ l = l1 ++ l2
    ∧ queue_of q s' = Some (l1 ++ a :: l2)
    ∧ Forall (λ b, prio s b <= priority MRBC_TCB_INITIALIZER) l1
    ∧ match l2 with
      | [] => True
      | b :: _ => priority MRBC_TCB_INITIALIZER < prio s b
      end
    ∧ (∀ q', q' ≠ q → queue_of q' s' = queue_of q' s)
    ∧ (∀ c, c ≠ a →
         set_next None <$> tcbs s' !! c = set_next None <$> tcbs s !! c)
    ∧ mutexes s' = mutexes s ∧ tick_ s' = tick_ s.
Proof.
  intros Hrep%queues_wf_rep Hfresh Halloc Hnd Hq Hopen Hload Hbegin
    Hl%queue_of_queues.
  set (L := queues s) in *.
  assert (∀ q', a ∉ L q') as Hnot.
  { intros q' Hin. destruct (is_queue_dom _ _ _ _ (proj1 Hrep q') Hin) as [x Hx].
    by rewrite Hfresh in Hx. }
  set (t1 := set_priority_preemption (priority MRBC_TCB_INITIALIZER)
               (set_timeslice TIMESLICE_TICK MRBC_TCB_INITIALIZER)).
  set (t2 := set_vm (Some v) t1).
  unfold mrbc_create_task, hal_disable_irq, hal_enable_irq.
  erewrite bind_ok by (erewrite bind_ok by exact Halloc; reflexivity).
  mrun. mrun.
  rewrite !insert_insert_eq. fold t1.
  rewrite bool_decide_eq_false_2 by done. cbn [negb].
  rewrite ?bind_bind.
  match goal with |- context [bind mrbc_vm_open _ ?m] =>
    destruct (Hopen m) as (vs1 & Ho) end.
  erewrite bind_ok by exact Ho. mrun. rewrite insert_insert_eq. fold t2.
  rewrite ?bind_bind.
  match goal with |- context [bind (mrbc_load_mrb _ _) _ ?m] =>
    destruct (Hload m) as (vs2 & Hlo) end.
  erewrite bind_ok by exact Hlo. cbn [Z.eqb negb]. mrun.
  rewrite ?bind_bind.
  match goal with |- context [bind (mrbc_vm_begin _) _ ?m] =>
    destruct (Hbegin m) as (vs3 & Hb) end.
  erewrite bind_ok by exact Hb. mrun.
  match goal with |- context [bind (q_insert_task _ _) _ ?m] =>
    set (s5 := m) end.
  assert (tcbs s5 = <[a := t2]> (tcbs s)) as Ht5 by done.
  assert (∀ q', q_head q' s5 = q_head q' s) as Hh5 by (by intros []).
  assert (rep s5 L) as Hrep5.
  { apply (rep_fresh s s5 L a); try done. intros c Hc. rewrite Ht5.
    by rewrite lookup_insert_ne. }
  assert (∀ c, c ≠ a → prio s5 c = prio s c) as Hp5.
  { intros c Hc. unfold prio. rewrite Ht5. by rewrite lookup_insert_ne. }
  destruct (q_insert_task_rep NDEBUG s5 L a t2 q Hrep5)
    as (s6 & Hrun & Hrep6 & Hrl); [by rewrite Ht5, lookup_insert_eq|done|done|].
  erewrite bind_ok by exact Hrun. mrun.
  destruct Hrl as (Hv6 & Hm6 & Hk6 & Hh6 & Hrh6).
  destruct (relinked_heap_lookup _ _ _ a t2 Hrh6) as (t' & Ht' & E);
    [by rewrite Ht5, lookup_insert_eq|].
  apply set_next_None_fields in E. simpl in E.
  destruct E as (Ep & Epp & Ets & Est & _ & _ & _ & Evm).
  destruct (insert_by_priority_split (prio s5) a (L q))
    as (l1 & l2 & Hl12 & Hins & Hle & Hgt).
  assert (prio s5 a = priority MRBC_TCB_INITIALIZER) as Hpa
    by (unfold prio; by rewrite Ht5, lookup_insert_eq).
  exists s6, t', l1, l2. do 7 (split; [done|]).
  split; [by rewrite <- Hl|]. split.
  { rewrite (rep_queue_of _ _ q Hrep6). by rewrite fn_lookup_insert, Hins. }
  split.
  { rewrite Forall_forall in Hle |- *. intros b Hbl.
    rewrite <- Hpa, <- Hp5; [by apply Hle|]. intros ->. apply (Hnot q).
    rewrite Hl12. set_solver. }
  split.
  { destruct l2 as [|b l2]; [done|]. rewrite <- Hpa, <- Hp5; [done|].
    intros ->. apply (Hnot q). rewrite Hl12. set_solver. }
  split.
  { intros q' Hq'. rewrite (rep_queue_of _ _ q' Hrep6).
    rewrite fn_lookup_insert_ne by done. symmetry.
    by apply rep_queue_of. }
  split; [|done].
  intros c Hc. destruct Hrh6 as [_ D]. rewrite D, Ht5.
  by rewrite lookup_insert_ne.
Qed.

(** X21. [mrbc_create_task] fails by returning [NULL]: when the allocator
    has no TCB, when no VM can be opened, and when the bytecode does not
    load.  No queue changes on any of these paths.  On the last one the VM
    that was opened is closed again, while the TCB keeps its handle. *)
Theorem mrbc_create_task_fails vm_code s a t v rc :
  queues_wf s = true → tcbs s !! a = Some t →
  state t ≠ TASKSTATE_DOMANT →
  (∀ s', mrbc_raw_alloc s = Ok (None, s') →
     mrbc_create_task NDEBUG mrbc_raw_alloc MRBC_TCB_INITIALIZER mrbc_vm_open
       mrbc_load_mrb mrbc_vm_begin vm_code None s = Ok (None, s'))
  ∧ (returns_on_vms mrbc_vm_open None →
     ∃ s',
       mrbc_create_task NDEBUG mrbc_raw_alloc MRBC_TCB_INITIALIZER
         mrbc_vm_open mrbc_load_mrb mrbc_vm_begin vm_code (Some a) s
       = Ok (None, s')
       ∧ ∀ q, queue_of q s' = queue_of q s)
  ∧ ((∀ s0, ∃ vs, mrbc_vm_open s0 = Ok (Some v, with_vms vs s0)
                  ∧ is_Some (vs !! v)) →
     (∀ s0, mrbc_load_mrb (Some v) vm_code s0 = Ok (rc, s0)) → rc ≠ 0 →
     ∃ s' t',
       mrbc_create_task NDEBUG mrbc_raw_alloc MRBC_TCB_INITIALIZER
         mrbc_vm_open mrbc_load_mrb mrbc_vm_begin vm_code (Some a) s
       = Ok (None, s')
       ∧ (∀ q, queue_of q s' = queue_of q s)
       ∧ vms s' !! v = None
       ∧ tcbs s' !! a = Some t' ∧ vm t' = Some v).
Proof.
  intros Hrep%queues_wf_rep Ha Hnd.
  set (L := queues s) in *.
  set (t1 := set_priority_preemption (priority t)
               (set_timeslice TIMESLICE_TICK t)).
  assert (∀ s' t', tcbs s' = <[a := t']> (tcbs s) → next t' = next t →
            (∀ q, q_head q s' = q_head q s) →
            ∀ q, queue_of q s' = queue_of q s) as Hsame.
  { intros s' t' Ht' Hn Hh q. rewrite (rep_queue_of s L q Hrep).
    apply queue_of_is_queue. rewrite Hh, Ht'.
    eapply is_queue_ext; [|apply Hrep]. intros c _.
    destruct (decide (a = c)) as [<-|].
    - rewrite lookup_insert_eq, Ha. simpl. by rewrite Hn.
    - by rewrite lookup_insert_ne. }
  split; [|split].
  - intros s' Halloc. unfold mrbc_create_task.
    by erewrite bind_ok by (erewrite bind_ok by exact Halloc; reflexivity).
  - intros Hopen. unfold mrbc_create_task. mrun. mrun.
    rewrite !insert_insert_eq. fold t1.
    rewrite bool_decide_eq_false_2 by done. cbn [negb].
    rewrite ?bind_bind.
    match goal with |- context [bind mrbc_vm_open _ ?m] =>
      destruct (Hopen m) as (vs1 & Ho) end.
    erewrite bind_ok by exact Ho. mrun. rewrite insert_insert_eq.
    eexists. split; [reflexivity|].
    by apply (Hsame _ (set_vm None t1)).
  - intros Hopen Hload Hrc. unfold mrbc_create_task. mrun. mrun.
    rewrite !insert_insert_eq. fold t1.
    rewrite bool_decide_eq_false_2 by done. cbn [negb].
    rewrite ?bind_bind.
    match goal with |- context [bind mrbc_vm_open _ ?m] =>
      destruct (Hopen m) as (vs1 & Ho & Hv1) end.
    erewrite bind_ok by exact Ho. mrun. rewrite insert_insert_eq.
    rewrite ?bind_bind. erewrite bind_ok by apply Hload.
    rewrite (proj2 (Z.eqb_neq _ _) Hrc). cbn [negb]. mrun.
    rewrite ?bind_bind.
    erewrite bind_ok by (by apply mrbc_vm_close_ok). mrun.
    eexists _, (set_vm (Some v) t1). split; [reflexivity|]. split.
    { by apply (Hsame _ (set_vm (Some v) t1)). }
    split; [cbn [vms with_vms]; apply lookup_delete_eq|].
    split; [|done]. cbn [tcbs with_vms with_tcbs].
    by rewrite lookup_insert_eq.
Qed.

End CreateFresh.

(** ** Preemption by a task that becomes ready *)

Lemma insert_by_priority_head key (a : nat) l :
  Forall (λ c, key a < key c) l → insert_by_priority key a l = a :: l.
Proof.
  destruct 1 as [|b l Hb _]; simpl; [done|].
  by rewrite (proj2 (Z.ltb_lt _ _) Hb).
Qed.

Lemma existsb_true_of {A} (f : A → bool) l c :
  c ∈ l → f c = true → existsb f l = true.
Proof.
  intros Hc Hf. apply existsb_exists. exists c. split; [|done].
  by apply list_elem_of_In.
Qed.

(** X22. [mrbc_resume_task] of a task of the suspended queue sets the
    preemption flag of the VM of every task of the ready queue that is
    [RUNNING]; and a resumed task whose [priority_preemption] is below that
    of every ready task goes to the head of the ready queue, where the
    dispatcher takes its next task from. *)
Theorem mrbc_resume_task_preempts s u r b tb :
  invariant s = true → queue_of Q_SUSPENDED s = Some u → b ∈ u →
  tcbs s !! b = Some tb → queue_of Q_READY s = Some r →
  ∃ s',
    mrbc_resume_task NDEBUG (Some b) s = Ok (tt, s')
    ∧ (∀ c x v, c ∈ r → tcbs s' !! c = Some x →
         state x = TASKSTATE_RUNNING → vm x = Some v →
         vms s' !! v = Some (mkVm 1))
    ∧ (Forall (λ c, priority_preemption tb < prio s c) r →
       queue_of Q_READY s' = Some (b :: r))
    ∧ invariant s' = true.
Proof.
  intros Hinv%invariant_inv Hu%queue_of_queues Hin Hb Hr%queue_of_queues.
  rewrite <- Hu in Hin. set (L := queues s) in *.
  destruct (mrbc_resume_task_spec NDEBUG s L b tb Hinv Hin Hb)
    as (s' & t' & Hrun & Hinv' & Ht' & E & Hoth & Hv' & _).
  assert (b ∉ L Q_READY) as Hbr.
  { intros Hbr. destruct Hinv as ([_ Hd] & _).
    by pose proof (Hd _ _ _ Hin Hbr). }
  apply set_next_None_fields in E. simpl in E.
  destruct E as (_ & Epp & _).
  exists s'. split; [done|]. split; [|split; [|by eapply inv_invariant]].
  - intros c x v Hc Hx Hst Hvx. rewrite <- Hr in Hc.
    assert (c ≠ b) as Hcb by (by intros ->).
    specialize (Hoth c Hcb). rewrite Hx in Hoth.
    destruct (tcbs s !! c) as [x0|] eqn:Hx0; [|done].
    assert (set_next None x = set_next None x0) as E0
      by (simpl in Hoth; congruence).
    apply set_next_None_fields in E0.
    destruct E0 as (_ & _ & _ & Est & _ & _ & _ & Evm).
    rewrite Hv'. eapply preempted_running; [exact Hc|exact Hx0| |];
      congruence.
  - intros Hlow. rewrite (rep_queue_of _ _ Q_READY (proj1 Hinv')). f_equal.
    unfold moved. rewrite decide_True by done. cbv zeta.
    rewrite filter_ne_notin, Hr by done. apply insert_by_priority_head.
    assert (∀ c, prio s' c = prio s c) as Hprio
      by (by apply (kept_prio b s s' tb t')).
    eapply Forall_impl; [exact Hlow|]. intros c Hc. simpl in Hc.
    rewrite !Hprio. unfold prio at 1. by rewrite Hb.
Qed.

(** X23. When [mrbc_tick] wakes a sleeper, it sets the preemption flag of
    the VM of every task of the ready queue that is [RUNNING], and the woken
    task is on the ready queue. *)
Theorem mrbc_tick_preempts_on_wakeup s w c y :
  invariant s = true → queue_of Q_WAITING s = Some w → c ∈ w →
  tcbs s !! c = Some y → reason y = TASKREASON_SLEEP →
  wakeup_tick y = to_uint32 (tick_ s + 1) →
  ∃ s' r',
    mrbc_tick NDEBUG s = Ok (tt, s')
    ∧ queue_of Q_READY s' = Some r' ∧ c ∈ r'
    ∧ ∀ b x v, b ∈ r' → tcbs s' !! b = Some x →
        state x = TASKSTATE_RUNNING → vm x = Some v →
        vms s' !! v = Some (mkVm 1).
Proof.
  intros Hinv%invariant_inv Hw%queue_of_queues Hc Hy Hrs Hwk.
  rewrite <- Hw in Hc. set (L := queues s) in *.
  destruct (mrbc_tick_head_spec s L Hinv)
    as (s1 & Hrun & Hinv1 & Hk1 & Hm1 & Hh1 & Hhead).
  assert (tcbs s1 !! c = Some y) as Hy1.
  { pose proof (proj1 (proj1 Hinv) Q_READY) as Hq.
    destruct (L Q_READY) as [|h r0] eqn:HLr.
    - destruct Hhead as [-> _]. done.
    - destruct Hhead as (x & v & Hx & _ & Hhead).
      destruct (_ && _); destruct Hhead as [-> _]; [|done].
      rewrite lookup_insert_ne; [done|]. intros ->.
      destruct Hinv as ([_ Hd] & _).
      assert (c ∈ L Q_READY) as Hcr by (rewrite HLr; set_solver).
      by pose proof (Hd _ _ _ Hc Hcr). }
  assert (due s1 c = true) as Hdue.
  { unfold due. rewrite Hy1, Hk1, Hwk, Z.eqb_refl.
    by rewrite bool_decide_eq_true_2. }
  destruct (mrbc_tick_loop_spec NDEBUG (L Q_WAITING) (fuel_of s1) s1 L [] 0
              Hinv1)
    as (s2 & L2 & Hloop & Hinv2 & Hv2 & Hm2 & Hk2 & _ & H4); [done| |].
  { pose proof (is_queue_length _ _ _ (proj1 (proj1 Hinv1) Q_WAITING)).
    unfold fuel_of. lia. }
  rewrite <- (is_queue_head _ _ _ (proj1 (proj1 Hinv1) Q_WAITING)) in Hloop.
  rewrite (existsb_true_of _ _ c Hc Hdue) in Hloop.
  destruct (H4 c y Hc Hdue Hy1) as (Hcr & _).
  rewrite Hrun. erewrite bind_ok by exact Hloop. cbn [Z.eqb negb].
  rewrite (preempt_running_spec s2 L2 Hinv2).
  eexists _, (L2 Q_READY). split; [reflexivity|].
  assert (inv (with_vms (preempted (tcbs s2) (L2 Q_READY) (vms s2)) s2) L2)
    as Hinv3 by (apply inv_with_vms; [done|apply preempted_is_Some]).
  split; [apply rep_queue_of, Hinv3|]. split; [done|].
  intros b x v Hb Hx Hst Hvx. cbn [tcbs vms with_vms] in *.
  by eapply preempted_running.
Qed.

(** ** The dispatcher without a ready task *)

(** X24. [mrbc_run] looks at the ready queue only.  While it is empty the
    loop calls the idle hook and starts over; with an idle hook that leaves
    the memory alone it never returns, whatever the other queues hold, and
    also when there is no task at all: the test that ends the loop is reached
    only after a task has ended. *)
Theorem mrbc_run_idles_without_ready_task
    (mrbc_vm_run : ptr → M Z) (hal_idle_cpu : M unit)
    (irq_ticks : nat → nat) s :
  q_ready_ s = None → hal_idle_cpu s = Ok (tt, s) →
  mrbc_run_body NDEBUG mrbc_vm_run hal_idle_cpu irq_ticks s = Ok (Continue, s)
  ∧ ∀ n, mrbc_run NDEBUG mrbc_vm_run hal_idle_cpu irq_ticks n s = Err OutOfFuel.
Proof.
  intros Hq Hidle.
  assert (mrbc_run_body NDEBUG mrbc_vm_run hal_idle_cpu irq_ticks s = Ok (Continue, s))
    as Hbody.
  { unfold mrbc_run_body. erewrite bind_ok by apply get_q_ok.
    cbn [q_head]. rewrite Hq. by erewrite bind_ok by exact Hidle. }
  split; [done|]. induction n as [|n IH]; [done|].
  simpl mrbc_run. by erewrite bind_ok by exact Hbody.
Qed.

(** ** The mutex bindings *)

Lemma queue_of_with_mutexes q m s :
  queue_of q (with_mutexes m s) = queue_of q s.
Proof. by destruct q. Qed.

(** X25. The bindings [c_mutex_lock] and [c_mutex_unlock] work on the one
    mutex [mutex1].  Called one after the other by the same task, with
    [mutex1] unlocked and no task waiting for it, both return; in between
    the mutex is locked with the caller as its owner, and afterwards the
    memory is as before, but for the owner field of [mutex1]. *)
Theorem c_mutex_lock_unlock_round_trip s r w a x vmp v :
  queue_of Q_READY s = Some r → find (runs_vm s vmp) r = Some a →
  queue_of Q_WAITING s = Some w → find (waits_for s mutex1) w = None →
  mutexes s !! 0%nat = Some x → lock x = 0 →
  ∃ s1,
    c_mutex_lock NDEBUG vmp v s = Ok (tt, s1)
    ∧ mutexes s1 !! 0%nat = Some (mkMutex 1 (Some a))
    ∧ c_mutex_unlock NDEBUG vmp v s1
      = Ok (tt, with_mutexes (<[0%nat := mkMutex 0 (Some a)]> (mutexes s)) s).
Proof.
  intros Hr Hfind Hw Hnone%find_none_Forall Hm Hlk.
  set (s1 := with_mutexes (<[0%nat := mkMutex 1 (Some a)]> (mutexes s)) s).
  pose proof (find_requested_task_spec s vmp r Hr) as Hf.
  rewrite Hfind in Hf.
  assert (find_requested_task vmp s1 = Ok (Some a, s1)) as Hf1.
  { rewrite (find_requested_task_spec s1 vmp r)
      by (unfold s1; by rewrite queue_of_with_mutexes).
    by rewrite <- Hfind. }
  exists s1. split; [|split].
  - unfold c_mutex_lock. erewrite bind_ok by exact Hf.
    erewrite bind_ok by (by apply assert_ok).
    by erewrite bind_ok by (by apply (mrbc_mutex_lock_free s 0%nat x)).
  - unfold s1. cbn [mutexes with_mutexes]. by rewrite lookup_insert_eq.
  - unfold c_mutex_unlock. erewrite bind_ok by exact Hf1.
    erewrite bind_ok by (by apply assert_ok).
    pose proof (mrbc_mutex_unlock_no_waiter s1 0%nat (mkMutex 1 (Some a)) w)
      as H.
    cbn [tcb] in H. erewrite bind_ok.
    2:{ apply H; try done. unfold s1. cbn [mutexes with_mutexes].
        by rewrite lookup_insert_eq. }
    unfold ret, s1. cbn [mutexes with_mutexes].
    rewrite insert_insert_eq. by destruct s.
Qed.

End MoreOfTheMonitor.

(** ** The further properties on the sample memory *)

Lemma find_requested_task_first_witness :
  ∃ res,
    find_requested_task (Some 2%nat) sample = Ok (res, sample)
    ∧ match res with
      | Some a => ∃ r1 r2, [1%nat; 2%nat] = r1 ++ a :: r2
                           ∧ Forall (λ c, runs_vm sample (Some 2%nat) c
                                          = false) r1
                           ∧ runs_vm sample (Some 2%nat) a = true
      | None => Forall (λ c, runs_vm sample (Some 2%nat) c = false)
                  [1%nat; 2%nat]
      end.
Proof.
  apply (find_requested_task_first sample [1%nat; 2%nat] (Some 2%nat)).
  reflexivity.
Defined.

Lemma q_insert_delete_round_trip_witness :
  ∃ s1 l1,
    q_insert_task false (Some 6%nat) sample = Ok (tt, s1)
    ∧ queue_of Q_READY s1 = Some l1 ∧ 6%nat ∈ l1
    ∧ q_delete_task false (Some 6%nat) s1
      = Ok (tt, with_tcbs
                  (<[6%nat := set_next None
                                (sample_tcb None 128 10 TASKSTATE_READY
                                   TASKREASON_SLEEP None (Some 6%nat))]>
                     (tcbs sample)) sample).
Proof.
  apply (q_insert_delete_round_trip false sample 6%nat _ Q_READY);
    reflexivity.
Defined.

Lemma mrbc_mutex_trylock_excludes_witness :
  let s1 := with_mutexes (<[0%nat := mkMutex 1 (Some 1%nat)]> (mutexes boot))
              boot in
  mrbc_mutex_trylock (Some 0%nat) (Some 1%nat) boot = Ok (0, s1)
  ∧ mrbc_mutex_lock false (Some 0%nat) (Some 1%nat) boot = Ok (0, s1)
  ∧ ∀ tcbp', mrbc_mutex_trylock (Some 0%nat) tcbp' s1 = Ok (1, s1).
Proof.
  apply (mrbc_mutex_trylock_excludes false boot 0%nat MRBC_MUTEX_INITIALIZER
           (Some 1%nat)); reflexivity.
Defined.

Lemma mrbc_mutex_lock_unlock_round_trip_witness :
  ∃ s1,
    mrbc_mutex_lock false (Some 0%nat) (Some 1%nat) boot = Ok (0, s1)
    ∧ mutexes s1 !! 0%nat = Some (mkMutex 1 (Some 1%nat))
    ∧ mrbc_mutex_unlock false (Some 0%nat) (Some 1%nat) s1
      = Ok (0, with_mutexes (<[0%nat := mkMutex 0 (Some 1%nat)]>
                               (mutexes boot)) boot).
Proof.
  apply (mrbc_mutex_lock_unlock_round_trip false boot 0%nat
           MRBC_MUTEX_INITIALIZER [] (Some 1%nat)); reflexivity.
Defined.

Lemma mrbc_mutex_lock_unlock_hand_over_witness :
  ∃ s1 s2,
    mrbc_mutex_lock false (Some 1%nat) (Some 1%nat)
      (with_mutexes (<[1%nat := mkMutex 1 (Some 2%nat)]> (mutexes sample))
         sample) = Ok (0, s1)
    ∧ mrbc_mutex_unlock false (Some 1%nat) (Some 2%nat) s1 = Ok (0, s2)
    ∧ mutexes s2 !! 1%nat = Some (mkMutex 1 (Some 1%nat))
    ∧ queue_of Q_WAITING s2 = Some [3%nat]
    ∧ invariant s2 = true.
Proof.
  destruct (mrbc_mutex_lock_unlock_hand_over false
              (with_mutexes
                 (<[1%nat := mkMutex 1 (Some 2%nat)]> (mutexes sample))
                 sample)
              [1%nat; 2%nat] [3%nat] 1%nat
              (sample_tcb (Some 2%nat) 128 7 TASKSTATE_RUNNING
                 TASKREASON_SLEEP None (Some 1%nat))
              1%nat (mkMutex 1 (Some 2%nat)))
    as (s1 & w1 & s2 & t2 & l1 & l2 & H1 & _ & _ & H2 & H3 & _ & _ & _ & _
        & H4 & _ & _ & _ & _ & H5);
    [reflexivity|reflexivity|decide_by_compute|reflexivity|reflexivity
    |reflexivity|reflexivity|reflexivity|].
  exists s1, s2. by repeat split.
Defined.

Lemma mrbc_tick_wakes_sleepers_witness :
  ∃ s' r' w',
    mrbc_tick false sample = Ok (tt, s')
    ∧ tick_ s' = to_uint32 (5 + 1)
    ∧ invariant s' = true
    ∧ queue_of Q_READY s' = Some r' ∧ queue_of Q_WAITING s' = Some w'.
Proof.
  destruct (mrbc_tick_wakes_sleepers false sample [3%nat])
    as (s' & r' & w' & H1 & H2 & H3 & H4 & H5 & _);
    [reflexivity|reflexivity|].
  exists s', r', w'. by repeat split.
Defined.

Lemma mrbc_tick_charges_running_witness :
  ∃ s' x' v,
    mrbc_tick false sample = Ok (tt, s')
    ∧ tcbs s' !! 1%nat = Some x'
    ∧ timeslice x' = 7 - 1
    ∧ state x' = TASKSTATE_RUNNING
    ∧ vm (sample_tcb (Some 2%nat) 128 7 TASKSTATE_RUNNING TASKREASON_SLEEP
            None (Some 1%nat)) = Some v.
Proof.
  destruct (mrbc_tick_charges_running false sample 1%nat [2%nat] [3%nat]
              (sample_tcb (Some 2%nat) 128 7 TASKSTATE_RUNNING
                 TASKREASON_SLEEP None (Some 1%nat)))
    as (s' & x' & v & H1 & H2 & H3 & H4 & H5 & _);
    [reflexivity|reflexivity|reflexivity|reflexivity|reflexivity
    |simpl; lia|].
  exists s', x', v. by repeat split.
Defined.

Lemma mrbc_tick_only_counts_witness :
  mrbc_tick false boot = Ok (tt, with_tick (to_uint32 (0 + 1)) boot).
Proof.
  apply (mrbc_tick_only_counts false boot []);
    [reflexivity|reflexivity|reflexivity|].
  intros c y Hc. by apply elem_of_nil in Hc.
Defined.

Lemma mrbc_sleep_ms_wakes_after_witness :
  ∃ s1,
    mrbc_sleep_ms false (Some 1%nat) 3 sample = Ok (tt, s1)
    ∧ ∃ s3 t3 r3,
        mrbc_ticks false (Z.to_nat 3) s1 = Ok (tt, s3)
        ∧ tcbs s3 !! 1%nat = Some t3 ∧ state t3 = TASKSTATE_READY
        ∧ timeslice t3 = TIMESLICE_TICK
        ∧ queue_of Q_READY s3 = Some r3 ∧ 1%nat ∈ r3.
Proof.
  destruct (mrbc_sleep_ms_wakes_after false sample [1%nat; 2%nat] 1%nat
              (sample_tcb (Some 2%nat) 128 7 TASKSTATE_RUNNING
                 TASKREASON_SLEEP None (Some 1%nat)) 3)
    as (s1 & H1 & _ & H2);
    [reflexivity|reflexivity|decide_by_compute|reflexivity|lia|].
  by exists s1.
Defined.

Lemma mrbc_run_round_robin_witness :
  ∃ s3 t3 l1 l2,
    mrbc_run_body false guest_relinquishes sample_idle no_irq sample
    = Ok (Continue, s3)
    ∧ tcbs s3 !! 1%nat = Some t3
    ∧ state t3 = TASKSTATE_READY ∧ timeslice t3 = TIMESLICE_TICK
    ∧ filter (λ c, c ≠ 1%nat) [1%nat; 2%nat] = l1 ++ l2
    ∧ queue_of Q_READY s3 = Some (l1 ++ 1%nat :: l2)
    ∧ invariant s3 = true.
Proof.
  edestruct (mrbc_run_round_robin false guest_relinquishes sample_idle no_irq
               sample 1%nat
               (sample_tcb (Some 2%nat) 128 7 TASKSTATE_RUNNING
                  TASKREASON_SLEEP None (Some 1%nat))
               1%nat 0)
    as (s3 & t3 & l1 & l2 & H1 & H2 & H3 & H4 & _ & H5 & H6 & _ & _ & _ & _
        & _ & H7);
    [reflexivity|reflexivity|reflexivity|by eexists|reflexivity|lia
    |reflexivity|reflexivity|decide_by_compute|reflexivity|reflexivity
    |reflexivity|].
  exists s3, t3, l1, l2. by repeat split.
Defined.

Lemma mrbc_run_keeps_place_witness :
  ∃ s2,
    guest_suspends (Some 1%nat)
      (dispatched sample 1%nat
         (sample_tcb (Some 2%nat) 128 7 TASKSTATE_RUNNING TASKREASON_SLEEP
            None (Some 1%nat)) 1%nat) = Ok (0, s2)
    ∧ mrbc_run_body false guest_suspends sample_idle no_irq sample
      = Ok (Continue, s2).
Proof.
  edestruct (mrbc_run_keeps_place false guest_suspends sample_idle no_irq sample
               1%nat
               (sample_tcb (Some 2%nat) 128 7 TASKSTATE_RUNNING
                  TASKREASON_SLEEP None (Some 1%nat))
               1%nat 0)
    as [H _];
    [reflexivity|reflexivity|reflexivity|by eexists|reflexivity|lia
    |reflexivity|].
  eexists. split; [reflexivity|]. apply H. by vm_compute.
Defined.

Lemma relinquish_yields_to_peers_witness :
  ∃ s3 t3 l1 l2,
    mrbc_run_body false guest_relinquishes sample_idle no_irq sample
    = Ok (Continue, s3)
    ∧ tcbs s3 !! 1%nat = Some t3
    ∧ state t3 = TASKSTATE_READY ∧ timeslice t3 = TIMESLICE_TICK
    ∧ [2%nat] = l1 ++ l2
    ∧ queue_of Q_READY s3 = Some (l1 ++ 1%nat :: l2)
    ∧ invariant s3 = true.
Proof.
  destruct (relinquish_yields_to_peers false sample_idle no_irq sample 1%nat
              [2%nat]
              (sample_tcb (Some 2%nat) 128 7 TASKSTATE_RUNNING
                 TASKREASON_SLEEP None (Some 1%nat)))
    as (s3 & t3 & l1 & l2 & H1 & H2 & H3 & H4 & _ & H5 & H6 & _ & _ & H7);
    [reflexivity|reflexivity|reflexivity|].
  exists s3, t3, l1, l2. by repeat split.
Defined.

Lemma change_priority_takes_effect_witness :
  ∃ s3 t3 l1 l2,
    mrbc_run_body false
      (guest_changes_priority
         [mkValue MRB_TT_OTHER 0; mkValue MRB_TT_FIXNUM 300])
      sample_idle no_irq sample = Ok (Continue, s3)
    ∧ tcbs s3 !! 1%nat = Some t3
    ∧ priority t3 = 300 mod 256
    ∧ priority_preemption t3 = 300 mod 256
    ∧ [2%nat] = l1 ++ l2
    ∧ queue_of Q_READY s3 = Some (l1 ++ 1%nat :: l2)
    ∧ invariant s3 = true.
Proof.
  destruct (change_priority_takes_effect false sample_idle no_irq sample 1%nat
              [2%nat]
              (sample_tcb (Some 2%nat) 128 7 TASKSTATE_RUNNING
                 TASKREASON_SLEEP None (Some 1%nat))
              (mkValue MRB_TT_OTHER 0) (mkValue MRB_TT_FIXNUM 300))
    as (s3 & t3 & l1 & l2 & H1 & H2 & _ & _ & H3 & H4 & H5 & H6 & _ & _ & _
        & H7);
    [reflexivity|reflexivity|reflexivity|].
  exists s3, t3, l1, l2. by repeat split.
Defined.

Lemma bindings_keep_invariant_witness :
  ∃ s',
    c_suspend_task false (Some 1%nat)
      [mkValue MRB_TT_OTHER 0; mkValue MRB_TT_FIXNUM 0] sample = Ok (tt, s')
    ∧ invariant s' = true.
Proof.
  destruct (bindings_keep_invariant false (λ _, 0) sample (Some 1%nat)
              (mkValue MRB_TT_OTHER 0) (mkValue MRB_TT_FIXNUM 0))
    as (_ & _ & _ & _ & H & _); [reflexivity|exact H].
Defined.

Lemma c_resume_task_requeues_caller_witness :
  ∃ s',
    c_resume_task false (Some 1%nat) [] sample = Ok (tt, s')
    ∧ (∀ q, q ≠ Q_READY → queue_of q s' = queue_of q sample)
    ∧ invariant s' = true.
Proof.
  destruct (c_resume_task_requeues_caller false sample (Some 1%nat) [])
    as (s' & H1 & H2 & _ & _ & H3); [reflexivity|].
  by exists s'.
Defined.

Lemma operations_keep_queues_sorted_witness :
  (∃ s', mrbc_tick false sample = Ok (tt, s') ∧ queues_sorted s' = true)
  ∧ (∀ ms, ∃ s', mrbc_sleep_ms false (Some 1%nat) ms sample = Ok (tt, s')
                 ∧ queues_sorted s' = true).
Proof.
  destruct (operations_keep_queues_sorted false sample [1%nat; 2%nat] 1%nat
              (sample_tcb (Some 2%nat) 128 7 TASKSTATE_RUNNING
                 TASKREASON_SLEEP None (Some 1%nat)))
    as (H1 & H2 & _);
    [reflexivity|reflexivity|reflexivity|decide_by_compute|reflexivity|].
  by split.
Defined.

Lemma mrbc_mutex_init_frees_witness :
  mrbc_mutex_init (ret None) None boot = Ok (None, boot).
Proof.
  destruct (mrbc_mutex_init_frees false (ret None) boot 0%nat None)
    as (_ & _ & H).
  apply H. reflexivity.
Defined.

Lemma mrbc_mutex_unlock_checks_by_assert_witness :
  mrbc_mutex_unlock false (Some 0%nat) (Some 2%nat) sample
  = Err AssertionFailed
  ∧ mrbc_mutex_unlock true (Some 0%nat) (Some 2%nat) sample
    = mrbc_mutex_unlock true (Some 0%nat) (Some 1%nat) sample.
Proof.
  apply (mrbc_mutex_unlock_checks_by_assert sample 0%nat
           (mkMutex 1 (Some 1%nat)) (Some 2%nat)); [reflexivity|].
  left. discriminate.
Defined.

Lemma relinquish_keeps_processor_without_timer_witness :
  mrbc_run_slices guest_relinquishes 5 (Some 1%nat) 0 sample
  = Err OutOfFuel.
Proof.
  destruct (relinquish_keeps_processor_without_timer sample 1%nat [2%nat]
              (sample_tcb (Some 2%nat) 128 7 TASKSTATE_RUNNING
                 TASKREASON_SLEEP None (Some 1%nat)))
    as [_ H];
    [reflexivity|reflexivity|reflexivity|reflexivity|simpl; lia|].
  apply H.
Defined.

Lemma mrbc_create_task_fresh_witness :
  ∃ s' t',
    mrbc_create_task false sample_raw_alloc sample_initializer sample_vm_open
      sample_load_mrb sample_vm_begin [] None boot = Ok (Some 1%nat, s')
    ∧ tcbs s' !! 1%nat = Some t'
    ∧ state t' = TASKSTATE_READY
    ∧ timeslice t' = TIMESLICE_TICK
    ∧ vm t' = Some 1%nat
    ∧ queue_of Q_READY s' = Some [1%nat].
Proof.
  destruct (mrbc_create_task_fresh false sample_raw_alloc sample_initializer
              sample_vm_open sample_load_mrb sample_vm_begin [] boot
              1%nat 1%nat Q_READY [])
    as (s' & t' & l1 & l2 & H1 & H2 & H3 & H4 & _ & _ & H5 & H6 & H7 & _);
    [reflexivity|reflexivity|reflexivity|discriminate|reflexivity
    |intros s0; eexists; reflexivity
    |intros s0; exists (vms s0); by destruct s0
    |intros s0; exists (vms s0); by destruct s0
    |reflexivity|].
  exists s', t'. do 5 (split; [done|]).
  destruct l1, l2; try discriminate. exact H7.
Defined.

Lemma mrbc_create_task_fails_witness :
  mrbc_create_task false (ret None) sample_initializer sample_vm_open
    sample_load_mrb sample_vm_begin [] None sample = Ok (None, sample).
Proof.
  destruct (mrbc_create_task_fails false (ret None) sample_initializer
              sample_vm_open sample_load_mrb sample_vm_begin [] sample 6%nat
              (sample_tcb None 128 10 TASKSTATE_READY TASKREASON_SLEEP None
                 (Some 6%nat)) 1%nat 1)
    as (H & _); [reflexivity|reflexivity|discriminate|].
  apply H. reflexivity.
Defined.

Lemma mrbc_resume_task_preempts_witness :
  ∃ s',
    mrbc_resume_task false (Some 2%nat) sample_suspended = Ok (tt, s')
    ∧ (∀ c x v, c ∈ [1%nat] → tcbs s' !! c = Some x →
         state x = TASKSTATE_RUNNING → vm x = Some v →
         vms s' !! v = Some (mkVm 1))
    ∧ invariant s' = true.
Proof.
  edestruct (mrbc_resume_task_preempts false sample_suspended [2%nat]
               [1%nat] 2%nat)
    as (s' & H1 & H2 & _ & H3);
    [reflexivity|reflexivity|decide_by_compute|reflexivity|reflexivity|].
  by exists s'.
Defined.

Lemma mrbc_tick_preempts_on_wakeup_witness :
  ∃ s' r',
    mrbc_tick false sample_asleep = Ok (tt, s')
    ∧ queue_of Q_READY s' = Some r' ∧ 2%nat ∈ r'
    ∧ ∀ b x v, b ∈ r' → tcbs s' !! b = Some x →
        state x = TASKSTATE_RUNNING → vm x = Some v →
        vms s' !! v = Some (mkVm 1).
Proof.
  eapply (mrbc_tick_preempts_on_wakeup false sample_asleep
            [3%nat; 2%nat] 2%nat);
    [reflexivity|reflexivity|decide_by_compute|reflexivity|reflexivity
    |reflexivity].
Defined.

Lemma mrbc_run_idles_without_ready_task_witness :
  mrbc_run_body false guest_ends sample_idle no_irq boot = Ok (Continue, boot)
  ∧ ∀ n, mrbc_run false guest_ends sample_idle no_irq n boot = Err OutOfFuel.
Proof.
  apply (mrbc_run_idles_without_ready_task false guest_ends sample_idle
           no_irq boot); reflexivity.
Defined.

Lemma c_mutex_lock_unlock_round_trip_witness :
  ∃ s1,
    c_mutex_lock false (Some 1%nat) [] sample_created = Ok (tt, s1)
    ∧ mutexes s1 !! 0%nat = Some (mkMutex 1 (Some 1%nat))
    ∧ c_mutex_unlock false (Some 1%nat) [] s1
      = Ok (tt, with_mutexes (<[0%nat := mkMutex 0 (Some 1%nat)]>
                                (mutexes sample_created)) sample_created).
Proof.
  apply (c_mutex_lock_unlock_round_trip false sample_created [1%nat] []
           1%nat MRBC_MUTEX_INITIALIZER (Some 1%nat) []); reflexivity.
Defined.
